(** * web_recon: a shallow embedding of the reconnaissance pipeline runner

    The development follows [src/web_recon.py], class [WebSecurityRecon].

    - Python [str] values are lists of Unicode code points.
    - The workspace is a finite map from path strings to files; a file is
      text, or bytes that the text layer cannot decode.
    - Every method is a computation in a small monad that threads the file
      system and the outside world, may raise a Python exception, and
      records what the script does (lines printed, files opened, commands
      handed to [subprocess.run]).
    - The wrapped command-line tools, [json.load] and the Unicode tables of
      [urllib.parse] are not part of the repository; they are the fields of
      an environment record over which every theorem is quantified. *)

From stdpp Require Import prelude strings pretty gmap sorting lexico.

Local Open Scope N_scope.
Local Set Warnings "-register-all,-clear-no-such-hyp".

(** ** Python strings *)

Abbreviation str := (list N).

(** The source file is UTF-8; a literal of the script is the decoding of its
    bytes. *)
Fixpoint utf8_decode (bs : list N) : str :=
  match bs with
  | [] => []
  | b :: r =>
    if b <? 0x80 then b :: utf8_decode r
    else if b <? 0xE0 then
      match r with
      | b1 :: r' => ((b - 0xC0) * 64 + (b1 - 0x80)) :: utf8_decode r'
      | _ => []
      end
    else if b <? 0xF0 then
      match r with
      | b1 :: b2 :: r' =>
        ((b - 0xE0) * 4096 + (b1 - 0x80) * 64 + (b2 - 0x80)) :: utf8_decode r'
      | _ => []
      end
    else
      match r with
      | b1 :: b2 :: b3 :: r' =>
        ((b - 0xF0) * 262144 + (b1 - 0x80) * 4096 + (b2 - 0x80) * 64
         + (b3 - 0x80)) :: utf8_decode r'
      | _ => []
      end
  end.

Definition py (s : string) : str :=
  utf8_decode (Ascii.N_of_ascii <$> String.list_ascii_of_string s).
Global Arguments py s%_string.

(** The line feed, which Rocq literals cannot escape. *)
Definition LF : N := 10.
Definition nl : str := [LF].

(** [str(n)] on integers. *)
Definition str_of_Z (z : Z) : str := py (pretty z).
Definition str_of_nat (n : nat) : str := py (pretty n).

(** [c.isspace()], the table behind [str.strip()] and [str.split()]. *)
Definition isspace (c : N) : bool :=
  ((9 <=? c) && (c <=? 13)) || ((28 <=? c) && (c <=? 32))
  || (c =? 0x85) || (c =? 0xA0) || (c =? 0x1680)
  || ((0x2000 <=? c) && (c <=? 0x200A))
  || (c =? 0x2028) || (c =? 0x2029) || (c =? 0x202F) || (c =? 0x205F)
  || (c =? 0x3000).

Fixpoint lstrip (s : str) : str :=
  match s with
  | [] => []
  | c :: t => if isspace c then lstrip t else s
  end.

Definition rstrip (s : str) : str := reverse (lstrip (reverse s)).

(** [s.strip()] *)
Definition strip (s : str) : str := rstrip (lstrip s).

(** [s.split()]: the maximal runs of non-whitespace characters. *)
Fixpoint split_go (cur : str) (s : str) : list str :=
  match s with
  | [] => match cur with [] => [] | _ => [reverse cur] end
  | c :: t =>
    if isspace c
    then match cur with [] => split_go [] t | _ => reverse cur :: split_go [] t end
    else split_go (c :: cur) t
  end.

Definition split (s : str) : list str := split_go [] s.

(** [s.startswith(pat)] and [pat in s]. *)
Fixpoint startswith (pat s : str) : bool :=
  match pat, s with
  | [], _ => true
  | _ :: _, [] => false
  | p :: pat', c :: s' => (p =? c) && startswith pat' s'
  end.

Fixpoint str_in (pat s : str) : bool :=
  startswith pat s || match s with [] => false | _ :: t => str_in pat t end.

(** [s.find(c)] for a single character, [None] standing for [-1]. *)
Fixpoint find_char (c : N) (s : str) : option nat :=
  match s with
  | [] => None
  | x :: t => if x =? c then Some 0%nat else S <$> find_char c t
  end.

(** Text files are opened with the default [newline=None]: on reading, a
    carriage return, with or without a following line feed, becomes a line
    feed. *)
Fixpoint universal_newlines (s : str) : str :=
  match s with
  | [] => []
  | c :: t =>
    if c =? 13 then
      match t with
      | c' :: t' => if c' =? 10 then LF :: universal_newlines t'
                    else LF :: universal_newlines t
      | [] => [LF]
      end
    else c :: universal_newlines t
  end.

(** The lines of a text, each with its terminator (as [for line in f]). *)
Fixpoint lines_go (cur : str) (s : str) : list str :=
  match s with
  | [] => match cur with [] => [] | _ => [reverse cur] end
  | c :: t =>
    if c =? LF then reverse (c :: cur) :: lines_go [] t
    else lines_go (c :: cur) t
  end.

Definition readlines (content : str) : list str :=
  lines_go [] (universal_newlines content).

(** [f.readline()] on a freshly opened file. *)
Definition readline (content : str) : str :=
  match readlines content with [] => [] | l :: _ => l end.

(** Python compares strings by code point, the shorter of two prefixes
    first: stdpp's lexicographic order on lists. *)
Definition str_le (a b : str) : Prop := lexico a b ∨ a = b.

Global Instance str_le_dec : RelDecision str_le.
Proof.
  intros a b. unfold str_le.
  destruct (trichotomyT lexico a b) as [[?|?]|?].
  - left; by left.
  - left; by right.
  - right. intros [?|?].
    + by apply (irreflexivity lexico a); trans b.
    + subst. by apply (irreflexivity lexico b).
Defined.

(** [sorted(xs)] *)
Definition sorted (xs : list str) : list str := merge_sort str_le xs.

(** ** Exceptions, events and the outside world *)

(** The exception classes the script can meet.  All of them derive from
    [Exception]; [KeyboardInterrupt] and [SystemExit], which do not, are
    signals from the user and not outcomes of a call. *)
Inductive exn_class :=
  | CalledProcessError | FileNotFoundError | PermissionError | OSError
  | ValueError | JSONDecodeError | AttributeError | TypeError | IndexError
  | UnicodeDecodeError.

Global Instance exn_class_eq_dec : EqDecision exn_class.
Proof. solve_decision. Defined.

(** An exception with its [str(e)]. *)
Record exn := Exn { cls : exn_class; msg : str }.

Inductive result (A : Type) :=
  | Ok (a : A)
  | Raise (e : exn).
Global Arguments Ok {A} a.
Global Arguments Raise {A} e.

(** What the script does to its surroundings, in order. *)
Inductive event :=
  | EPrint (text : str)              (* print(text) *)
  | EOpenRead (path : str)           (* open(path, 'r') *)
  | EWrite (path content : str)      (* open(path, 'w'), what was written *)
  | EExec (argv : list str).         (* subprocess.run(argv, ...) *)

(** A file of the workspace, as Python's text layer sees it.  The files
    are written by the tools, so their bytes need not be text in the
    locale's encoding.  [Text content]: the bytes decode to [content].
    [Garbled first_line message]: the codec rejects the bytes somewhere;
    reading the file to its end raises [UnicodeDecodeError] with
    [message]; [f.readline()] still returns [line] when [first_line] is
    [Some line] (the bytes it decodes to find the first line are sound),
    and raises the same error when it is [None]. *)
Inductive file :=
  | Text (content : str)
  | Garbled (first_line : option str) (message : str).

Global Instance file_eq_dec : EqDecision file.
Proof. solve_decision. Defined.

Abbreviation files := (gmap (list N) file).

(** The value [json.load] returns. *)
Inductive json :=
  | JNone
  | JBool (b : bool)
  | JInt (z : Z)
  | JFloat (text : str)
  | JStr (s : str)
  | JList (xs : list json)
  | JDict (d : gmap (list N) json).

(** How a child process ended: with a return code, or not started at all
    ([Popen] raised). *)
Inductive exit :=
  | Exited (returncode : Z)
  | NotStarted (e : exn).

Record completed (X : Type) := Completed {
  status : exit;
  stdout : file;          (* the bytes written to standard output *)
  files_after : files;
  ext_after : X
}.
Global Arguments Completed {X}.
Global Arguments status {X}.
Global Arguments stdout {X}.
Global Arguments files_after {X}.
Global Arguments ext_after {X}.

(** Everything that is not code of the repository. *)
Record Env := {
  (* the state of the network and of the machine outside the workspace *)
  Ext : Type;
  (* a child process: argv, the files and the outside world it starts in *)
  run_process : list str → files → Ext → completed Ext;
  (* str(e) of the CalledProcessError for a return code and a command *)
  called_process_error_str : Z → list str → str;
  (* json.load on the text of a file: the value, or the decoder's message *)
  json_load : str → json + str;
  (* repr(s) of a string *)
  repr : str → str;
  (* unicodedata.normalize('NFKC', s) *)
  nfkc : str → str;
  (* urllib.parse._check_bracketed_host: the message of its ValueError *)
  check_bracketed_host : str → option str
}.

(** ** urllib.parse.urlsplit, scheme and netloc (CPython 3.12) *)

Definition is_ascii_alpha (c : N) : bool :=
  ((65 <=? c) && (c <=? 90)) || ((97 <=? c) && (c <=? 122)).
Definition is_digit (c : N) : bool := (48 <=? c) && (c <=? 57).
(** [scheme_chars]: letters, digits and [+-.] *)
Definition scheme_char (c : N) : bool :=
  is_ascii_alpha c || is_digit c || (c =? 43) || (c =? 45) || (c =? 46).
(** [str.lower] on the characters of a scheme *)
Definition lower_char (c : N) : N :=
  if (65 <=? c) && (c <=? 90) then c + 32 else c.
Definition isascii (s : str) : bool := forallb (λ c, c <? 128) s.

Fixpoint lstrip_c0 (s : str) : str :=
  match s with
  | [] => []
  | c :: t => if c <=? 0x20 then lstrip_c0 t else s
  end.

Definition remove_tab_cr_lf (s : str) : str :=
  List.filter (λ c, negb ((c =? 9) || (c =? 13) || (c =? 10))) s.

Definition netloc_delim (c : N) : bool := (c =? 47) || (c =? 63) || (c =? 35).

(** [_splitnetloc(url, 2)]: up to the first of [/?#] *)
Fixpoint until_delim (s : str) : str :=
  match s with
  | [] => []
  | c :: t => if netloc_delim c then [] else c :: until_delim t
  end.

Fixpoint until_char (c : N) (s : str) : str :=
  match s with
  | [] => []
  | x :: t => if x =? c then [] else x :: until_char c t
  end.

Fixpoint after_char (c : N) (s : str) : str :=
  match s with
  | [] => []
  | x :: t => if x =? c then t else after_char c t
  end.

Definition remove_char (c : N) (s : str) : str :=
  List.filter (λ x, negb (x =? c)) s.

Section urlsplit.
Variable E : Env.

Definition checknetloc (netloc : str) : result unit :=
  if bool_decide (netloc = []) || isascii netloc then Ok tt
  else
    let n := remove_char 63 (remove_char 35 (remove_char 58 (remove_char 64 netloc))) in
    let netloc2 := nfkc E n in
    if bool_decide (n = netloc2) then Ok tt
    else if existsb (λ c, bool_decide (c ∈ netloc2)) [47; 63; 35; 64; 58]
    then Raise (Exn ValueError (py "netloc '" ++ netloc ++
           py "' contains invalid characters under NFKC normalization"))
    else Ok tt.

Definition split_scheme (url : str) : str * str :=
  match find_char 58 url with
  | Some (S i) =>
    match url with
    | c0 :: _ =>
      if is_ascii_alpha c0 && forallb scheme_char (take (S i) url)
      then (lower_char <$> take (S i) url, drop (S (S i)) url)
      else ([], url)
    | [] => ([], url)
    end
  | _ => ([], url)
  end.

(** The [scheme] and [netloc] fields of [urlparse(url)]. *)
Definition urlparse (url : str) : result (str * str) :=
  let url := remove_tab_cr_lf (lstrip_c0 url) in
  let '(scheme, url) := split_scheme url in
  if startswith (py "//") url then
    let netloc := until_delim (drop 2 url) in
    let lb := bool_decide (91 ∈ netloc) in
    let rb := bool_decide (93 ∈ netloc) in
    if (lb && negb rb) || (rb && negb lb)
    then Raise (Exn ValueError (py "Invalid IPv6 URL"))
    else
      match (if lb && rb
             then check_bracketed_host E (until_char 93 (after_char 91 netloc))
             else None) with
      | Some m => Raise (Exn ValueError m)
      | None =>
        match checknetloc netloc with
        | Ok _ => Ok (scheme, netloc)
        | Raise e => Raise e
        end
      end
  else Ok (scheme, []).
End urlsplit.

(** ** The effect monad *)

Section Model.
Variable E : Env.

Record world := World { fs : files; ext : Ext E }.

(** A computation: its value or exception, the world it leaves, and the
    events it produced. *)
Definition M (A : Type) : Type := world → result A * world * list event.

Definition ret {A} (a : A) : M A := λ w, (Ok a, w, []).

Definition bind {A B} (m : M A) (f : A → M B) : M B := λ w,
  match m w with
  | (Ok a, w1, ev1) => let '(r, w2, ev2) := f a w1 in (r, w2, ev1 ++ ev2)
  | (Raise e, w1, ev1) => (Raise e, w1, ev1)
  end.

Global Instance M_ret : MRet M := @ret.
Global Instance M_bind : MBind M := λ A B f m, bind m f.

(** A pure library call that may raise. *)
Definition lift {A} (r : result A) : M A := λ w, (r, w, []).

(** [try: body except Exception as e: handler(e)] *)
Definition try_except {A} (body : M A) (handler : exn → M A) : M A := λ w,
  match body w with
  | (Ok a, w1, ev1) => (Ok a, w1, ev1)
  | (Raise e, w1, ev1) =>
    let '(r, w2, ev2) := handler e w1 in (r, w2, ev1 ++ ev2)
  end.

(** [try: body except (C1, C2, ...): handler]: other classes propagate. *)
Definition try_except_of {A} (classes : list exn_class) (body : M A)
    (handler : exn → M A) : M A := λ w,
  match body w with
  | (Ok a, w1, ev1) => (Ok a, w1, ev1)
  | (Raise e, w1, ev1) =>
    if bool_decide (cls e ∈ classes)
    then let '(r, w2, ev2) := handler e w1 in (r, w2, ev1 ++ ev2)
    else (Raise e, w1, ev1)
  end.

(** ** Console, files and processes *)

Definition print (text : str) : M unit := λ w, (Ok tt, w, [EPrint text]).

(** [path.exists()] *)
Definition exists_ (path : str) : M bool := λ w,
  (Ok (bool_decide (is_Some (fs w !! path))), w, []).

(** [open(path, 'r')] on a path without a file *)
Definition no_such_file (path : str) : exn :=
  Exn FileNotFoundError
    (py "[Errno 2] No such file or directory: " ++ repr E path).

(** [with open(path, 'r') as f] and a read of the file to its end
    ([for line in f], [json.load(f)]): the text of the file.  The bytes are
    decoded as they are read, so a file that is not text raises
    [UnicodeDecodeError] after it has been opened; the lines read before
    the error are lost with the locals of the caller. *)
Definition open_r (path : str) : M str := λ w,
  match fs w !! path with
  | Some (Text content) => (Ok content, w, [EOpenRead path])
  | Some (Garbled _ message) =>
    (Raise (Exn UnicodeDecodeError message), w, [EOpenRead path])
  | None => (Raise (no_such_file path), w, [EOpenRead path])
  end.

(** [with open(path, 'r') as f: f.readline()]: the first line, which is
    all that is decoded. *)
Definition open_readline (path : str) : M str := λ w,
  match fs w !! path with
  | Some (Text content) => (Ok (readline content), w, [EOpenRead path])
  | Some (Garbled (Some line) _) => (Ok line, w, [EOpenRead path])
  | Some (Garbled None message) =>
    (Raise (Exn UnicodeDecodeError message), w, [EOpenRead path])
  | None => (Raise (no_such_file path), w, [EOpenRead path])
  end.

(** [with open(path, 'w') as f] followed by the writes that make up
    [content] *)
Definition open_w (path content : str) : M unit := λ w,
  (Ok tt, World (<[path := Text content]> (fs w)) (ext w),
   [EWrite path content]).

(** [subprocess.run(argv, check=True)]; with [stdout_to], the standard
    output of the child goes to that (freshly truncated, still open)
    file. *)
Definition subprocess_run (argv : list str) (stdout_to : option str)
    : M unit := λ w,
  let r := run_process E argv (fs w) (ext w) in
  match status r with
  | NotStarted e => (Raise e, w, [EExec argv])
  | Exited code =>
    let fs' := match stdout_to with
               | Some path => <[path := stdout r]> (files_after r)
               | None => files_after r
               end in
    let w' := World fs' (ext_after r) in
    if bool_decide (code = 0%Z) then (Ok tt, w', [EExec argv])
    else (Raise (Exn CalledProcessError
                   (called_process_error_str E code argv)),
          w', [EExec argv])
  end.

(** ** json values as Python objects *)

Definition type_name (v : json) : str :=
  match v with
  | JNone => py "NoneType"
  | JBool _ => py "bool"
  | JInt _ => py "int"
  | JFloat _ => py "float"
  | JStr _ => py "str"
  | JList _ => py "list"
  | JDict _ => py "dict"
  end.

(** [v.get(key, default)] *)
Definition get (v : json) (key : str) (default : json) : result json :=
  match v with
  | JDict d => Ok (match d !! key with Some x => x | None => default end)
  | _ => Raise (Exn AttributeError
                  (py "'" ++ type_name v ++ py "' object has no attribute 'get'"))
  end.

(** [len(v)] *)
Definition len (v : json) : result nat :=
  match v with
  | JStr s => Ok (length s)
  | JList xs => Ok (length xs)
  | JDict d => Ok (size d)
  | _ => Raise (Exn TypeError
                  (py "object of type '" ++ type_name v ++ py "' has no len()"))
  end.

(** [json.load(f)] *)
Definition json_load_text (content : str) : result json :=
  match json_load E content with
  | inl v => Ok v
  | inr m => Raise (Exn JSONDecodeError m)
  end.

(** [xs[0]] *)
Definition index0 (xs : list str) : result str :=
  match xs with
  | x :: _ => Ok x
  | [] => Raise (Exn IndexError (py "list index out of range"))
  end.

(** ** class WebSecurityRecon *)

Record WebSecurityRecon := {
  domain : str;
  threads : Z;
  output_dir : str      (* str(Path(output_dir)) *)
}.

(** [dir / name] for a single path segment [name]. *)
Definition joinpath (dir name : str) : str :=
  if bool_decide (dir = py ".") then name
  else if bool_decide (last dir = Some 47) then dir ++ name
  else dir ++ py "/" ++ name.

Section methods.
Variable self : WebSecurityRecon.

Definition subdomain_file := joinpath (output_dir self) (py "subdomains.txt").
Definition alive_file := joinpath (output_dir self) (py "alive.txt").
Definition wayback_file := joinpath (output_dir self) (py "waybackurls.txt").
Definition nuclei_file := joinpath (output_dir self) (py "nuclei_results.json").
Definition katana_file := joinpath (output_dir self) (py "katana_crawl.txt").
Definition js_files := joinpath (output_dir self) (py "js_files.txt").
Definition gau_file := joinpath (output_dir self) (py "gau_urls.txt").
Definition subdomain_takeover_file :=
  joinpath (output_dir self) (py "subdomain_takeover.txt").
Definition ffuf_file := joinpath (output_dir self) (py "ffuf_results.json").

Definition banner : str :=
  nl ++ py "╔══════════════════════════════════════════════════════════════════════════════╗" ++ nl
     ++ py "║                           Web Security Recon Tool                           ║" ++ nl
     ++ py "║                      Comprehensive Bug Hunting Suite                        ║" ++ nl
     ++ py "╚══════════════════════════════════════════════════════════════════════════════╝" ++ nl
     ++ py "        ".

Definition print_banner : M unit := print banner.

Definition check_tool_installed (tool_name : str) : M bool :=
  try_except_of [CalledProcessError; FileNotFoundError]
    (subprocess_run [tool_name; py "-h"] None ;; mret true)
    (λ _, mret false).

Definition tools : list (str * str) :=
  [ (py "subfinder", py "go install -v github.com/projectdiscovery/subfinder/v2/cmd/subfinder@latest");
    (py "httpx", py "go install -v github.com/projectdiscovery/httpx/cmd/httpx@latest");
    (py "waybackurls", py "go install github.com/tomnomnom/waybackurls@latest");
    (py "nuclei", py "go install -v github.com/projectdiscovery/nuclei/v3/cmd/nuclei@latest");
    (py "katana", py "go install github.com/projectdiscovery/katana/cmd/katana@latest");
    (py "gau", py "go install github.com/lc/gau/v2/cmd/gau@latest");
    (py "ffuf", py "go install github.com/ffuf/ffuf/v2@latest");
    (py "subjack", py "go install github.com/haccer/subjack@latest") ].

(** The first loop of [check_dependencies], with [missing] so far. *)
Fixpoint check_each (ts : list (str * str)) (missing : list (str * str))
    : M (list (str * str)) :=
  match ts with
  | [] => mret missing
  | (tool, install) :: rest =>
    ok ← check_tool_installed tool;
    if negb ok then
      print (py "    ✗ " ++ tool ++ py " is missing") ;;
      check_each rest (missing ++ [(tool, install)])
    else
      print (py "    ✓ " ++ tool ++ py " is installed") ;;
      check_each rest missing
  end.

Fixpoint print_missing (missing : list (str * str)) : M unit :=
  match missing with
  | [] => mret tt
  | (tool, cmd) :: rest =>
    print (tool ++ py ": " ++ cmd) ;; print_missing rest
  end.

Definition check_dependencies : M bool :=
  print (py "[+] Checking dependencies...") ;;
  missing ← check_each tools [];
  match missing with
  | _ :: _ =>
    print (nl ++ py "[!] Missing tools:") ;;
    print_missing missing ;;
    mret false
  | [] => mret true
  end.

Definition run_subfinder : M bool :=
  print (nl ++ py "[1/9] Running subfinder on " ++ domain self) ;;
  let cmd := [py "subfinder"; py "-d"; domain self; py "-o"; subdomain_file;
              py "-all"; py "-silent"] in
  try_except
    (subprocess_run cmd None ;;
     print (py "    ✓ Subdomain enumeration complete") ;;
     mret true)
    (λ e, print (py "    ✗ subfinder failed: " ++ msg e) ;; mret false).

Definition run_httpx : M bool :=
  print (nl ++ py "[2/9] Running httpx") ;;
  found ← exists_ subdomain_file;
  if negb found then
    print (py "    ✗ subdomains.txt not found") ;; mret false
  else
    let cmd := [py "httpx"; py "-l"; subdomain_file;
                py "-o"; alive_file;
                py "-title"; py "-tech-detect"; py "-status-code";
                py "-content-length";
                py "-silent"; py "-threads"; str_of_Z (threads self)] in
    try_except
      (subprocess_run cmd None ;;
       print (py "    ✓ Alive domains identified") ;;
       mret true)
      (λ e, print (py "    ✗ httpx failed: " ++ msg e) ;; mret false).

Definition run_waybackurls : M bool :=
  print (nl ++ py "[3/9] Running waybackurls") ;;
  try_except
    (let cmd := [py "waybackurls"; domain self] in
     open_w wayback_file [] ;;
     subprocess_run cmd (Some wayback_file) ;;
     print (py "    ✓ Wayback URLs collected") ;;
     mret true)
    (λ e, print (py "    ✗ waybackurls failed: " ++ msg e) ;; mret false).

Definition run_gau : M bool :=
  print (nl ++ py "[4/9] Running gau") ;;
  try_except
    (let cmd := [py "gau"; py "--threads"; str_of_Z (threads self);
                 py "--o"; gau_file; domain self] in
     subprocess_run cmd None ;;
     print (py "    ✓ gau URLs collected") ;;
     mret true)
    (λ e, print (py "    ✗ gau failed: " ++ msg e) ;; mret false).

Definition run_katana_crawl : M bool :=
  print (nl ++ py "[5/9] Running katana") ;;
  found ← exists_ alive_file;
  if negb found then
    print (py "    ✗ alive.txt not found") ;; mret false
  else
    let cmd := [py "katana"; py "-list"; alive_file; py "-o"; katana_file;
                py "-d"; py "3"; py "-c"; str_of_Z (threads self);
                py "-silent"; py "-js-crawl"] in
    try_except
      (subprocess_run cmd None ;;
       print (py "    ✓ Katana crawl complete") ;;
       mret true)
      (λ e, print (py "    ✗ katana failed: " ++ msg e) ;; mret false).

(** [if '.js' in line or '/js/' in line] *)
Definition is_js (line : str) : bool :=
  str_in (py ".js") line || str_in (py "/js/") line.

(** [for line in f: if ...: js_urls.add(line.strip())] *)
Definition add_js_lines (content : str) (js_urls : gset (list N))
    : gset (list N) :=
  foldl (λ acc line, if is_js line then {[strip line]} ∪ acc else acc)
        js_urls (readlines content).

Definition scan_for_js (path : str) (js_urls : gset (list N))
    : M (gset (list N)) :=
  found ← exists_ path;
  if (found : bool)
  then content ← open_r path; mret (add_js_lines content js_urls)
  else mret js_urls.

Definition extract_js_files : M bool :=
  print (nl ++ py "[6/9] Extracting JS files") ;;
  js_urls ← scan_for_js katana_file ∅;
  js_urls ← scan_for_js wayback_file js_urls;
  if bool_decide (js_urls ≠ ∅) then
    open_w js_files (concat ((λ url, url ++ nl) <$> sorted (elements js_urls))) ;;
    print (py "    ✓ Found " ++ str_of_nat (size js_urls)
           ++ py " JavaScript files") ;;
    mret true
  else
    print (py "    ✗ No JS files found") ;; mret false.

Definition run_nuclei_scan : M bool :=
  print (nl ++ py "[7/9] Running nuclei scan") ;;
  found ← exists_ alive_file;
  if negb found then
    print (py "    ✗ alive.txt not found") ;; mret false
  else
    let cmd := [py "nuclei"; py "-l"; alive_file;
                py "-o"; nuclei_file;
                py "-json"; py "-c"; str_of_Z (threads self);
                py "-severity"; py "critical,high,medium"; py "-silent"] in
    try_except
      (subprocess_run cmd None ;;
       print (py "    ✓ Nuclei scan complete") ;;
       mret true)
      (λ e, print (py "    ✗ nuclei failed: " ++ msg e) ;; mret false).

Definition run_subdomain_takeover : M bool :=
  print (nl ++ py "[8/9] Checking for subdomain takeover") ;;
  found ← exists_ subdomain_file;
  if negb found then
    print (py "    ✗ subdomains.txt not found") ;; mret false
  else
    let cmd := [py "subjack"; py "-w"; subdomain_file;
                py "-o"; subdomain_takeover_file; py "-ssl";
                py "-c"; str_of_Z (threads self)] in
    try_except
      (subprocess_run cmd None ;;
       print (py "    ✓ Subdomain takeover check complete") ;;
       mret true)
      (λ e, print (py "    ✗ subjack failed: " ++ msg e) ;; mret false).

Definition common_dirs : list str :=
  [py "admin"; py "api"; py "login"; py "uploads"; py "img"; py "js";
   py "css"; py "config"; py ".git"; py ".env"; py "dashboard";
   py "assets"].

Definition wordlist := joinpath (output_dir self) (py "common_dirs.txt").

Definition ffuf_cmd (base_url : str) : list str :=
  [py "ffuf"; py "-u"; base_url;
   py "-w"; wordlist;
   py "-o"; ffuf_file;
   py "-of"; py "json";
   py "-t"; str_of_Z (threads self);
   py "-mc"; py "200,204,301,302,307,403";
   py "-fs"; py "0"].

(** What [run_directory_bruteforce] writes to the word list. *)
Definition wordlist_text : str := concat ((λ d, d ++ nl) <$> common_dirs).

(** Lines 243 to 251: the result file of the brute-forcer. *)
Definition report_ffuf_results : M bool :=
  found ← exists_ ffuf_file;
  if (found : bool) then
    text ← open_r ffuf_file;
    results ← lift (json_load_text text);
    entries ← lift (get results (py "results") (JList []));
    found ← lift (len entries);
    print (py "    ✓ Found " ++ str_of_nat found ++ py " valid paths") ;;
    mret true
  else
    print (py "    ✗ ffuf output not found") ;; mret false.

(** Lines 229 to 251: the target, the command, its results. *)
Definition fuzz (first_url : str) : M bool :=
  token ← lift (index0 (split first_url));
  parsed ← lift (urlparse E token);
  let base_url := parsed.1 ++ py "://" ++ parsed.2 ++ py "/FUZZ" in
  subprocess_run (ffuf_cmd base_url) None ;;
  report_ffuf_results.

(** Lines 223 to 251: the body of the [try]. *)
Definition bruteforce_body : M bool :=
  line ← open_readline alive_file;
  let first_url := strip line in
  if bool_decide (first_url = []) then
    print (py "    ✗ No URL in alive.txt") ;; mret false
  else fuzz first_url.

(** Lines 252 to 254: the handler of the [try]. *)
Definition ffuf_failed (e : exn) : M bool :=
  print (py "    ✗ ffuf failed: " ++ msg e) ;; mret false.

Definition run_directory_bruteforce : M bool :=
  print (nl ++ py "[9/9] Running ffuf directory bruteforce") ;;
  found ← exists_ alive_file;
  if negb found then
    print (py "    ✗ alive.txt not found") ;; mret false
  else
    open_w wordlist wordlist_text ;;
    try_except bruteforce_body ffuf_failed.

(** A bound method of the step list: [func.__name__] and [func()]. *)
Record step := Step { name : str; call : M bool }.

Definition steps : list step :=
  [ Step (py "run_subfinder") run_subfinder;
    Step (py "run_httpx") run_httpx;
    Step (py "run_waybackurls") run_waybackurls;
    Step (py "run_gau") run_gau;
    Step (py "run_katana_crawl") run_katana_crawl;
    Step (py "extract_js_files") extract_js_files;
    Step (py "run_nuclei_scan") run_nuclei_scan;
    Step (py "run_subdomain_takeover") run_subdomain_takeover;
    Step (py "run_directory_bruteforce") run_directory_bruteforce ].

(** [for func in steps: ...] *)
Fixpoint for_steps (funcs : list step) : M unit :=
  match funcs with
  | [] => mret tt
  | func :: rest =>
    success ← call func;
    (if negb success
     then print (py "[!] Step '" ++ name func ++ py "' failed or was skipped.")
     else mret tt) ;;
    for_steps rest
  end.

(** Lines 273 to 279 of [start]: the loop and the completion banner. *)
Definition run_pipeline : M unit :=
  for_steps steps ;;
  print (nl ++ py "[✓] Web Security Recon Complete!") ;;
  print (py "[+] All results saved in: " ++ output_dir self).

Definition start : M unit :=
  print_banner ;;
  ok ← check_dependencies;
  if negb ok then mret tt
  else run_pipeline.
End methods.
End Model.

Global Opaque py nl.
Global Arguments joinpath : simpl never.
Global Arguments str_of_Z : simpl never.
Global Arguments str_of_nat : simpl never.

(** ** Vocabulary of the statements *)

(** The line each step prints when it is entered. *)
Definition step_markers (self : WebSecurityRecon) : list str :=
  [ nl ++ py "[1/9] Running subfinder on " ++ domain self;
    nl ++ py "[2/9] Running httpx";
    nl ++ py "[3/9] Running waybackurls";
    nl ++ py "[4/9] Running gau";
    nl ++ py "[5/9] Running katana";
    nl ++ py "[6/9] Extracting JS files";
    nl ++ py "[7/9] Running nuclei scan";
    nl ++ py "[8/9] Checking for subdomain takeover";
    nl ++ py "[9/9] Running ffuf directory bruteforce" ].

(** The two lines that close a run. *)
Definition completion_banner (self : WebSecurityRecon) : list event :=
  [ EPrint (nl ++ py "[✓] Web Security Recon Complete!");
    EPrint (py "[+] All results saved in: " ++ output_dir self) ].

(** The line the runner prints after a step that returned [False]. *)
Definition failure_notice (step_name : str) : event :=
  EPrint (py "[!] Step '" ++ step_name ++ py "' failed or was skipped.").

(** A step is attempted when its marker is printed: [m] always returns a
    boolean, and the first thing it does is print [marker]. *)
Definition attempts {E} (m : M E bool) (marker : str) : Prop :=
  ∀ w, ∃ b w' ev, m w = (Ok b, w', EPrint marker :: ev).

(** Every step of the list was entered, in the order of the list. *)
Definition attempts_all_steps (self : WebSecurityRecon) (ev : list event)
    : Prop :=
  (EPrint <$> step_markers self) `sublist_of` ev.

(** The loop on a list of steps that all return: each step starts in the
    world the step before it left, and a step that returned [False] is
    followed by the notice. *)
Inductive runs {E : Env}
    : list (step E) → world E → world E → list event → Prop :=
  | runs_nil w : runs [] w w []
  | runs_cons st sts w b w1 ev1 w2 ev2 :
      call E st w = (Ok b, w1, ev1) →
      runs sts w1 w2 ev2 →
      runs (st :: sts) w w2
        (ev1 ++ (if b then [] else [failure_notice (name E st)]) ++ ev2).

Global Instance event_eq_dec : EqDecision event.
Proof. solve_decision. Defined.

Global Instance exn_eq_dec : EqDecision exn.
Proof. solve_decision. Defined.

Global Instance result_eq_dec `{EqDecision A} : EqDecision (result A).
Proof. solve_decision. Defined.

Global Instance world_eq_dec (E : Env) `{EqDecision (Ext E)} :
  EqDecision (world E).
Proof. solve_decision. Defined.

(** The steps that test for a file before running their tool, with the
    name of that file in the workspace. *)
Definition preconditions (E : Env) (self : WebSecurityRecon)
    : list (step E * str) :=
  [ (Step E (py "run_httpx") (run_httpx E self), py "subdomains.txt");
    (Step E (py "run_katana_crawl") (run_katana_crawl E self), py "alive.txt");
    (Step E (py "run_nuclei_scan") (run_nuclei_scan E self), py "alive.txt");
    (Step E (py "run_subdomain_takeover") (run_subdomain_takeover E self),
     py "subdomains.txt");
    (Step E (py "run_directory_bruteforce") (run_directory_bruteforce E self),
     py "alive.txt") ].

(** What the dependency check does when every tool answers: one help
    invocation and one line per tool. *)
Definition installed_report (ts : list (str * str)) : list event :=
  ts ≫= λ '(tool, _),
    [EExec [tool; py "-h"]; EPrint (py "    ✓ " ++ tool ++ py " is installed")].

(** [pat] occurs in [s] as a substring. *)
Definition contains (pat s : str) : Prop := ∃ a b, s = a ++ pat ++ b.

(** The lines of a workspace file; none when the file does not exist or
    is not text. *)
Definition file_lines (f : files) (path : str) : list str :=
  match f !! path with
  | Some (Text content) => readlines content
  | _ => []
  end.

(** The error that reading a file to its end raises, if any. *)
Definition decode_error (f : files) (path : str) : option exn :=
  match f !! path with
  | Some (Garbled _ message) => Some (Exn UnicodeDecodeError message)
  | _ => None
  end.

(** The set the extraction step is meant to produce: the distinct stripped
    lines of the crawl output and of the wayback file that contain [.js]
    or [/js/]. *)
Definition js_url_set (self : WebSecurityRecon) (f : files) : gset (list N) :=
  list_to_set
    (strip <$> filter (λ line, is_js line = true)
                 (file_lines f (katana_file self)
                  ++ file_lines f (wayback_file self))).

(** The [open(path, 'r')] of a scan, when the file exists. *)
Definition scan_events (f : files) (path : str) : list event :=
  match f !! path with
  | Some _ => [EOpenRead path]
  | None => []
  end.

(** The shape of an alive-host line: [scheme://authority], the rest of the
    URL, then the metadata the prober appended.

    A scheme in canonical (lower-case) form: a letter, then letters,
    digits, [+], [-] or [.]. *)
Definition is_upper (c : N) : bool := (65 <=? c) && (c <=? 90).
Definition is_scheme (s : str) : bool :=
  match s with c :: _ => is_ascii_alpha c | [] => false end
  && forallb (λ c, scheme_char c && negb (is_upper c)) s.

(** An authority (host, with user and port if any): ASCII, no white
    space, none of [/?#], no brackets. *)
Definition is_authority (s : str) : bool :=
  forallb (λ c, (c <? 128) && negb (isspace c) && negb (netloc_delim c)
                && negb (c =? 91) && negb (c =? 93)) s.

(** Path, query and fragment: nothing, or one of [/?#] and what follows
    it, without white space. *)
Definition is_path_query (s : str) : bool :=
  match s with [] => true | c :: _ => netloc_delim c end
  && forallb (λ c, negb (isspace c)) s.

(** The metadata, the end of line included: nothing, or white space and
    what follows it. *)
Definition is_metadata (s : str) : bool :=
  match s with [] => true | c :: _ => isspace c end.

(** What the brute-force step does before it looks at the first line. *)
Definition bruteforce_prelude (self : WebSecurityRecon) : list event :=
  [ EPrint (nl ++ py "[9/9] Running ffuf directory bruteforce");
    EWrite (wordlist self) wordlist_text;
    EOpenRead (alive_file self) ].

(** The count the brute-force step reports for a result file: lines 245 and
    246, [len(json.load(f).get("results", []))]. *)
Definition count_results (E : Env) (text : str) : result nat :=
  match json_load_text E text with
  | Raise e => Raise e
  | Ok results =>
    match get results (py "results") (JList []) with
    | Raise e => Raise e
    | Ok entries => len entries
    end
  end.

(** ** Vocabulary of the further properties *)

(** The commands among the events, and the lines printed. *)
Definition commands (ev : list event) : list (list str) :=
  omap (λ e, match e with EExec argv => Some argv | _ => None end) ev.

Definition printed (ev : list event) : list str :=
  omap (λ e, match e with EPrint text => Some text | _ => None end) ev.

(** The six steps that do nothing but run one tool: the method, its
    marker, the file it tests for (if any), its command line, the line it
    prints on success and the start of the line it prints on failure. *)
Record tool_step (E : Env) := ToolStep {
  ts_call : M E bool;
  ts_marker : str;
  ts_requires : option str;
  ts_argv : list str;
  ts_done : str;
  ts_failed : str
}.
Global Arguments ToolStep {E}.
Global Arguments ts_call {E}.
Global Arguments ts_marker {E}.
Global Arguments ts_requires {E}.
Global Arguments ts_argv {E}.
Global Arguments ts_done {E}.
Global Arguments ts_failed {E}.

Definition tool_steps (E : Env) (self : WebSecurityRecon)
    : list (tool_step E) :=
  [ ToolStep (run_subfinder E self)
      (nl ++ py "[1/9] Running subfinder on " ++ domain self)
      None
      [py "subfinder"; py "-d"; domain self; py "-o"; subdomain_file self;
       py "-all"; py "-silent"]
      (py "    ✓ Subdomain enumeration complete")
      (py "    ✗ subfinder failed: ");
    ToolStep (run_httpx E self)
      (nl ++ py "[2/9] Running httpx")
      (Some (subdomain_file self))
      [py "httpx"; py "-l"; subdomain_file self; py "-o"; alive_file self;
       py "-title"; py "-tech-detect"; py "-status-code";
       py "-content-length"; py "-silent"; py "-threads";
       str_of_Z (threads self)]
      (py "    ✓ Alive domains identified")
      (py "    ✗ httpx failed: ");
    ToolStep (run_gau E self)
      (nl ++ py "[4/9] Running gau")
      None
      [py "gau"; py "--threads"; str_of_Z (threads self); py "--o";
       gau_file self; domain self]
      (py "    ✓ gau URLs collected")
      (py "    ✗ gau failed: ");
    ToolStep (run_katana_crawl E self)
      (nl ++ py "[5/9] Running katana")
      (Some (alive_file self))
      [py "katana"; py "-list"; alive_file self; py "-o"; katana_file self;
       py "-d"; py "3"; py "-c"; str_of_Z (threads self); py "-silent";
       py "-js-crawl"]
      (py "    ✓ Katana crawl complete")
      (py "    ✗ katana failed: ");
    ToolStep (run_nuclei_scan E self)
      (nl ++ py "[7/9] Running nuclei scan")
      (Some (alive_file self))
      [py "nuclei"; py "-l"; alive_file self; py "-o"; nuclei_file self;
       py "-json"; py "-c"; str_of_Z (threads self); py "-severity";
       py "critical,high,medium"; py "-silent"]
      (py "    ✓ Nuclei scan complete")
      (py "    ✗ nuclei failed: ");
    ToolStep (run_subdomain_takeover E self)
      (nl ++ py "[8/9] Checking for subdomain takeover")
      (Some (subdomain_file self))
      [py "subjack"; py "-w"; subdomain_file self; py "-o";
       subdomain_takeover_file self; py "-ssl"; py "-c";
       str_of_Z (threads self)]
      (py "    ✓ Subdomain takeover check complete")
      (py "    ✗ subjack failed: ") ].

(** The report of the dependency check, from the answer of each tool
    ([true]: its help invocation exited with status 0). *)
Definition tool_line (tool : str) (ok : bool) : str :=
  if ok then py "    ✓ " ++ tool ++ py " is installed"
  else py "    ✗ " ++ tool ++ py " is missing".

Definition missing_of (ts : list (str * str)) (oks : list bool)
    : list (str * str) :=
  fst <$> filter (λ p, p.2 = false) (zip ts oks).

Definition hint_line (t : str * str) : str := t.1 ++ py ": " ++ t.2.

Definition dependency_report (ts : list (str * str)) (oks : list bool)
    : list str :=
  py "[+] Checking dependencies..."
  :: zip_with (λ t ok, tool_line t.1 ok) ts oks
  ++ match missing_of ts oks with
     | [] => []
     | m => (nl ++ py "[!] Missing tools:") :: (hint_line <$> m)
     end.

(** The ten files of the workspace. *)
Definition artifact_names : list str :=
  [ py "subdomains.txt"; py "alive.txt"; py "waybackurls.txt";
    py "nuclei_results.json"; py "katana_crawl.txt"; py "js_files.txt";
    py "gau_urls.txt"; py "subdomain_takeover.txt"; py "ffuf_results.json";
    py "common_dirs.txt" ].

Definition artifacts (self : WebSecurityRecon) : list str :=
  [ subdomain_file self; alive_file self; wayback_file self;
    nuclei_file self; katana_file self; js_files self; gau_file self;
    subdomain_takeover_file self; ffuf_file self; wordlist self ].

(** The values [len] is not defined on: [None], booleans and numbers. *)
Definition unsized (v : json) : bool :=
  match v with
  | JNone | JBool _ | JInt _ | JFloat _ => true
  | _ => false
  end.

(** A first word that is a bare host name: letters, digits, dots and
    hyphens, so no scheme. *)
Definition is_bare_host (s : str) : bool :=
  match s with [] => false | _ => true end
  && forallb (λ c, is_ascii_alpha c || is_digit c || (c =? 46) || (c =? 45)) s.

(** A scheme in any case. *)
Definition is_scheme_any_case (s : str) : bool :=
  match s with c :: _ => is_ascii_alpha c | [] => false end
  && forallb scheme_char s.

(** A computation all of whose events satisfy [P], in whatever world it
    starts and however it ends. *)
Definition emits {E : Env} (P : event → Prop) {A} (m : M E A) : Prop :=
  ∀ w, Forall P (m w).2.

(** The files the script itself opens for reading and for writing, and
    the dependency check's command for a tool. *)
Definition read_files (self : WebSecurityRecon) : list str :=
  [katana_file self; wayback_file self; alive_file self; ffuf_file self].

Definition written_files (self : WebSecurityRecon) : list str :=
  [wayback_file self; js_files self; wordlist self].

Definition probe (tool : str) : list str := [tool; py "-h"].

(** What a run may do: print, open the files above, and run a program of
    the tools table. *)
Definition footprint (self : WebSecurityRecon) (e : event) : Prop :=
  match e with
  | EPrint _ => True
  | EOpenRead path => path ∈ read_files self
  | EWrite path _ => path ∈ written_files self
  | EExec argv => ∃ tool hint, (tool, hint) ∈ tools ∧ head argv = Some tool
  end.

(** What the dependency check may do: print, and probe a tool of the
    table. *)
Definition probes (e : event) : Prop :=
  match e with
  | EPrint _ => True
  | EExec argv => ∃ tool hint, (tool, hint) ∈ tools ∧ argv = probe tool
  | _ => False
  end.

(** ** Sample worlds

    Concrete environments on which the statements are evaluated: the
    outside world has no state, a process is a function of its command
    line and of the files, and the library tables are the simplest ones. *)
Definition sample_env (proc : list str → files → completed ())
    (parse : str → json + str) : Env :=
  {| Ext := ();
     run_process := λ argv f _, proc argv f;
     called_process_error_str := λ code argv,
       py "Command returned non-zero exit status " ++ str_of_Z code;
     json_load := parse;
     repr := λ s, py "'" ++ s ++ py "'";
     nfkc := λ s, s;
     check_bracketed_host := λ _, None |}.

Definition no_json : str → json + str :=
  λ _, inr (py "Expecting value: line 1 column 1 (char 0)").

(** Every command runs and exits with status 0, touching nothing. *)
Definition all_succeed : list str → files → completed () :=
  λ _ f, Completed (Exited 0) (Text []) f ().

(** As [all_succeed], but the program named [tool] cannot be started. *)
Definition without_tool (tool : str) (e : exn)
    : list str → files → completed () :=
  λ argv f,
    match argv with
    | prog :: _ =>
      if bool_decide (prog = tool) then Completed (NotStarted e) (Text []) f ()
      else Completed (Exited 0) (Text []) f ()
    | [] => Completed (Exited 0) (Text []) f ()
    end.

Definition sample_recon : WebSecurityRecon :=
  {| domain := py "example.com"; threads := 10; output_dir := py "web_recon" |}.

(** As [all_succeed], but [ffuf] leaves a result file with the given
    text. *)
Definition ffuf_writes (text : str) : list str → files → completed () :=
  λ argv f,
    match argv with
    | prog :: _ =>
      if bool_decide (prog = py "ffuf")
      then Completed (Exited 0) (Text [])
             (<[ffuf_file sample_recon := Text text]> f) ()
      else Completed (Exited 0) (Text []) f ()
    | [] => Completed (Exited 0) (Text []) f ()
    end.

(** A decoder that knows two documents: the empty object and the empty
    array. *)
Definition sample_json : str → json + str :=
  λ text,
    if bool_decide (text = py "{}") then inl (JDict ∅)
    else if bool_decide (text = py "[]") then inl (JList [])
    else inr (py "Expecting value: line 1 column 1 (char 0)").

(** A workspace after a crawl: the crawl output and the wayback file. *)
Definition crawled : files :=
  {[ katana_file sample_recon :=
       Text (py "https://a.example/app.js" ++ nl
             ++ py "https://a.example/index.html" ++ nl
             ++ py "  https://a.example/js/x  " ++ nl);
     wayback_file sample_recon :=
       Text (py "https://a.example/app.js" ++ [13; 10]
             ++ py "https://a.example/Z.js") ]}.

(** A workspace that holds an alive-host list and nothing else. *)
Definition alive_only (content : str) : files :=
  {[ alive_file sample_recon := Text content ]}.

(** A tool that prints [out] and exits with status [code]. *)
Definition prints_and_exits (out : str) (code : Z)
    : list str → files → completed () :=
  λ _ f, Completed (Exited code) (Text out) f ().

(** A decoder for which every text is an object with one key,
    ["results"]. *)
Definition json_with_results (v : json) : str → json + str :=
  λ _, inl (JDict {[ py "results" := v ]}).

(** A workspace that holds one file. *)
Definition only (path content : str) : files := {[ path := Text content ]}.

(** * Proofs *)

Ltac munfold :=
  unfold mbind, M_bind, bind, mret, M_ret, ret, print, exists_, open_r,
    open_readline, open_w, lift, try_except, try_except_of,
    subprocess_run in *.

Section Runner.
Variable E : Env.
Variable self : WebSecurityRecon.

Implicit Types (w : world E) (ev : list event).

Lemma bind_print {A} text (k : M E A) w :
  (print E text ;; k) w =
  let '(r, w', ev) := k w in (r, w', EPrint text :: ev).
Proof. reflexivity. Qed.

Lemma print_then_attempts marker (k : M E bool) :
  (∀ w, ∃ b w' ev, k w = (Ok b, w', ev)) →
  attempts (print E marker ;; k) marker.
Proof.
  intros Hk w. destruct (Hk w) as (b & w' & ev & Heq).
  exists b, w', ev. by rewrite bind_print, Heq.
Qed.

(** A [try] whose handler prints and returns [False] contains every
    exception of its body. *)
Lemma try_except_total (body : M E bool) (failed : exn → str) w :
  ∃ b w' ev,
    try_except E body (λ e, print E (failed e) ;; mret false) w
    = (Ok b, w', ev).
Proof.
  munfold. destruct (body w) as [[[b|e] w1] ev1]; simpl; eauto.
Qed.

Lemma gated_total path (notfound : str) (k : M E bool) :
  (∀ w, ∃ b w' ev, k w = (Ok b, w', ev)) →
  ∀ w, ∃ b w' ev,
    (found ← exists_ E path;
     if negb found then print E notfound ;; mret false else k) w
    = (Ok b, w', ev).
Proof.
  intros Hk w. munfold.
  destruct (bool_decide (is_Some (fs E w !! path))); simpl; [|eauto].
  destruct (Hk w) as (b & w' & ev & ->). eauto.
Qed.

Lemma run_subfinder_attempts :
  attempts (run_subfinder E self) (nl ++ py "[1/9] Running subfinder on " ++ domain self).
Proof. apply print_then_attempts. intros w. apply try_except_total. Qed.

Lemma run_httpx_attempts :
  attempts (run_httpx E self) (nl ++ py "[2/9] Running httpx").
Proof.
  apply print_then_attempts. apply gated_total.
  intros w. apply try_except_total.
Qed.

Lemma run_waybackurls_attempts :
  attempts (run_waybackurls E self) (nl ++ py "[3/9] Running waybackurls").
Proof. apply print_then_attempts. intros w. apply try_except_total. Qed.

Lemma run_gau_attempts :
  attempts (run_gau E self) (nl ++ py "[4/9] Running gau").
Proof. apply print_then_attempts. intros w. apply try_except_total. Qed.

Lemma run_katana_crawl_attempts :
  attempts (run_katana_crawl E self) (nl ++ py "[5/9] Running katana").
Proof.
  apply print_then_attempts. apply gated_total.
  intros w. apply try_except_total.
Qed.

Lemma run_nuclei_scan_attempts :
  attempts (run_nuclei_scan E self) (nl ++ py "[7/9] Running nuclei scan").
Proof.
  apply print_then_attempts. apply gated_total.
  intros w. apply try_except_total.
Qed.

Lemma run_subdomain_takeover_attempts :
  attempts (run_subdomain_takeover E self)
           (nl ++ py "[8/9] Checking for subdomain takeover").
Proof.
  apply print_then_attempts. apply gated_total.
  intros w. apply try_except_total.
Qed.

Lemma run_directory_bruteforce_attempts :
  attempts (run_directory_bruteforce E self)
           (nl ++ py "[9/9] Running ffuf directory bruteforce").
Proof.
  apply print_then_attempts. apply gated_total. intros w.
  unfold mbind at 1, M_bind, bind, open_w. unfold ffuf_failed.
  edestruct try_except_total as (b & w' & ev & ->). eauto.
Qed.

(** The five steps before the extraction and the three after it contain
    their exceptions: each prints its marker and returns a boolean.  The
    extraction step has no handler and is not among them. *)
Lemma first_steps_attempts :
  Forall2 (λ st marker, attempts (call E st) marker)
          (take 5 (steps E self)) (take 5 (step_markers self)).
Proof.
  repeat constructor; simpl.
  - apply run_subfinder_attempts.
  - apply run_httpx_attempts.
  - apply run_waybackurls_attempts.
  - apply run_gau_attempts.
  - apply run_katana_crawl_attempts.
Qed.

Lemma last_steps_attempts :
  Forall2 (λ st marker, attempts (call E st) marker)
          (drop 6 (steps E self)) (drop 6 (step_markers self)).
Proof.
  repeat constructor; simpl.
  - apply run_nuclei_scan_attempts.
  - apply run_subdomain_takeover_attempts.
  - apply run_directory_bruteforce_attempts.
Qed.

(** One turn of the loop: whatever boolean the step returns, the loop goes
    on with the rest of the list; a [False] only adds the notice. *)
Lemma for_steps_cons func rest w b w1 ev1 :
  call E func w = (Ok b, w1, ev1) →
  for_steps E (func :: rest) w =
  let '(r, w2, ev2) := for_steps E rest w1 in
  (r, w2, ev1 ++ (if b then [] else [failure_notice (name E func)]) ++ ev2).
Proof.
  intros Hc. simpl. munfold. rewrite Hc.
  destruct b; simpl; by destruct (for_steps E rest w1) as [[r w2] ev2].
Qed.

End Runner.

Lemma not_found_alive :
  py "    ✗ " ++ py "alive.txt" ++ py " not found"
  = py "    ✗ alive.txt not found".
Proof. vm_compute. reflexivity. Qed.

Lemma not_found_subdomains :
  py "    ✗ " ++ py "subdomains.txt" ++ py " not found"
  = py "    ✗ subdomains.txt not found".
Proof. vm_compute. reflexivity. Qed.

Section Gates.
Variable E : Env.
Variable self : WebSecurityRecon.
Variable w : world E.

Local Ltac gate H :=
  intros H; munfold; rewrite H; reflexivity.

Lemma run_httpx_gated :
  fs E w !! subdomain_file self = None →
  run_httpx E self w
  = (Ok false, w, [EPrint (nl ++ py "[2/9] Running httpx");
                   EPrint (py "    ✗ subdomains.txt not found")]).
Proof. unfold run_httpx. gate H. Qed.

Lemma run_katana_crawl_gated :
  fs E w !! alive_file self = None →
  run_katana_crawl E self w
  = (Ok false, w, [EPrint (nl ++ py "[5/9] Running katana");
                   EPrint (py "    ✗ alive.txt not found")]).
Proof. unfold run_katana_crawl. gate H. Qed.

Lemma run_nuclei_scan_gated :
  fs E w !! alive_file self = None →
  run_nuclei_scan E self w
  = (Ok false, w, [EPrint (nl ++ py "[7/9] Running nuclei scan");
                   EPrint (py "    ✗ alive.txt not found")]).
Proof. unfold run_nuclei_scan. gate H. Qed.

Lemma run_subdomain_takeover_gated :
  fs E w !! subdomain_file self = None →
  run_subdomain_takeover E self w
  = (Ok false, w, [EPrint (nl ++ py "[8/9] Checking for subdomain takeover");
                   EPrint (py "    ✗ subdomains.txt not found")]).
Proof. unfold run_subdomain_takeover. gate H. Qed.

Lemma run_directory_bruteforce_gated :
  fs E w !! alive_file self = None →
  run_directory_bruteforce E self w
  = (Ok false, w, [EPrint (nl ++ py "[9/9] Running ffuf directory bruteforce");
                   EPrint (py "    ✗ alive.txt not found")]).
Proof. unfold run_directory_bruteforce. gate H. Qed.
End Gates.

Section Dependencies.
Variable E : Env.

Implicit Types (w : world E) (ev : list event).

(** The per-tool check by cases on how the help invocation ended. *)
Lemma check_tool_installed_eq tool w :
  check_tool_installed E tool w =
  let r := run_process E [tool; py "-h"] (fs E w) (ext E w) in
  match status r with
  | Exited code =>
    (Ok (bool_decide (code = 0%Z)),
     World E (files_after r) (ext_after r), [EExec [tool; py "-h"]])
  | NotStarted e =>
    (if bool_decide (cls e ∈ [CalledProcessError; FileNotFoundError])
     then Ok false else Raise e,
     w, [EExec [tool; py "-h"]])
  end.
Proof.
  unfold check_tool_installed. munfold. simpl.
  destruct (status _) as [code|e]; simpl.
  - by destruct (bool_decide (code = 0%Z)).
  - by destruct (bool_decide (cls e ∈ _)).
Qed.

(** The first loop of the check on a table in two parts. *)
Lemma check_each_app pre rest : ∀ missing w,
  check_each E (pre ++ rest) missing w
  = match check_each E pre missing w with
    | (Ok m1, w1, ev1) =>
      let '(r, w2, ev2) := check_each E rest m1 w1 in (r, w2, ev1 ++ ev2)
    | (Raise e, w1, ev1) => (Raise e, w1, ev1)
    end.
Proof.
  induction pre as [|[tool hint] pre IH]; intros missing w; cbn [app check_each].
  - unfold mret, M_ret, ret. cbv beta iota.
    destruct (check_each E rest missing w) as [[r w2] ev2]. done.
  - unfold mbind, M_bind, bind.
    destruct (check_tool_installed E tool w) as [[[ok|e] w1] ev1]; [|done].
    destruct ok; cbn [negb]; unfold print; rewrite IH;
      (match goal with |- context [check_each E pre ?m w1] =>
         destruct (check_each E pre m w1) as [[[m1|e] w2] ev2] end; [|done]);
      destruct (check_each E rest m1 w2) as [[r w3] ev3];
      by rewrite <- !app_assoc.
Qed.

Lemma check_each_spec ts : ∀ missing w missing' w' ev,
  check_each E ts missing w = (Ok missing', w', ev) →
  ∃ new,
    missing' = missing ++ new
    ∧ new ⊆ ts
    ∧ (∀ tool hint, (tool, hint) ∈ new →
         EPrint (py "    ✗ " ++ tool ++ py " is missing") ∈ ev)
    ∧ (new = [] → ev = installed_report ts).
Proof.
  induction ts as [|[tool hint] ts IH]; intros missing w missing' w' ev Hrun.
  - injection Hrun as <- <- <-. exists []. rewrite app_nil_r.
    split_and!; [done|done|set_solver|done].
  - simpl in Hrun. unfold mbind at 1, M_bind, bind in Hrun.
    rewrite check_tool_installed_eq in Hrun. simpl in Hrun.
    assert (∀ ok w1,
      (let '(r, w2, ev2) :=
         (if negb ok
          then print E (py "    ✗ " ++ tool ++ py " is missing") ;;
               check_each E ts (missing ++ [(tool, hint)])
          else print E (py "    ✓ " ++ tool ++ py " is installed") ;;
               check_each E ts missing) w1 in
       (r, w2, [EExec [tool; py "-h"]] ++ ev2)) = (Ok missing', w', ev) →
      ∃ new, missing' = missing ++ new ∧ new ⊆ (tool, hint) :: ts
        ∧ (∀ tool0 hint0, (tool0, hint0) ∈ new →
             EPrint (py "    ✗ " ++ tool0 ++ py " is missing") ∈ ev)
        ∧ (new = [] → ev = installed_report ((tool, hint) :: ts))) as Hcase.
    { intros ok w1 Hk. destruct ok; simpl in Hk; rewrite bind_print in Hk.
      - destruct (check_each E ts missing w1) as [[[m1|e1] w2] ev2] eqn:Hrest;
          [|done].
        injection Hk as <- <- <-.
        destruct (IH _ _ _ _ _ Hrest) as (new & -> & Hsub & Hmiss & Hnone).
        exists new. split_and!; [done|set_solver|set_solver|].
        intros Hn. by rewrite (Hnone Hn).
      - destruct (check_each E ts (missing ++ [(tool, hint)]) w1)
          as [[[m1|e1] w2] ev2] eqn:Hrest; [|done].
        injection Hk as <- <- <-.
        destruct (IH _ _ _ _ _ Hrest) as (new & -> & Hsub & Hmiss & Hnone).
        exists ((tool, hint) :: new). rewrite <- app_assoc.
        split_and!; [done|set_solver| |discriminate].
        intros tool0 hint0 [Heq|Hin]%elem_of_cons.
        + assert (tool0 = tool) as -> by congruence. set_solver.
        + specialize (Hmiss _ _ Hin). set_solver. }
    destruct (status _) as [code|e].
    + by apply Hcase in Hrun.
    + destruct (bool_decide (cls e ∈ _)); [|done]. by apply Hcase in Hrun.
Qed.

Lemma check_dependencies_spec w b w1 ev1 :
  check_dependencies E w = (Ok b, w1, ev1) →
  if b
  then ev1 = EPrint (py "[+] Checking dependencies...") :: installed_report tools
  else ∃ tool hint, (tool, hint) ∈ tools
         ∧ EPrint (py "    ✗ " ++ tool ++ py " is missing") ∈ ev1.
Proof.
  unfold check_dependencies. rewrite bind_print.
  unfold mbind at 1, M_bind, bind.
  destruct (check_each E tools [] w) as [[[missing|e] w2] ev2] eqn:Hrun; [|done].
  destruct (check_each_spec _ _ _ _ _ _ Hrun) as (new & Hm & Hsub & Hmiss & Hnone).
  simpl in Hm. subst new.
  destruct missing as [|[tool hint] missing].
  - munfold. simpl. intros [= <- <- <-]. by rewrite app_nil_r, Hnone.
  - rewrite bind_print. unfold mbind at 1, M_bind, bind.
    destruct (print_missing E ((tool, hint) :: missing) w2)
      as [[[u|e] w4] ev4]; munfold; simpl; [|done].
    intros [= <- <- <-]. exists tool, hint.
    split; [apply Hsub, list_elem_of_here|].
    apply list_elem_of_further, elem_of_app. left.
    apply (Hmiss tool hint), list_elem_of_here.
Qed.

Lemma start_eq self w :
  start E self w =
  match check_dependencies E w with
  | (Ok ok, w1, ev1) =>
    if ok
    then let '(r, w2, ev2) := run_pipeline E self w1 in
         (r, w2, EPrint banner :: ev1 ++ ev2)
    else (Ok tt, w1, EPrint banner :: ev1)
  | (Raise e, w1, ev1) => (Raise e, w1, EPrint banner :: ev1)
  end.
Proof.
  unfold start, print_banner. rewrite bind_print.
  unfold mbind at 1, M_bind, bind.
  destruct (check_dependencies E w) as [[[ok|e] w1] ev1]; [|done].
  destruct ok; simpl.
  - by destruct (run_pipeline E self w1) as [[r w2] ev2].
  - munfold. by rewrite app_nil_r.
Qed.
End Dependencies.

(** ** Strings *)

Section Strings.
Implicit Types (s t pat : str) (c p : N).

Lemma startswith_spec pat s :
  startswith pat s = true ↔ ∃ t, s = pat ++ t.
Proof.
  revert s. induction pat as [|p pat IH]; intros s; simpl.
  - split; [eauto|done].
  - destruct s as [|c s].
    + split; [done|]. by intros [t ?].
    + rewrite andb_true_iff, N.eqb_eq, IH. split.
      * intros [-> [t ->]]. by exists t.
      * intros [t [= -> ->]]. eauto.
Qed.

Lemma str_in_spec pat s :
  str_in pat s = true ↔ ∃ a b, s = a ++ pat ++ b.
Proof.
  induction s as [|c s IH]; simpl.
  - rewrite orb_false_r, startswith_spec. split.
    + intros [t ?]. by exists [], t.
    + intros (a & b & H). symmetry in H.
      apply app_eq_nil in H as [-> [-> ->]%app_eq_nil]. by exists [].
  - rewrite orb_true_iff, startswith_spec, IH. split.
    + intros [[t ->]|(a & b & ->)]; [by exists [], t|by exists (c :: a), b].
    + intros ([|c' a] & b & H); simpl in H.
      * left. eauto.
      * injection H as -> ->. right. eauto.
Qed.

Lemma str_in_reverse pat s :
  str_in (reverse pat) (reverse s) = str_in pat s.
Proof.
  apply eq_true_iff_eq. rewrite !str_in_spec. split.
  - intros (a & b & H). exists (reverse b), (reverse a).
    apply (inj reverse).
    by rewrite H, !reverse_app, !reverse_involutive, <- app_assoc.
  - intros (a & b & ->). exists (reverse b), (reverse a).
    by rewrite !reverse_app, <- app_assoc.
Qed.

Lemma str_in_lstrip p pat s :
  isspace p = false → str_in (p :: pat) (lstrip s) = str_in (p :: pat) s.
Proof.
  intros Hp. induction s as [|c s IH]; [done|].
  cbn [lstrip]. destruct (isspace c) eqn:Hc; [|done].
  rewrite IH. cbn [str_in startswith].
  destruct (N.eqb_spec p c) as [->|_]; [congruence|done].
Qed.

Lemma str_in_rstrip pat p s :
  isspace p = false →
  str_in (pat ++ [p]) (rstrip s) = str_in (pat ++ [p]) s.
Proof.
  intros Hp. unfold rstrip.
  rewrite <- (str_in_reverse _ (reverse _)), reverse_involutive.
  assert (reverse (pat ++ [p]) = p :: reverse pat) as Hr
    by by rewrite reverse_app.
  rewrite Hr, (str_in_lstrip _ _ _ Hp), <- Hr. apply str_in_reverse.
Qed.

(** Stripping neither removes nor creates a marker. *)
Lemma is_js_strip s : is_js (strip s) = is_js s.
Proof.
  unfold is_js, strip.
  assert (py ".js" = [46; 106] ++ [115]) as -> by (vm_compute; reflexivity).
  assert (py "/js/" = [47; 106; 115] ++ [47]) as -> by (vm_compute; reflexivity).
  rewrite !str_in_rstrip by done. simpl.
  by rewrite !str_in_lstrip by done.
Qed.

(** The test of the extraction step is the substring test on the two
    markers. *)
Lemma is_js_spec s :
  is_js s = true ↔ contains (py ".js") s ∨ contains (py "/js/") s.
Proof. unfold is_js, contains. by rewrite orb_true_iff, !str_in_spec. Qed.

Global Instance str_le_total : Total str_le.
Proof.
  intros a b. unfold str_le.
  destruct (trichotomy lexico a b) as [?|[?|?]]; auto.
Qed.

Global Instance str_le_trans : Transitive str_le.
Proof.
  intros a b c [Hab| ->] [Hbc| ->]; unfold str_le; auto.
  left. by trans b.
Qed.

Global Instance str_le_antisymm : AntiSymm (=) str_le.
Proof.
  intros a b [Hab|?] [Hba|?]; try done.
  destruct (irreflexivity lexico a). by trans b.
Qed.

(** [sorted] on distinct strings: strictly increasing, with the same
    elements. *)
Lemma sorted_strict (xs : list str) :
  NoDup xs → StronglySorted lexico (sorted xs).
Proof.
  intros Hnd.
  assert (NoDup (sorted xs)) as Hnd'.
  { unfold sorted. by rewrite merge_sort_Permutation. }
  pose proof (StronglySorted_merge_sort str_le xs) as Hs.
  fold (sorted xs) in Hs.
  induction Hs as [|x l Hl IH Hx]; [constructor|].
  apply NoDup_cons in Hnd' as [Hnotin Hnd'].
  constructor; [by apply IH|].
  rewrite Forall_forall in Hx |- *. intros y Hy.
  destruct (Hx y Hy) as [?| ->]; [done|]. by destruct Hnotin.
Qed.

Lemma elem_of_sorted (xs : list str) u : u ∈ sorted xs ↔ u ∈ xs.
Proof. unfold sorted. by rewrite merge_sort_Permutation. Qed.

Lemma NoDup_sorted (xs : list str) : NoDup xs → NoDup (sorted xs).
Proof. unfold sorted. by rewrite merge_sort_Permutation. Qed.
End Strings.

Section Extraction.
Variable E : Env.
Variable self : WebSecurityRecon.

Implicit Types (w : world E) (acc : gset (list N)).

Lemma add_js_lines_eq content acc :
  add_js_lines content acc
  = acc ∪ list_to_set (strip <$> filter (λ line, is_js line = true)
                                   (readlines content)).
Proof.
  unfold add_js_lines. generalize (readlines content) as ls.
  intros ls. revert acc. induction ls as [|l ls IH]; intros acc; simpl.
  - set_solver.
  - rewrite IH, filter_cons. destruct (is_js l) eqn:Hl.
    + rewrite decide_True by done. set_solver.
    + rewrite decide_False by done. done.
Qed.

(** One scan: a file that is not text ends it with the decoder's error,
    after the file has been opened. *)
Lemma scan_for_js_eq path acc w :
  scan_for_js E path acc w
  = match decode_error (fs E w) path with
    | Some e => (Raise e, w, [EOpenRead path])
    | None =>
      (Ok (acc ∪ list_to_set (strip <$> filter (λ line, is_js line = true)
                                          (file_lines (fs E w) path))),
       w, scan_events (fs E w) path)
    end.
Proof.
  unfold scan_for_js, file_lines, scan_events, decode_error. munfold.
  destruct (fs E w !! path) as [[c|fl m]|] eqn:Hc; simpl; rewrite ?Hc.
  - by rewrite add_js_lines_eq.
  - done.
  - by rewrite (right_id_L ∅ (∪)).
Qed.

Lemma extract_js_files_eq w :
  extract_js_files E self w =
  let urls := js_url_set self (fs E w) in
  let reads := scan_events (fs E w) (katana_file self)
               ++ scan_events (fs E w) (wayback_file self) in
  match decode_error (fs E w) (katana_file self),
        decode_error (fs E w) (wayback_file self) with
  | Some e, _ =>
    (Raise e, w,
     [EPrint (nl ++ py "[6/9] Extracting JS files");
      EOpenRead (katana_file self)])
  | None, Some e =>
    (Raise e, w,
     [EPrint (nl ++ py "[6/9] Extracting JS files")]
     ++ scan_events (fs E w) (katana_file self)
     ++ [EOpenRead (wayback_file self)])
  | None, None =>
    if decide (urls = ∅) then
      (Ok false, w,
       [EPrint (nl ++ py "[6/9] Extracting JS files")] ++ reads
       ++ [EPrint (py "    ✗ No JS files found")])
    else
      let out := concat ((λ url, url ++ nl) <$> sorted (elements urls)) in
      (Ok true, World E (<[js_files self := Text out]> (fs E w)) (ext E w),
       [EPrint (nl ++ py "[6/9] Extracting JS files")] ++ reads
       ++ [EWrite (js_files self) out;
           EPrint (py "    ✓ Found " ++ str_of_nat (size urls)
                   ++ py " JavaScript files")])
  end.
Proof.
  unfold extract_js_files. rewrite bind_print.
  unfold mbind at 1, M_bind, bind. rewrite scan_for_js_eq.
  destruct (decode_error (fs E w) (katana_file self)) as [e1|]; [done|].
  unfold mbind at 1, M_bind, bind. rewrite scan_for_js_eq.
  destruct (decode_error (fs E w) (wayback_file self)) as [e2|]; [done|].
  assert (∅ ∪ list_to_set (strip <$> filter (λ line, is_js line = true)
                              (file_lines (fs E w) (katana_file self)))
          ∪ list_to_set (strip <$> filter (λ line, is_js line = true)
                              (file_lines (fs E w) (wayback_file self)))
          = js_url_set self (fs E w)) as ->.
  { unfold js_url_set. rewrite filter_app, fmap_app, list_to_set_app_L.
    set_solver. }
  simpl. destruct (decide (js_url_set self (fs E w) = ∅)) as [Hempty|Hne].
  - rewrite bool_decide_false by (intros ?; done). munfold. simpl.
    by rewrite app_assoc.
  - rewrite bool_decide_true by done. munfold. simpl.
    by rewrite app_assoc.
Qed.
End Extraction.

Section Tokens.
Implicit Types (s url tail cur ws : str) (c : N).

Lemma forallb_Forall {A} (f : A → bool) (l : list A) :
  forallb f l = true ↔ Forall (λ x, f x = true) l.
Proof.
  induction l as [|x l IH]; simpl; [by split|].
  rewrite andb_true_iff, Forall_cons, IH. done.
Qed.

Lemma lstrip_spec s :
  ∃ ws, s = ws ++ lstrip s ∧ Forall (λ c, isspace c = true) ws.
Proof.
  induction s as [|c s (ws & Hs & Hws)]; [by exists []|].
  cbn [lstrip]. destruct (isspace c) eqn:Hc.
  - exists (c :: ws). split; [by rewrite Hs at 1|by constructor].
  - by exists [].
Qed.

Lemma rstrip_spec s :
  ∃ ws, s = rstrip s ++ ws ∧ Forall (λ c, isspace c = true) ws.
Proof.
  unfold rstrip. destruct (lstrip_spec (reverse s)) as (ws & Hs & Hws).
  exists (reverse ws). split; [|by apply Forall_reverse].
  apply (inj reverse). by rewrite reverse_app, !reverse_involutive.
Qed.

Lemma lstrip_blank s : Forall (λ c, isspace c = true) s → lstrip s = [].
Proof. induction 1 as [|c s Hc _ IH]; [done|]. cbn [lstrip]. by rewrite Hc. Qed.

Lemma strip_blank s : forallb isspace s = true → strip s = [].
Proof. intros Hs%forallb_Forall. unfold strip. by rewrite lstrip_blank. Qed.

Lemma split_go_spaces ws : ∀ cur,
  Forall (λ c, isspace c = true) ws →
  split_go cur ws = match cur with [] => [] | _ => [reverse cur] end.
Proof.
  induction ws as [|c ws IH]; intros cur Hws; [done|].
  apply Forall_cons in Hws as [Hc Hws]. cbn [split_go]. rewrite Hc.
  destruct cur; by rewrite IH.
Qed.

Lemma split_go_suffix s : ∀ cur ws,
  Forall (λ c, isspace c = true) ws →
  split_go cur (s ++ ws) = split_go cur s.
Proof.
  induction s as [|c s IH]; intros cur ws Hws.
  - by apply split_go_spaces.
  - cbn [app split_go]. destruct (isspace c), cur; by rewrite IH.
Qed.

Lemma split_go_prefix ws s :
  Forall (λ c, isspace c = true) ws →
  split_go [] (ws ++ s) = split_go [] s.
Proof.
  induction 1 as [|c ws Hc _ IH]; [done|].
  cbn [app split_go]. by rewrite Hc.
Qed.

(** Stripping a line does not change its words. *)
Lemma split_strip s : split (strip s) = split s.
Proof.
  unfold split, strip.
  destruct (lstrip_spec s) as (ws1 & H1 & Hw1).
  destruct (rstrip_spec (lstrip s)) as (ws2 & H2 & Hw2).
  trans (split_go [] (lstrip s)).
  - remember (rstrip (lstrip s)) as r. rewrite H2.
    by rewrite split_go_suffix.
  - remember (lstrip s) as l. rewrite H1. by rewrite split_go_prefix.
Qed.

Lemma split_go_first_token url : ∀ cur tail,
  Forall (λ c, isspace c = false) url →
  is_metadata tail = true →
  cur ≠ [] ∨ url ≠ [] →
  ∃ others, split_go cur (url ++ tail) = (reverse cur ++ url) :: others.
Proof.
  induction url as [|c url IH]; intros cur tail Hurl Htail Hne.
  - destruct Hne as [Hne|]; [|done]. rewrite app_nil_r.
    destruct tail as [|c tail]; cbn [app split_go].
    + destruct cur; [done|]. eauto.
    + cbn [is_metadata] in Htail. rewrite Htail. destruct cur; [done|]. eauto.
  - apply Forall_cons in Hurl as [Hc Hurl]. cbn [app split_go]. rewrite Hc.
    destruct (IH (c :: cur) tail Hurl Htail) as [others ->]; [by left|].
    exists others. by rewrite reverse_cons, <- app_assoc.
Qed.

(** The first word of a line that starts with a URL is the URL. *)
Lemma first_token url tail :
  url ≠ [] →
  Forall (λ c, isspace c = false) url →
  is_metadata tail = true →
  strip (url ++ tail) ≠ []
  ∧ index0 (split (strip (url ++ tail))) = Ok url.
Proof.
  intros Hne Hurl Htail.
  destruct (split_go_first_token url [] tail Hurl Htail) as [others Hs];
    [by right|].
  assert (split (strip (url ++ tail)) = url :: others) as Hsplit
    by by rewrite split_strip.
  split; [|by rewrite Hsplit].
  intros Hblank. by rewrite Hblank in Hsplit.
Qed.
End Tokens.

Section Urls.
Variable E : Env.
Implicit Types (s scheme host rest : str) (c : N).

Lemma isspace_false c :
  isspace c = false →
  c ≠ 9 ∧ c ≠ 10 ∧ c ≠ 13 ∧ c ≠ 32.
Proof.
  unfold isspace. rewrite !orb_false_iff, !andb_false_iff, !N.leb_gt.
  intros. lia.
Qed.

Lemma scheme_char_facts c :
  scheme_char c = true → isspace c = false ∧ c ≠ 58.
Proof.
  unfold scheme_char, is_ascii_alpha, is_digit, isspace.
  rewrite !orb_true_iff, !andb_true_iff, !N.leb_le, !N.eqb_eq.
  intros Hc. split.
  - rewrite !orb_false_iff, !andb_false_iff, !N.leb_gt, !N.eqb_neq. lia.
  - lia.
Qed.

Lemma lstrip_c0_alpha c s :
  is_ascii_alpha c = true → lstrip_c0 (c :: s) = c :: s.
Proof.
  unfold is_ascii_alpha. rewrite orb_true_iff, !andb_true_iff, !N.leb_le.
  intros Hc. cbn [lstrip_c0].
  destruct (N.leb_spec c 32) as [Hle|_]; [lia|done].
Qed.

Lemma remove_tab_cr_lf_id s :
  Forall (λ c, isspace c = false) s → remove_tab_cr_lf s = s.
Proof.
  unfold remove_tab_cr_lf.
  induction 1 as [|c s Hc%isspace_false _ IH]; [done|].
  cbn [List.filter].
  destruct (N.eqb_spec c 9), (N.eqb_spec c 13), (N.eqb_spec c 10);
    try lia. simpl. by rewrite IH.
Qed.

Lemma find_char_app x s1 s2 :
  Forall (λ c, c ≠ x) s1 → find_char x (s1 ++ x :: s2) = Some (length s1).
Proof.
  induction 1 as [|c s1 Hc _ IH]; cbn [app find_char].
  - by rewrite N.eqb_refl.
  - destruct (N.eqb_spec c x); [done|]. by rewrite IH.
Qed.

Lemma until_delim_app host rest :
  Forall (λ c, netloc_delim c = false) host →
  match rest with [] => true | c :: _ => netloc_delim c end = true →
  until_delim (host ++ rest) = host.
Proof.
  intros Hhost Hrest.
  induction Hhost as [|c host Hc _ IH]; cbn [app until_delim].
  - destruct rest as [|c rest]; [done|]. cbn [until_delim]. by rewrite Hrest.
  - by rewrite Hc, IH.
Qed.

Lemma colon_slash_slash : py "://" = 58 :: 47 :: 47 :: [].
Proof. vm_compute. reflexivity. Qed.

Lemma slash_slash : py "//" = 47 :: 47 :: [].
Proof. vm_compute. reflexivity. Qed.

Lemma is_scheme_facts scheme :
  is_scheme scheme = true →
  ∃ c sch, scheme = c :: sch
    ∧ is_ascii_alpha c = true
    ∧ Forall (λ c, scheme_char c = true) scheme
    ∧ Forall (λ c, lower_char c = c) scheme.
Proof.
  unfold is_scheme. rewrite andb_true_iff, forallb_Forall.
  destruct scheme as [|c sch]; [by intros []|]. intros [Hc Hall].
  exists c, sch. split_and!; [done..| |].
  - eapply Forall_impl; [done|]. by intros x [? _]%andb_true_iff.
  - eapply Forall_impl; [done|]. intros x [_ Hup%negb_true_iff]%andb_true_iff.
    unfold lower_char, is_upper in *. by rewrite Hup.
Qed.

Lemma is_authority_facts host :
  is_authority host = true →
  Forall (λ c, isspace c = false) host
  ∧ Forall (λ c, netloc_delim c = false) host
  ∧ isascii host = true
  ∧ (91 ∉ host) ∧ (93 ∉ host).
Proof.
  unfold is_authority, isascii. rewrite !forallb_Forall. intros Hall.
  assert (∀ c, c ∈ host →
    (c <? 128) = true ∧ isspace c = false ∧ netloc_delim c = false
    ∧ c ≠ 91 ∧ c ≠ 93) as Hc.
  { intros c Hin. rewrite Forall_forall in Hall. specialize (Hall c Hin).
    rewrite !andb_true_iff, !negb_true_iff, !N.eqb_neq in Hall. naive_solver. }
  split_and!.
  - apply Forall_forall. intros c Hin. by apply Hc.
  - apply Forall_forall. intros c Hin. by apply Hc.
  - apply Forall_forall. intros c Hin. by apply Hc.
  - intros Hin. by apply Hc in Hin as (_ & _ & _ & ? & _).
  - intros Hin. by apply Hc in Hin as (_ & _ & _ & _ & ?).
Qed.

(** A well-formed URL is text without white space. *)
Lemma url_no_space scheme host rest :
  is_scheme scheme = true → is_authority host = true →
  is_path_query rest = true →
  Forall (λ c, isspace c = false) (scheme ++ py "://" ++ host ++ rest).
Proof.
  intros (c & sch & _ & _ & Hsch & _)%is_scheme_facts
         (Hhost & _)%is_authority_facts Hrest.
  unfold is_path_query in Hrest.
  apply andb_true_iff in Hrest as [_ Hrest%forallb_Forall].
  rewrite colon_slash_slash. rewrite !Forall_app. split_and!.
  - eapply Forall_impl; [done|]. by intros x [? _]%scheme_char_facts.
  - by repeat constructor.
  - done.
  - eapply Forall_impl; [done|]. by intros x ?%negb_true_iff.
Qed.

(** [urlparse] on a well-formed URL: the scheme and the authority, whatever
    path, query or fragment follows. *)
Lemma urlparse_url scheme host rest :
  is_scheme scheme = true → is_authority host = true →
  is_path_query rest = true →
  urlparse E (scheme ++ py "://" ++ host ++ rest) = Ok (scheme, host).
Proof.
  intros Hscheme Hhost Hrest.
  pose proof (url_no_space _ _ _ Hscheme Hhost Hrest) as Hnosp.
  destruct (is_scheme_facts _ Hscheme) as (c & sch & -> & Hc & Hsch & Hlow).
  destruct (is_authority_facts _ Hhost)
    as (_ & Hdelim & Hascii & Hlb & Hrb).
  unfold is_path_query in Hrest. apply andb_true_iff in Hrest as [Hrest _].
  unfold urlparse.
  change ((c :: sch) ++ py "://" ++ host ++ rest)
    with (c :: (sch ++ py "://" ++ host ++ rest)) at 1.
  rewrite (lstrip_c0_alpha _ _ Hc).
  change (c :: (sch ++ py "://" ++ host ++ rest))
    with ((c :: sch) ++ py "://" ++ host ++ rest).
  rewrite (remove_tab_cr_lf_id _ Hnosp).
  assert (split_scheme ((c :: sch) ++ py "://" ++ host ++ rest)
          = (c :: sch, py "//" ++ host ++ rest)) as ->.
  { unfold split_scheme. rewrite colon_slash_slash, slash_slash.
    cbn [app]. change (c :: sch ++ 58 :: 47 :: 47 :: host ++ rest)
      with ((c :: sch) ++ 58 :: (47 :: 47 :: host ++ rest)).
    rewrite find_char_app
      by (eapply Forall_impl; [exact Hsch|]; by intros x [_ ?]%scheme_char_facts).
    cbn [length app]. rewrite Hc.
    change (c :: sch ++ 58 :: 47 :: 47 :: host ++ rest)
      with ((c :: sch) ++ 58 :: (47 :: 47 :: host ++ rest)).
    rewrite (take_app_length' (c :: sch)) by done.
    apply forallb_Forall in Hsch. rewrite Hsch. cbn [andb].
    f_equal.
    - clear -Hlow. induction Hlow as [|x l Hx _ IH]; [done|].
      by rewrite fmap_cons, Hx, IH.
    - rewrite (cons_middle 58 (c :: sch)), app_assoc.
      by rewrite drop_app_length' by (rewrite length_app; simpl; lia). }
  rewrite slash_slash. cbn [app startswith N.eqb Pos.eqb andb drop].
  rewrite drop_0.
  rewrite (until_delim_app _ _ Hdelim Hrest).
  rewrite (bool_decide_eq_false_2 _ Hlb), (bool_decide_eq_false_2 _ Hrb).
  cbn [andb negb orb]. unfold checknetloc. rewrite Hascii, orb_true_r. done.
Qed.
End Urls.

Section Bruteforce.
Variable E : Env.
Variable self : WebSecurityRecon.

Implicit Types (w : world E) (ev : list event).

Lemma joinpath_inj dir a b : joinpath dir a = joinpath dir b → a = b.
Proof.
  unfold joinpath.
  destruct (bool_decide (dir = py ".")); [done|].
  destruct (bool_decide (last dir = Some 47)).
  - by intros ?%(inj (app dir)).
  - by intros ?%(inj (app dir))%(inj (app (py "/"))).
Qed.

Lemma wordlist_not_alive : wordlist self ≠ alive_file self.
Proof.
  unfold wordlist, alive_file. intros H%joinpath_inj.
  vm_compute in H. discriminate.
Qed.

Lemma run_directory_bruteforce_eq w content :
  fs E w !! alive_file self = Some (Text content) →
  run_directory_bruteforce E self w =
  let w1 := World E (<[wordlist self := Text wordlist_text]> (fs E w)) (ext E w) in
  let first_url := strip (readline content) in
  if bool_decide (first_url = []) then
    (Ok false, w1,
     bruteforce_prelude self ++ [EPrint (py "    ✗ No URL in alive.txt")])
  else
    let '(r, w2, ev) := try_except E (fuzz E self first_url) (ffuf_failed E) w1 in
    (r, w2, bruteforce_prelude self ++ ev).
Proof.
  intros Halive. unfold run_directory_bruteforce. rewrite bind_print.
  unfold mbind at 1, M_bind, bind, exists_. rewrite Halive. simpl.
  unfold mbind at 1, M_bind, bind, open_w.
  unfold try_except, bruteforce_body.
  unfold mbind at 1, M_bind, bind, open_readline. simpl.
  rewrite lookup_insert_ne by apply wordlist_not_alive. rewrite Halive.
  destruct (bool_decide (strip (readline content) = [])); [done|].
  set (w1 := {| fs := _ |}).
  destruct (fuzz E self (strip (readline content)) w1) as [[[b|e] w2] ev];
    [done|].
  by destruct (ffuf_failed E e w2) as [[r w3] ev3].
Qed.

Lemma fuzz_eq first_url token parsed w :
  index0 (split first_url) = Ok token →
  urlparse E token = Ok parsed →
  fuzz E self first_url w
  = (subprocess_run E
       (ffuf_cmd self (parsed.1 ++ py "://" ++ parsed.2 ++ py "/FUZZ")) None ;;
     report_ffuf_results E self) w.
Proof.
  intros Htoken Hparsed. unfold fuzz.
  unfold mbind at 1, M_bind, bind, lift. rewrite Htoken.
  unfold mbind at 1, M_bind, bind. rewrite Hparsed.
  match goal with |- _ = ?m w => by destruct (m w) as [[r w'] ev] end.
Qed.

Lemma report_ffuf_results_eq w text :
  fs E w !! ffuf_file self = Some (Text text) →
  report_ffuf_results E self w =
  match count_results E text with
  | Ok found =>
    (Ok true, w,
     [EOpenRead (ffuf_file self);
      EPrint (py "    ✓ Found " ++ str_of_nat found ++ py " valid paths")])
  | Raise e => (Raise e, w, [EOpenRead (ffuf_file self)])
  end.
Proof.
  intros Hfile. unfold report_ffuf_results, count_results. munfold.
  rewrite Hfile. simpl. rewrite Hfile.
  destruct (json_load_text E text) as [results|e]; [|done]. simpl.
  destruct (get results (py "results") (JList [])) as [entries|e]; [|done].
  simpl. by destruct (len entries).
Qed.

(** The step once the brute-forcer has run to completion and left its
    result file. *)
Lemma bruteforce_reaches_results w content token parsed text :
  let cmd := ffuf_cmd self (parsed.1 ++ py "://" ++ parsed.2 ++ py "/FUZZ") in
  let r := run_process E cmd (<[wordlist self := Text wordlist_text]> (fs E w))
             (ext E w) in
  fs E w !! alive_file self = Some (Text content) →
  index0 (split (strip (readline content))) = Ok token →
  urlparse E token = Ok parsed →
  status r = Exited 0 →
  files_after r !! ffuf_file self = Some (Text text) →
  run_directory_bruteforce E self w =
  match count_results E text with
  | Ok found =>
    (Ok true, World E (files_after r) (ext_after r),
     bruteforce_prelude self
     ++ [EExec cmd; EOpenRead (ffuf_file self);
         EPrint (py "    ✓ Found " ++ str_of_nat found ++ py " valid paths")])
  | Raise e =>
    (Ok false, World E (files_after r) (ext_after r),
     bruteforce_prelude self
     ++ [EExec cmd; EOpenRead (ffuf_file self);
         EPrint (py "    ✗ ffuf failed: " ++ msg e)])
  end.
Proof.
  intros cmd r Halive Htoken Hparsed Hstatus Hfile.
  rewrite (run_directory_bruteforce_eq _ _ Halive). simpl.
  rewrite bool_decide_false.
  2:{ intros Hblank. by rewrite Hblank in Htoken. }
  unfold try_except. rewrite (fuzz_eq _ _ _ _ Htoken Hparsed).
  unfold mbind at 1, M_bind, bind, subprocess_run. simpl.
  fold cmd. fold r. rewrite Hstatus. simpl.
  rewrite report_ffuf_results_eq with (text := text) by done.
  destruct (count_results E text) as [found|e]; [done|].
  unfold ffuf_failed. by munfold.
Qed.

(** Whatever happens after the first line is read, the brute-forcer is the
    first thing run once a target was built. *)
Lemma bruteforce_runs_target w content token parsed :
  fs E w !! alive_file self = Some (Text content) →
  index0 (split (strip (readline content))) = Ok token →
  urlparse E token = Ok parsed →
  ∃ b w' ev,
    run_directory_bruteforce E self w
    = (Ok b, w',
       bruteforce_prelude self
       ++ EExec (ffuf_cmd self (parsed.1 ++ py "://" ++ parsed.2 ++ py "/FUZZ"))
          :: ev).
Proof.
  intros Halive Htoken Hparsed.
  rewrite (run_directory_bruteforce_eq _ _ Halive). simpl.
  rewrite bool_decide_false.
  2:{ intros Hblank. by rewrite Hblank in Htoken. }
  unfold try_except. rewrite (fuzz_eq _ _ _ _ Htoken Hparsed).
  unfold mbind at 1, M_bind, bind, subprocess_run. simpl.
  destruct (status _) as [code|e].
  - destruct (bool_decide (code = 0%Z)).
    + destruct (report_ffuf_results E self _) as [[[b|e] w2] ev2]; simpl; eauto.
    + simpl. eauto.
  - simpl. eauto.
Qed.

(** The step when the brute-forcer could not be started. *)
Lemma bruteforce_tool_error w content token parsed e :
  let cmd := ffuf_cmd self (parsed.1 ++ py "://" ++ parsed.2 ++ py "/FUZZ") in
  let w1 := World E (<[wordlist self := Text wordlist_text]> (fs E w)) (ext E w) in
  fs E w !! alive_file self = Some (Text content) →
  index0 (split (strip (readline content))) = Ok token →
  urlparse E token = Ok parsed →
  status (run_process E cmd (fs E w1) (ext E w1)) = NotStarted e →
  run_directory_bruteforce E self w
  = (Ok false, w1,
     bruteforce_prelude self
     ++ [EExec cmd; EPrint (py "    ✗ ffuf failed: " ++ msg e)]).
Proof.
  intros cmd w1 Halive Htoken Hparsed Hstatus.
  rewrite (run_directory_bruteforce_eq _ _ Halive). simpl.
  rewrite bool_decide_false.
  2:{ intros Hblank. by rewrite Hblank in Htoken. }
  unfold try_except. rewrite (fuzz_eq _ _ _ _ Htoken Hparsed).
  unfold mbind at 1, M_bind, bind, subprocess_run.
  fold cmd. fold w1. rewrite Hstatus. by munfold.
Qed.

(** Past the prelude the step writes no file. *)
Lemma bruteforce_writes_once w content :
  fs E w !! alive_file self = Some (Text content) →
  ∃ b w' ev,
    run_directory_bruteforce E self w
    = (Ok b, w', bruteforce_prelude self ++ ev)
    ∧ ∀ path text, EWrite path text ∉ ev.
Proof.
  intros Halive.
  rewrite (run_directory_bruteforce_eq _ _ Halive). simpl.
  destruct (bool_decide (strip (readline content) = [])).
  { eexists _, _, _. split; [done|]. intros path text. set_solver. }
  unfold try_except, fuzz, report_ffuf_results, ffuf_failed. munfold.
  destruct (index0 _) as [token|e]; simpl.
  2:{ eexists _, _, _. split; [done|]. intros path text. set_solver. }
  destruct (urlparse E token) as [parsed|e]; simpl.
  2:{ eexists _, _, _. split; [done|]. intros path text. set_solver. }
  destruct (status _) as [code|e]; simpl.
  2:{ eexists _, _, _. split; [done|]. intros path text. set_solver. }
  destruct (bool_decide (code = 0%Z)); simpl.
  2:{ eexists _, _, _. split; [done|]. intros path text. set_solver. }
  destruct (files_after _ !! ffuf_file self) as [[text|fl m]|] eqn:Hfile;
    simpl; rewrite ?Hfile.
  2,3:(eexists _, _, _; (split; [done|]); intros path text; set_solver).
  destruct (json_load_text E text) as [results|e]; simpl.
  2:{ eexists _, _, _. split; [done|]. intros path text'. set_solver. }
  destruct (get results _ _) as [entries|e]; simpl.
  2:{ eexists _, _, _. split; [done|]. intros path text'. set_solver. }
  destruct (len entries) as [n|e]; simpl.
  all: eexists _, _, _; (split; [done|]); intros path text'; set_solver.
Qed.

(** The step past its precondition, whatever the alive-host list holds:
    the word list is written first, the rest runs in the workspace with
    the word list, and only the brute-forcer can change that workspace. *)
Lemma bruteforce_leaves_wordlist w :
  is_Some (fs E w !! alive_file self) →
  let w1 := World E (<[wordlist self := Text wordlist_text]> (fs E w)) (ext E w) in
  ∃ b w' ev,
    run_directory_bruteforce E self w
    = (Ok b, w', bruteforce_prelude self ++ ev)
    ∧ (∀ path text, EWrite path text ∉ ev)
    ∧ (w' = w1
       ∨ ∃ target,
           let r := run_process E (ffuf_cmd self target) (fs E w1) (ext E w1) in
           EExec (ffuf_cmd self target) ∈ ev
           ∧ w' = World E (files_after r) (ext_after r)).
Proof.
  intros Halive w1. unfold run_directory_bruteforce. rewrite bind_print.
  unfold mbind at 1, M_bind, bind, exists_.
  rewrite bool_decide_true by done. cbn [negb].
  unfold mbind at 1, M_bind, bind, open_w. fold w1.
  assert (is_Some (fs E w1 !! alive_file self)) as [file Hfile].
  { unfold w1. cbn [fs].
    by rewrite lookup_insert_ne by apply wordlist_not_alive. }
  assert (∃ b w' ev,
            try_except E (bruteforce_body E self) (ffuf_failed E) w1
            = (Ok b, w', EOpenRead (alive_file self) :: ev)
            ∧ (∀ path text, EWrite path text ∉ ev)
            ∧ (w' = w1
               ∨ ∃ target,
                   let r := run_process E (ffuf_cmd self target)
                              (fs E w1) (ext E w1) in
                   EExec (ffuf_cmd self target) ∈ ev
                   ∧ w' = World E (files_after r) (ext_after r)))
    as (b & w' & ev & -> & Hev & Hw).
  2:{ exists b, w', ev. by split_and!. }
  assert (∀ line,
            ∃ b w' ev,
              try_except E
                (let first_url := strip line in
                 if bool_decide (first_url = [])
                 then print E (py "    ✗ No URL in alive.txt") ;; mret false
                 else fuzz E self first_url) (ffuf_failed E) w1
              = (Ok b, w', ev)
              ∧ (∀ path text, EWrite path text ∉ ev)
              ∧ (w' = w1
                 ∨ ∃ target,
                     let r := run_process E (ffuf_cmd self target)
                                (fs E w1) (ext E w1) in
                     EExec (ffuf_cmd self target) ∈ ev
                     ∧ w' = World E (files_after r) (ext_after r)))
    as Hline.
  { intros line. cbv zeta.
    destruct (bool_decide (strip line = [])).
    { eexists _, _, _. split_and!; [done| |by left].
      intros path text. set_solver. }
    unfold try_except, fuzz, report_ffuf_results, ffuf_failed. munfold.
    destruct (index0 _) as [token|e]; simpl.
    2:{ eexists _, _, _. split_and!; [done| |by left].
        intros path text. set_solver. }
    destruct (urlparse E token) as [parsed|e]; simpl.
    2:{ eexists _, _, _. split_and!; [done| |by left].
        intros path text. set_solver. }
    destruct (status _) as [code|e] eqn:Hstatus; simpl.
    2:{ eexists _, _, _. split_and!; [done| |by left].
        intros path text. set_solver. }
    assert (∀ ev : list event,
              EExec (ffuf_cmd self
                       (parsed.1 ++ py "://" ++ parsed.2 ++ py "/FUZZ"))
              ∈ EExec (ffuf_cmd self
                         (parsed.1 ++ py "://" ++ parsed.2 ++ py "/FUZZ"))
                :: ev) as Hexec by (intros; apply list_elem_of_here).
    destruct (bool_decide (code = 0%Z)); simpl.
    2:{ eexists _, _, _. split_and!; [done| |right; eexists; split; [apply Hexec|done]].
        intros path text. set_solver. }
    destruct (files_after _ !! ffuf_file self) as [[text|fl m]|] eqn:Hres;
      simpl; rewrite ?Hres; simpl.
    2,3:(eexists _, _, _; split_and!;
         [done|intros path text; set_solver|right; eexists; split; [apply Hexec|done]]).
    destruct (json_load_text E text) as [results|e]; simpl.
    2:{ eexists _, _, _. split_and!; [done| |right; eexists; split; [apply Hexec|done]].
        intros path text'. set_solver. }
    destruct (get results _ _) as [entries|e]; simpl.
    2:{ eexists _, _, _. split_and!; [done| |right; eexists; split; [apply Hexec|done]].
        intros path text'. set_solver. }
    destruct (len entries) as [n|e]; simpl.
    all: eexists _, _, _; split_and!;
      [done|intros path text'; set_solver|right; eexists; split; [apply Hexec|done]]. }
  unfold bruteforce_body.
  destruct file as [content|[line|] m].
  - destruct (Hline (readline content)) as (b & w' & ev & Heq & Hev & Hw).
    exists b, w', ev. split_and!; [|done..].
    revert Heq. unfold try_except. unfold mbind at 2, M_bind, bind.
    unfold open_readline. rewrite Hfile. cbv zeta.
    match goal with |- context [?m w1] => destruct (m w1) as [[[?|?] ?] ?] end.
    + by intros [= -> -> ->].
    + match goal with |- context [ffuf_failed E ?e ?w] =>
        destruct (ffuf_failed E e w) as [[? ?] ?] end.
      intros [= -> -> <-]. by rewrite <- app_assoc.
  - destruct (Hline line) as (b & w' & ev & Heq & Hev & Hw).
    exists b, w', ev. split_and!; [|done..].
    revert Heq. unfold try_except. unfold mbind at 2, M_bind, bind.
    unfold open_readline. rewrite Hfile. cbv zeta.
    match goal with |- context [?m w1] => destruct (m w1) as [[[?|?] ?] ?] end.
    + by intros [= -> -> ->].
    + match goal with |- context [ffuf_failed E ?e ?w] =>
        destruct (ffuf_failed E e w) as [[? ?] ?] end.
      intros [= -> -> <-]. by rewrite <- app_assoc.
  - exists false, w1, [EPrint (py "    ✗ ffuf failed: " ++ m)].
    split_and!; [|intros path text; set_solver|by left].
    unfold try_except. unfold mbind at 1, M_bind, bind.
    unfold open_readline. rewrite Hfile. unfold ffuf_failed. by munfold.
Qed.
End Bruteforce.

(** ** The loop of [start] *)

Section Loop.
Variable E : Env.
Variable self : WebSecurityRecon.

Implicit Types (w : world E) (ev : list event) (sts : list (step E)).

Lemma runs_for_steps sts w w' ev :
  runs sts w w' ev → for_steps E sts w = (Ok tt, w', ev).
Proof.
  induction 1 as [w|st sts w b w1 ev1 w2 ev2 Hc _ IH]; [done|].
  by rewrite (for_steps_cons _ _ _ _ _ _ _ Hc), IH.
Qed.

Lemma runs_then sts1 sts2 w w1 ev1 :
  runs sts1 w w1 ev1 →
  for_steps E (sts1 ++ sts2) w
  = let '(r, w2, ev2) := for_steps E sts2 w1 in (r, w2, ev1 ++ ev2).
Proof.
  induction 1 as [w|st sts w b w1 ev1 w2 ev2 Hc _ IH]; cbn [app].
  - by destruct (for_steps E sts2 w) as [[r w2] ev2].
  - rewrite (for_steps_cons _ _ _ _ _ _ _ Hc), IH.
    destruct (for_steps E sts2 w2) as [[r w3] ev3].
    by rewrite <- !app_assoc.
Qed.

(** Steps that contain their exceptions are all run, in order. *)
Lemma attempts_runs sts markers :
  Forall2 (λ st marker, attempts (call E st) marker) sts markers →
  ∀ w, ∃ w' ev, runs sts w w' ev ∧ (EPrint <$> markers) `sublist_of` ev.
Proof.
  induction 1 as [|st marker sts markers Hst _ IH]; intros w.
  - exists w, []. split; [constructor|done].
  - destruct (Hst w) as (b & w1 & ev1 & Hc).
    destruct (IH w1) as (w2 & ev2 & Hrest & Hsub).
    eexists _, _. split; [by econstructor|].
    rewrite fmap_cons. simpl. apply sublist_skip.
    by do 2 apply sublist_inserts_l.
Qed.

(** An exception that leaves a step leaves the loop: the steps after it
    are not run. *)
Lemma for_steps_raise st rest w e w1 ev1 :
  call E st w = (Raise e, w1, ev1) →
  for_steps E (st :: rest) w = (Raise e, w1, ev1).
Proof. intros Hc. cbn [for_steps]. munfold. by rewrite Hc. Qed.

Lemma steps_split :
  steps E self
  = take 5 (steps E self)
    ++ Step E (py "extract_js_files") (extract_js_files E self)
    :: drop 6 (steps E self).
Proof. reflexivity. Qed.

(** The first step is entered in every run of the loop: its marker is
    printed and subfinder is run. *)
Lemma run_subfinder_starts w :
  ∃ b w' ev,
    run_subfinder E self w
    = (Ok b, w',
       EPrint (nl ++ py "[1/9] Running subfinder on " ++ domain self)
       :: EExec [py "subfinder"; py "-d"; domain self; py "-o";
                 subdomain_file self; py "-all"; py "-silent"]
       :: ev).
Proof.
  unfold run_subfinder. cbv zeta. rewrite bind_print. munfold.
  destruct (status _) as [code|e]; [destruct (bool_decide _)|];
    simpl; eauto.
Qed.

Lemma run_pipeline_eq w :
  run_pipeline E self w
  = match for_steps E (steps E self) w with
    | (Ok _, w1, ev1) => (Ok tt, w1, ev1 ++ completion_banner self)
    | (Raise e, w1, ev1) => (Raise e, w1, ev1)
    end.
Proof.
  unfold run_pipeline. unfold mbind at 1, M_bind, bind.
  destruct (for_steps E (steps E self) w) as [[[u|e] w1] ev1]; [|done].
  by munfold.
Qed.

Lemma run_pipeline_enters w :
  ∃ r w2 ev,
    run_pipeline E self w
    = (r, w2,
       EPrint (nl ++ py "[1/9] Running subfinder on " ++ domain self)
       :: EExec [py "subfinder"; py "-d"; domain self; py "-o";
                 subdomain_file self; py "-all"; py "-silent"]
       :: ev).
Proof.
  rewrite run_pipeline_eq. unfold steps.
  destruct (run_subfinder_starts w) as (b & w1 & ev1 & Hc).
  rewrite (for_steps_cons E (Step E (py "run_subfinder") (run_subfinder E self))
             _ w b w1 _ Hc).
  destruct (for_steps E _ w1) as [[[u|e] w2] ev2]; cbn [app]; eauto.
Qed.

(** The run of the nine steps: the five before the extraction always
    return; what follows depends on how the extraction ends. *)
Lemma run_pipeline_cases w :
  ∃ w5 ev5,
    runs (take 5 (steps E self)) w w5 ev5
    ∧ (EPrint <$> take 5 (step_markers self)) `sublist_of` ev5
    ∧ match extract_js_files E self w5 with
      | (Ok b, w6, ev6) =>
        ∃ w9 ev9,
          runs (drop 6 (steps E self)) w6 w9 ev9
          ∧ (EPrint <$> drop 6 (step_markers self)) `sublist_of` ev9
          ∧ run_pipeline E self w
            = (Ok tt, w9,
               ev5 ++ ev6
               ++ (if b then []
                   else [failure_notice (py "extract_js_files")])
               ++ ev9 ++ completion_banner self)
      | (Raise e, w6, ev6) =>
        run_pipeline E self w = (Raise e, w6, ev5 ++ ev6)
      end.
Proof.
  destruct (attempts_runs _ _ (first_steps_attempts E self) w)
    as (w5 & ev5 & Hfirst & Hsub5).
  exists w5, ev5. split_and!; [done..|].
  rewrite run_pipeline_eq, steps_split, (runs_then _ _ _ _ _ Hfirst).
  destruct (extract_js_files E self w5) as [[[b|e] w6] ev6] eqn:Hx.
  - destruct (attempts_runs _ _ (last_steps_attempts E self) w6)
      as (w9 & ev9 & Hlast & Hsub9).
    exists w9, ev9. split_and!; [done..|].
    rewrite (for_steps_cons E _ _ _ b w6 ev6) by done.
    rewrite (runs_for_steps _ _ _ _ Hlast). cbn [name].
    by rewrite <- !app_assoc.
  - by rewrite (for_steps_raise _ _ _ e w6 ev6).
Qed.
End Loop.

(** ** The model on concrete inputs *)

Example py_decodes : py "✓ ." = [0x2713; 32; 46].
Proof. vm_compute. reflexivity. Qed.

Example split_words : split (py "  a b   cd ") = [py "a"; py "b"; py "cd"].
Proof. vm_compute. reflexivity. Qed.

Example strip_both_ends : strip (py "  a b  ") = py "a b".
Proof. vm_compute. reflexivity. Qed.

Example str_of_negative : str_of_Z (-10) = py "-10".
Proof. vm_compute. reflexivity. Qed.

Example readlines_universal :
  readlines [97; 13; 10; 98; 13; 99] = [[97; 10]; [98; 10]; [99]].
Proof. vm_compute. reflexivity. Qed.

Example sorted_by_code_point :
  sorted [py "b"; py "ab"; py "Z"; py "a"] = [py "Z"; py "a"; py "ab"; py "b"].
Proof. vm_compute. reflexivity. Qed.

Example urlparse_lowers_the_scheme :
  urlparse (sample_env all_succeed no_json)
    (py "HTTPS://Shop.Example.com:8443/a/b?x=1#top")
  = Ok (py "https", py "Shop.Example.com:8443").
Proof. vm_compute. reflexivity. Qed.

(** Two files, one URL in both, one line without a marker, one line with
    white space around it: three URLs, in code-point order. *)
Example extract_js_files_on_a_crawl :
  let E := sample_env all_succeed no_json in
  let w : world E := World E crawled () in
  let text := py "https://a.example/Z.js" ++ nl
              ++ py "https://a.example/app.js" ++ nl
              ++ py "https://a.example/js/x" ++ nl in
  extract_js_files E sample_recon w
  = (Ok true, World E (<[js_files sample_recon := Text text]> crawled) (),
     [ EPrint (nl ++ py "[6/9] Extracting JS files");
       EOpenRead (katana_file sample_recon);
       EOpenRead (wayback_file sample_recon);
       EWrite (js_files sample_recon) text;
       EPrint (py "    ✓ Found 3 JavaScript files") ]).
Proof. intros E w text. compute_done. Qed.

(** A first line with a port, a path, a query and a fragment. *)
Example bruteforce_on_a_long_url :
  let E := sample_env all_succeed no_json in
  let w : world E :=
    World E (alive_only (py "https://shop.example.com:8443/a/b?x=1#top [301] [nginx]"
                         ++ nl)) () in
  run_directory_bruteforce E sample_recon w
  = (Ok false,
     World E (<[wordlist sample_recon := Text wordlist_text]> (fs E w)) (),
     bruteforce_prelude sample_recon
     ++ [ EExec (ffuf_cmd sample_recon (py "https://shop.example.com:8443/FUZZ"));
          EPrint (py "    ✗ ffuf output not found") ]).
Proof. intros E w. compute_done. Qed.

(** A first line of blanks, with a URL on the second line. *)
Example bruteforce_on_a_blank_first_line :
  let E := sample_env all_succeed no_json in
  let w : world E :=
    World E (alive_only (py "   " ++ nl ++ py "https://example.com" ++ nl)) () in
  run_directory_bruteforce E sample_recon w
  = (Ok false,
     World E (<[wordlist sample_recon := Text wordlist_text]> (fs E w)) (),
     bruteforce_prelude sample_recon
     ++ [ EPrint (py "    ✗ No URL in alive.txt") ]).
Proof. intros E w. compute_done. Qed.

(** * The claims *)

(** C2: continue-on-error, and where it stops.  In any run of the nine
    steps the five steps before the extraction all return and are run in
    order, each from the world the step before it left, a [False] only
    adding the notice.  The extraction step has no handler: it raises
    exactly when the crawl output or the wayback file is not text, with
    the decoder's error.  When it returns, whatever it returns, the three
    steps after it are run in the same way and the completion banner
    closes the run; when it raises, the exception leaves the loop: the
    run ends there, without the last three steps and without the
    banner. *)
Theorem continue_on_error (E : Env) (self : WebSecurityRecon) (w : world E) :
  ∃ w5 ev5,
    runs [ Step E (py "run_subfinder") (run_subfinder E self);
           Step E (py "run_httpx") (run_httpx E self);
           Step E (py "run_waybackurls") (run_waybackurls E self);
           Step E (py "run_gau") (run_gau E self);
           Step E (py "run_katana_crawl") (run_katana_crawl E self) ]
         w w5 ev5
    ∧ (∀ e, (∃ w6 ev6, extract_js_files E self w5 = (Raise e, w6, ev6))
            ↔ decode_error (fs E w5) (katana_file self) = Some e
              ∨ (decode_error (fs E w5) (katana_file self) = None
                 ∧ decode_error (fs E w5) (wayback_file self) = Some e))
    ∧ match extract_js_files E self w5 with
      | (Ok b, w6, ev6) =>
        ∃ w9 ev9,
          runs [ Step E (py "run_nuclei_scan") (run_nuclei_scan E self);
                 Step E (py "run_subdomain_takeover")
                   (run_subdomain_takeover E self);
                 Step E (py "run_directory_bruteforce")
                   (run_directory_bruteforce E self) ]
               w6 w9 ev9
          ∧ run_pipeline E self w
            = (Ok tt, w9,
               ev5 ++ ev6
               ++ (if b then []
                   else [failure_notice (py "extract_js_files")])
               ++ ev9 ++ completion_banner self)
      | (Raise e, w6, ev6) =>
        cls e = UnicodeDecodeError
        ∧ run_pipeline E self w = (Raise e, w6, ev5 ++ ev6)
      end.
Proof.
  destruct (run_pipeline_cases E self w) as (w5 & ev5 & Hfirst & _ & Hrest).
  exists w5, ev5. split; [done|].
  assert (∀ e, (∃ w6 ev6, extract_js_files E self w5 = (Raise e, w6, ev6))
            ↔ decode_error (fs E w5) (katana_file self) = Some e
              ∨ (decode_error (fs E w5) (katana_file self) = None
                 ∧ decode_error (fs E w5) (wayback_file self) = Some e))
    as Hraise.
  { intros e. rewrite extract_js_files_eq. cbv zeta.
    destruct (decode_error _ (katana_file self)) as [e1|].
    { split; [intros (? & ? & [= ->]); by left|].
      intros [[= ->]|[? _]]; [eauto|done]. }
    destruct (decode_error _ (wayback_file self)) as [e2|].
    { split; [intros (? & ? & [= ->]); by right|].
      intros [?|[_ [= ->]]]; [done|eauto]. }
    split; [|by intros [?|[_ ?]]].
    destruct (decide _); by intros (? & ? & ?). }
  split; [done|].
  destruct (extract_js_files E self w5) as [[[b|e] w6] ev6] eqn:Hx.
  - destruct Hrest as (w9 & ev9 & Hlast & _ & Hrun). by exists w9, ev9.
  - split; [|done].
    destruct (proj1 (Hraise e)) as [Hex|[_ Hex]]; [by exists w6, ev6|..];
      unfold decode_error in Hex;
      by destruct (fs E w5 !! _) as [[?|? ?]|]; simplify_eq.
Qed.

(** The failing run of C2: a workspace holds, from an earlier crawl, a
    [katana_crawl.txt] with a byte that is not UTF-8, and no alive-host
    list.  Every tool succeeds.  The run is left by the extraction step
    with [UnicodeDecodeError]: the steps 7 to 9 are not entered and no
    completion banner is printed. *)
Example undecodable_crawl_output_ends_the_run :
  let E := sample_env all_succeed no_json in
  let e := Exn UnicodeDecodeError
             (py "'utf-8' codec can't decode byte 0xff in position 0: invalid start byte") in
  let w : world E :=
    World E {[ katana_file sample_recon := Garbled None (msg e) ]} () in
  run_pipeline E sample_recon w
  = (Raise e,
     World E (<[wayback_file sample_recon := Text []]> (fs E w)) (),
     [ EPrint (nl ++ py "[1/9] Running subfinder on example.com");
       EExec [py "subfinder"; py "-d"; py "example.com"; py "-o";
              py "web_recon/subdomains.txt"; py "-all"; py "-silent"];
       EPrint (py "    ✓ Subdomain enumeration complete");
       EPrint (nl ++ py "[2/9] Running httpx");
       EPrint (py "    ✗ subdomains.txt not found");
       failure_notice (py "run_httpx");
       EPrint (nl ++ py "[3/9] Running waybackurls");
       EWrite (py "web_recon/waybackurls.txt") [];
       EExec [py "waybackurls"; py "example.com"];
       EPrint (py "    ✓ Wayback URLs collected");
       EPrint (nl ++ py "[4/9] Running gau");
       EExec [py "gau"; py "--threads"; py "10"; py "--o";
              py "web_recon/gau_urls.txt"; py "example.com"];
       EPrint (py "    ✓ gau URLs collected");
       EPrint (nl ++ py "[5/9] Running katana");
       EPrint (py "    ✗ alive.txt not found");
       failure_notice (py "run_katana_crawl");
       EPrint (nl ++ py "[6/9] Extracting JS files");
       EOpenRead (py "web_recon/katana_crawl.txt") ])
  ∧ (start E sample_recon w).1.1 = Raise e.
Proof. intros E e w. split; compute_done. Qed.

(** C4: precondition gating.  For each of the five steps that test for a
    file (liveness probe, crawl, vulnerability scan, takeover check,
    directory brute-force), when that file is absent the step prints its
    marker and the "not found" line, returns [False], runs no command and
    leaves the workspace as it was; the loop then prints the failure
    notice and goes on with the steps that follow. *)
Theorem precondition_gating (E : Env) (self : WebSecurityRecon) (w : world E)
    (i : nat) (st : step E) (file : str) (rest : list (step E)) :
  preconditions E self !! i = Some (st, file) →
  fs E w !! joinpath (output_dir self) file = None →
  ∃ marker,
    marker ∈ step_markers self
    ∧ call E st w
      = (Ok false, w,
         [EPrint marker; EPrint (py "    ✗ " ++ file ++ py " not found")])
    ∧ for_steps E (st :: rest) w
      = let '(r, w2, ev2) := for_steps E rest w in
        (r, w2,
         [EPrint marker; EPrint (py "    ✗ " ++ file ++ py " not found");
          failure_notice (name E st)] ++ ev2).
Proof.
  intros Hi Hfile.
  assert (∃ marker, marker ∈ step_markers self ∧
            call E st w = (Ok false, w,
              [EPrint marker; EPrint (py "    ✗ " ++ file ++ py " not found")]))
    as (marker & Hin & Hcall).
  { destruct i as [|[|[|[|[|i]]]]]; simpl in Hi; try discriminate Hi;
      injection Hi as <- <-; simpl;
      rewrite ?not_found_alive, ?not_found_subdomains.
    - eexists; split; [|exact (run_httpx_gated E self w Hfile)].
      by apply (list_elem_of_lookup_2 _ 1%nat).
    - eexists; split; [|exact (run_katana_crawl_gated E self w Hfile)].
      by apply (list_elem_of_lookup_2 _ 4%nat).
    - eexists; split; [|exact (run_nuclei_scan_gated E self w Hfile)].
      by apply (list_elem_of_lookup_2 _ 6%nat).
    - eexists; split; [|exact (run_subdomain_takeover_gated E self w Hfile)].
      by apply (list_elem_of_lookup_2 _ 7%nat).
    - eexists; split; [|exact (run_directory_bruteforce_gated E self w Hfile)].
      by apply (list_elem_of_lookup_2 _ 8%nat). }
  exists marker. split_and!; [done..|].
  rewrite (for_steps_cons _ _ _ _ _ _ _ Hcall).
  by destruct (for_steps E rest w) as [[r w2] ev2].
Qed.

Lemma precondition_gating_witness :
  let E := sample_env all_succeed no_json in
  let w : world E := World E ∅ () in
  ∃ marker,
    marker ∈ step_markers sample_recon
    ∧ run_httpx E sample_recon w
      = (Ok false, w,
         [EPrint marker;
          EPrint (py "    ✗ " ++ py "subdomains.txt" ++ py " not found")])
    ∧ for_steps E [Step E (py "run_httpx") (run_httpx E sample_recon)] w
      = (Ok tt, w,
         [EPrint marker;
          EPrint (py "    ✗ " ++ py "subdomains.txt" ++ py " not found");
          failure_notice (py "run_httpx")]).
Proof.
  intros E w.
  apply (precondition_gating E sample_recon w 0 _ _ [] eq_refl).
  compute_done.
Defined.

Lemma attempts_all_steps_first self ev :
  attempts_all_steps self ev →
  EPrint (nl ++ py "[1/9] Running subfinder on " ++ domain self) ∈ ev.
Proof.
  unfold attempts_all_steps, step_markers. rewrite fmap_cons.
  intros (k1 & k2 & -> & _)%sublist_cons_l.
  apply elem_of_app. right. apply list_elem_of_here.
Qed.

(** C1, as the code has it: the dependency check gates the run.  [start]
    prints the banner and runs the check.  When the check returns [True]
    (every tool answered its help invocation) the loop over the steps is
    entered from the world the check left, and [start] ends as that loop
    ends: the first step prints its marker and runs subfinder.  When the
    check returns [False] (a tool was reported missing) [start] returns at
    once: its events are the banner and those of the check, and nothing
    else. *)
Theorem dependency_check_gates (E : Env) (self : WebSecurityRecon)
    (w : world E) (b : bool) (w1 : world E) (ev1 : list event) :
  check_dependencies E w = (Ok b, w1, ev1) →
  if b
  then ev1 = EPrint (py "[+] Checking dependencies...") :: installed_report tools
       ∧ start E self w
         = (let '(r, w2, ev2) := run_pipeline E self w1 in
            (r, w2, EPrint banner :: ev1 ++ ev2))
       ∧ ∃ r w2 ev3,
           run_pipeline E self w1
           = (r, w2,
              EPrint (nl ++ py "[1/9] Running subfinder on " ++ domain self)
              :: EExec [py "subfinder"; py "-d"; domain self; py "-o";
                        subdomain_file self; py "-all"; py "-silent"]
              :: ev3)
  else (∃ tool hint, (tool, hint) ∈ tools
          ∧ EPrint (py "    ✗ " ++ tool ++ py " is missing") ∈ ev1)
       ∧ start E self w = (Ok tt, w1, EPrint banner :: ev1).
Proof.
  intros Hdeps. pose proof (check_dependencies_spec E w b w1 ev1 Hdeps) as Hspec.
  rewrite start_eq, Hdeps. destruct b.
  - split_and!; [done..|]. apply run_pipeline_enters.
  - by split.
Qed.

Lemma dependency_check_gates_witness :
  let E := sample_env all_succeed no_json in
  let w : world E := World E ∅ () in
  let ev1 := EPrint (py "[+] Checking dependencies...") :: installed_report tools in
  ev1 = EPrint (py "[+] Checking dependencies...") :: installed_report tools
  ∧ start E sample_recon w
    = (let '(r, w2, ev2) := run_pipeline E sample_recon w in
       (r, w2, EPrint banner :: ev1 ++ ev2))
  ∧ ∃ r w2 ev3,
      run_pipeline E sample_recon w
      = (r, w2,
         EPrint (nl ++ py "[1/9] Running subfinder on " ++ domain sample_recon)
         :: EExec [py "subfinder"; py "-d"; domain sample_recon; py "-o";
                   subdomain_file sample_recon; py "-all"; py "-silent"]
         :: ev3).
Proof.
  intros E w ev1.
  apply (dependency_check_gates E sample_recon w true w ev1).
  compute_done.
Defined.

(** C1 as stated fails: with [subjack] absent from the machine and every
    other tool present, [start] stops after the report of the dependency
    check.  No step is entered and the only commands run are the eight
    help invocations. *)
Lemma missing_tool_stops_the_run :
  let E := sample_env
             (without_tool (py "subjack")
                (Exn FileNotFoundError
                   (py "[Errno 2] No such file or directory: 'subjack'")))
             no_json in
  let w : world E := World E ∅ () in
  start E sample_recon w
  = (Ok tt, w,
     [ EPrint banner;
       EPrint (py "[+] Checking dependencies...");
       EExec [py "subfinder"; py "-h"];
       EPrint (py "    ✓ subfinder is installed");
       EExec [py "httpx"; py "-h"];
       EPrint (py "    ✓ httpx is installed");
       EExec [py "waybackurls"; py "-h"];
       EPrint (py "    ✓ waybackurls is installed");
       EExec [py "nuclei"; py "-h"];
       EPrint (py "    ✓ nuclei is installed");
       EExec [py "katana"; py "-h"];
       EPrint (py "    ✓ katana is installed");
       EExec [py "gau"; py "-h"];
       EPrint (py "    ✓ gau is installed");
       EExec [py "ffuf"; py "-h"];
       EPrint (py "    ✓ ffuf is installed");
       EExec [py "subjack"; py "-h"];
       EPrint (py "    ✗ subjack is missing");
       EPrint (nl ++ py "[!] Missing tools:");
       EPrint (py "subjack: go install github.com/haccer/subjack@latest") ])
  ∧ ¬ attempts_all_steps sample_recon (start E sample_recon w).2.
Proof.
  intros E w. split; [compute_done|].
  intros Hall%attempts_all_steps_first. revert Hall.
  match goal with |- ?P → False =>
    assert (bool_decide P = false) as Hno by (vm_compute; reflexivity)
  end.
  by apply bool_decide_eq_false in Hno.
Qed.

(** C8, the defect: the checker does not contain every launch error.
    The per-tool check catches [CalledProcessError] and
    [FileNotFoundError] only.  When the help invocation of a tool of the
    table cannot be started for any other reason (for example
    [PermissionError], for a file that may not be executed), the tools
    before it having answered, the exception leaves the per-tool check,
    the dependency check and [start]: nothing is reported for that tool,
    the tools after it are not probed and no step is run. *)
Theorem checker_error_escapes (E : Env) (self : WebSecurityRecon)
    (w : world E) (pre post : list (str * str)) (tool hint : str)
    (missing : list (str * str)) (w1 : world E) (ev1 : list event)
    (e : exn) :
  tools = pre ++ (tool, hint) :: post →
  check_each E pre [] w = (Ok missing, w1, ev1) →
  status (run_process E [tool; py "-h"] (fs E w1) (ext E w1)) = NotStarted e →
  cls e ∉ [CalledProcessError; FileNotFoundError] →
  let ev := EPrint (py "[+] Checking dependencies...")
            :: ev1 ++ [EExec [tool; py "-h"]] in
  check_tool_installed E tool w1 = (Raise e, w1, [EExec [tool; py "-h"]])
  ∧ check_dependencies E w = (Raise e, w1, ev)
  ∧ start E self w = (Raise e, w1, EPrint banner :: ev).
Proof.
  intros Htools Hpre Hstatus Hcls ev.
  assert (check_tool_installed E tool w1
          = (Raise e, w1, [EExec [tool; py "-h"]])) as Htool.
  { rewrite check_tool_installed_eq. cbv zeta. rewrite Hstatus.
    by rewrite bool_decide_false. }
  assert (check_dependencies E w = (Raise e, w1, ev)) as Hcheck.
  { unfold check_dependencies. rewrite bind_print.
    unfold mbind at 1, M_bind, bind.
    rewrite Htools, check_each_app, Hpre. cbn [check_each].
    unfold mbind at 1, M_bind, bind. by rewrite Htool. }
  split_and!; [done..|]. by rewrite start_eq, Hcheck.
Qed.

Lemma checker_error_escapes_witness :
  let denied :=
    Exn PermissionError (py "[Errno 13] Permission denied: 'subfinder'") in
  let E := sample_env (without_tool (py "subfinder") denied) no_json in
  let w : world E := World E ∅ () in
  check_tool_installed E (py "subfinder") w
  = (Raise denied, w, [EExec [py "subfinder"; py "-h"]])
  ∧ check_dependencies E w
    = (Raise denied, w,
       [EPrint (py "[+] Checking dependencies...");
        EExec [py "subfinder"; py "-h"]])
  ∧ start E sample_recon w
    = (Raise denied, w,
       [EPrint banner; EPrint (py "[+] Checking dependencies...");
        EExec [py "subfinder"; py "-h"]]).
Proof.
  intros denied E w.
  apply (checker_error_escapes E sample_recon w [] (tail tools)
           (py "subfinder")
           (py "go install -v github.com/projectdiscovery/subfinder/v2/cmd/subfinder@latest")
           [] w [] denied); compute_done.
Defined.





(** C6: failure on empty input.  With an alive-host list whose first line
    is empty or all white space (an empty file included) the step prints
    "No URL in alive.txt" and returns [False] without running any command;
    the step never raises; and when the brute-forcer has run and left a
    result file that [json.load] rejects, the step prints the decoder's
    message and returns [False]. *)
Theorem bruteforce_fails_without_target (E : Env) (self : WebSecurityRecon)
    (w : world E) :
  (∀ content,
     fs E w !! alive_file self = Some (Text content) →
     forallb isspace (readline content) = true →
     run_directory_bruteforce E self w
     = (Ok false,
        World E (<[wordlist self := Text wordlist_text]> (fs E w)) (ext E w),
        bruteforce_prelude self ++ [EPrint (py "    ✗ No URL in alive.txt")]))
  ∧ (∃ b w' ev, run_directory_bruteforce E self w = (Ok b, w', ev))
  ∧ (∀ content token parsed text message,
       let cmd :=
         ffuf_cmd self (parsed.1 ++ py "://" ++ parsed.2 ++ py "/FUZZ") in
       let r := run_process E cmd (<[wordlist self := Text wordlist_text]> (fs E w))
                  (ext E w) in
       fs E w !! alive_file self = Some (Text content) →
       index0 (split (strip (readline content))) = Ok token →
       urlparse E token = Ok parsed →
       status r = Exited 0 →
       files_after r !! ffuf_file self = Some (Text text) →
       json_load E text = inr message →
       run_directory_bruteforce E self w
       = (Ok false, World E (files_after r) (ext_after r),
          bruteforce_prelude self
          ++ [EExec cmd; EOpenRead (ffuf_file self);
              EPrint (py "    ✗ ffuf failed: " ++ message)])).
Proof.
  split_and!.
  - intros content Halive Hblank%strip_blank.
    rewrite (run_directory_bruteforce_eq E self w content Halive). simpl.
    by rewrite bool_decide_true.
  - destruct (run_directory_bruteforce_attempts E self w) as (b & w' & ev & ->).
    eauto.
  - intros content token parsed text message cmd r
      Halive Htoken Hparsed Hstatus Hfile Hjson.
    rewrite (bruteforce_reaches_results E self w content token parsed text
               Halive Htoken Hparsed Hstatus Hfile).
    unfold count_results, json_load_text. by rewrite Hjson.
Qed.

Lemma bruteforce_fails_without_target_witness :
  let E := sample_env all_succeed no_json in
  let w : world E := World E (alive_only []) () in
  run_directory_bruteforce E sample_recon w
  = (Ok false,
     World E (<[wordlist sample_recon := Text wordlist_text]> (fs E w)) (ext E w),
     bruteforce_prelude sample_recon
     ++ [EPrint (py "    ✗ No URL in alive.txt")]).
Proof.
  intros E w.
  apply (proj1 (bruteforce_fails_without_target E sample_recon w) []);
    compute_done.
Defined.

(** C7: the generated word list.  Whenever the step gets past its
    precondition it writes the file [common_dirs.txt] of the workspace
    once, right after its marker, and what it writes is the twelve fixed
    path segments in their order, one per line; the text depends on
    nothing.  That file is in the workspace when the alive-host list is
    opened and when the brute-forcer is started, and the step ends in that
    very workspace unless the brute-forcer has run, in which case it ends
    in what the brute-forcer made of it. *)
Theorem wordlist_content (E : Env) (self : WebSecurityRecon) (w : world E) :
  is_Some (fs E w !! alive_file self) →
  let w1 := World E (<[wordlist self := Text wordlist_text]> (fs E w)) (ext E w) in
  wordlist_text = py "admin
api
login
uploads
img
js
css
config
.git
.env
dashboard
assets
"
  ∧ wordlist self = joinpath (output_dir self) (py "common_dirs.txt")
  ∧ fs E w1 !! wordlist self = Some (Text wordlist_text)
  ∧ ∃ b w' ev,
      run_directory_bruteforce E self w
      = (Ok b, w',
         [ EPrint (nl ++ py "[9/9] Running ffuf directory bruteforce");
           EWrite (wordlist self) wordlist_text;
           EOpenRead (alive_file self) ] ++ ev)
      ∧ (∀ path text, EWrite path text ∉ ev)
      ∧ (w' = w1
         ∨ ∃ target,
             let r := run_process E (ffuf_cmd self target) (fs E w1) (ext E w1) in
             EExec (ffuf_cmd self target) ∈ ev
             ∧ w' = World E (files_after r) (ext_after r)).
Proof.
  intros Halive w1. split_and!.
  - vm_compute. reflexivity.
  - done.
  - apply lookup_insert_eq.
  - exact (bruteforce_leaves_wordlist E self w Halive).
Qed.

Lemma wordlist_content_witness :
  let E := sample_env all_succeed no_json in
  let w : world E :=
    World E (alive_only (py "https://example.com [200] Title" ++ nl)) () in
  let w1 :=
    World E (<[wordlist sample_recon := Text wordlist_text]> (fs E w)) (ext E w) in
  wordlist_text = py "admin
api
login
uploads
img
js
css
config
.git
.env
dashboard
assets
"
  ∧ wordlist sample_recon
    = joinpath (output_dir sample_recon) (py "common_dirs.txt")
  ∧ fs E w1 !! wordlist sample_recon = Some (Text wordlist_text)
  ∧ ∃ b w' ev,
      run_directory_bruteforce E sample_recon w
      = (Ok b, w',
         [ EPrint (nl ++ py "[9/9] Running ffuf directory bruteforce");
           EWrite (wordlist sample_recon) wordlist_text;
           EOpenRead (alive_file sample_recon) ] ++ ev)
      ∧ (∀ path text, EWrite path text ∉ ev)
      ∧ (w' = w1
         ∨ ∃ target,
             let r := run_process E (ffuf_cmd sample_recon target)
                        (fs E w1) (ext E w1) in
             EExec (ffuf_cmd sample_recon target) ∈ ev
             ∧ w' = World E (files_after r) (ext_after r)).
Proof.
  intros E w.
  apply (wordlist_content E sample_recon w).
  compute_done.
Defined.

(** C9: the step is not atomic.  Whenever the alive-host list exists, the
    word list is written before that list is opened, whatever the step
    returns afterwards; in particular the word list is in the workspace
    after a run that fails on a blank first line or because the
    brute-forcer could not be started, and it was written in a run that
    fails on the result file. *)
Theorem wordlist_written_first (E : Env) (self : WebSecurityRecon)
    (w : world E) (content : str) :
  fs E w !! alive_file self = Some (Text content) →
  let w1 := World E (<[wordlist self := Text wordlist_text]> (fs E w)) (ext E w) in
  (∃ b w' ev,
     run_directory_bruteforce E self w
     = (Ok b, w',
        EPrint (nl ++ py "[9/9] Running ffuf directory bruteforce")
        :: EWrite (wordlist self) wordlist_text
        :: EOpenRead (alive_file self) :: ev))
  ∧ fs E w1 !! wordlist self = Some (Text wordlist_text)
  ∧ (forallb isspace (readline content) = true →
     run_directory_bruteforce E self w
     = (Ok false, w1,
        bruteforce_prelude self ++ [EPrint (py "    ✗ No URL in alive.txt")]))
  ∧ (∀ token parsed e,
       let cmd :=
         ffuf_cmd self (parsed.1 ++ py "://" ++ parsed.2 ++ py "/FUZZ") in
       index0 (split (strip (readline content))) = Ok token →
       urlparse E token = Ok parsed →
       status (run_process E cmd (fs E w1) (ext E w1)) = NotStarted e →
       run_directory_bruteforce E self w
       = (Ok false, w1,
          bruteforce_prelude self
          ++ [EExec cmd; EPrint (py "    ✗ ffuf failed: " ++ msg e)]))
  ∧ (∀ token parsed text e,
       let cmd :=
         ffuf_cmd self (parsed.1 ++ py "://" ++ parsed.2 ++ py "/FUZZ") in
       let r := run_process E cmd (fs E w1) (ext E w1) in
       index0 (split (strip (readline content))) = Ok token →
       urlparse E token = Ok parsed →
       status r = Exited 0 →
       files_after r !! ffuf_file self = Some (Text text) →
       count_results E text = Raise e →
       run_directory_bruteforce E self w
       = (Ok false, World E (files_after r) (ext_after r),
          bruteforce_prelude self
          ++ [EExec cmd; EOpenRead (ffuf_file self);
              EPrint (py "    ✗ ffuf failed: " ++ msg e)])).
Proof.
  intros Halive w1. split_and!.
  - destruct (bruteforce_writes_once E self w content Halive)
      as (b & w' & ev & -> & _). by exists b, w', ev.
  - apply lookup_insert_eq.
  - intros Hblank%strip_blank.
    rewrite (run_directory_bruteforce_eq E self w content Halive). simpl.
    by rewrite bool_decide_true.
  - intros token parsed e cmd Htoken Hparsed Hstatus.
    exact (bruteforce_tool_error E self w content token parsed e
             Halive Htoken Hparsed Hstatus).
  - intros token parsed text e cmd r Htoken Hparsed Hstatus Hfile Hcount.
    rewrite (bruteforce_reaches_results E self w content token parsed text
               Halive Htoken Hparsed Hstatus Hfile).
    by rewrite Hcount.
Qed.

Lemma wordlist_written_first_witness :
  let e := Exn FileNotFoundError
             (py "[Errno 2] No such file or directory: 'ffuf'") in
  let E := sample_env (without_tool (py "ffuf") e) no_json in
  let w : world E :=
    World E (alive_only (py "https://example.com [200] Title" ++ nl)) () in
  let w1 :=
    World E (<[wordlist sample_recon := Text wordlist_text]> (fs E w)) (ext E w) in
  let cmd := ffuf_cmd sample_recon
               ((py "https", py "example.com").1 ++ py "://"
                ++ (py "https", py "example.com").2 ++ py "/FUZZ") in
  run_directory_bruteforce E sample_recon w
  = (Ok false, w1,
     bruteforce_prelude sample_recon
     ++ [EExec cmd; EPrint (py "    ✗ ffuf failed: " ++ msg e)])
  ∧ fs E w1 !! wordlist sample_recon = Some (Text wordlist_text).
Proof.
  intros e E w w1 cmd.
  pose proof (wordlist_written_first E sample_recon w
                (py "https://example.com [200] Title" ++ nl)) as H.
  destruct H as (_ & Hfile & _ & Herr & _); [compute_done|].
  split; [|exact Hfile].
  apply (Herr (py "https://example.com") (py "https", py "example.com") e);
    compute_done.
Defined.

Lemma found_zero :
  py "    ✓ Found " ++ str_of_nat 0 ++ py " valid paths"
  = py "    ✓ Found 0 valid paths".
Proof. vm_compute. reflexivity. Qed.

(** C10: a missing ["results"] key is tolerated.  When the brute-forcer
    has run and its result file parses as a JSON object that has no
    ["results"] key, the step reports a count of zero and returns
    [True]. *)
Theorem missing_results_key (E : Env) (self : WebSecurityRecon) (w : world E)
    (content token : str) (parsed : str * str) (text : str)
    (d : gmap (list N) json) :
  let cmd := ffuf_cmd self (parsed.1 ++ py "://" ++ parsed.2 ++ py "/FUZZ") in
  let r := run_process E cmd (<[wordlist self := Text wordlist_text]> (fs E w))
             (ext E w) in
  fs E w !! alive_file self = Some (Text content) →
  index0 (split (strip (readline content))) = Ok token →
  urlparse E token = Ok parsed →
  status r = Exited 0 →
  files_after r !! ffuf_file self = Some (Text text) →
  json_load E text = inl (JDict d) →
  d !! py "results" = None →
  run_directory_bruteforce E self w
  = (Ok true, World E (files_after r) (ext_after r),
     bruteforce_prelude self
     ++ [EExec cmd; EOpenRead (ffuf_file self);
         EPrint (py "    ✓ Found 0 valid paths")]).
Proof.
  intros cmd r Halive Htoken Hparsed Hstatus Hfile Hjson Hkey.
  rewrite (bruteforce_reaches_results E self w content token parsed text
             Halive Htoken Hparsed Hstatus Hfile).
  unfold count_results, json_load_text. rewrite Hjson. simpl.
  rewrite Hkey. cbn [len length]. by rewrite found_zero.
Qed.

Lemma missing_results_key_witness :
  let E := sample_env (ffuf_writes (py "{}")) sample_json in
  let w : world E :=
    World E (alive_only (py "https://example.com [200] Title" ++ nl)) () in
  let cmd := ffuf_cmd sample_recon
               ((py "https", py "example.com").1 ++ py "://"
                ++ (py "https", py "example.com").2 ++ py "/FUZZ") in
  let r := run_process E cmd
             (<[wordlist sample_recon := Text wordlist_text]> (fs E w)) (ext E w) in
  run_directory_bruteforce E sample_recon w
  = (Ok true, World E (files_after r) (ext_after r),
     bruteforce_prelude sample_recon
     ++ [EExec cmd; EOpenRead (ffuf_file sample_recon);
         EPrint (py "    ✓ Found 0 valid paths")]).
Proof.
  intros E w cmd r.
  apply (missing_results_key E sample_recon w
           (py "https://example.com [200] Title" ++ nl)
           (py "https://example.com") (py "https", py "example.com")
           (py "{}") ∅);
    compute_done.
Defined.

(** Only an object has keys: a result file that holds the JSON array [[]]
    makes the step fail, because a list has no [get]. *)
Example json_array_fails_the_step :
  let E := sample_env (ffuf_writes (py "[]")) sample_json in
  let w : world E :=
    World E (alive_only (py "https://example.com [200] Title" ++ nl)) () in
  json_load E (py "[]") = inl (JList [])
  ∧ run_directory_bruteforce E sample_recon w
    = (Ok false,
       World E (<[ffuf_file sample_recon := Text (py "[]")]>
                  (<[wordlist sample_recon := Text wordlist_text]> (fs E w))) (),
       bruteforce_prelude sample_recon
       ++ [EExec (ffuf_cmd sample_recon (py "https://example.com/FUZZ"));
           EOpenRead (ffuf_file sample_recon);
           EPrint (py "    ✗ ffuf failed: 'list' object has no attribute 'get'")]).
Proof. intros E w. split; compute_done. Qed.

(** * Further properties of the code *)

Section ToolSteps.
Variable E : Env.
Variable self : WebSecurityRecon.

Implicit Types (w : world E) (ev : list event).

(** The common body of the tool steps: one command under a [try]. *)
Lemma try_tool_eq argv (done_line failed : str) w :
  try_except E
    (subprocess_run E argv None ;; print E done_line ;; mret true)
    (λ e, print E (failed ++ msg e) ;; mret false) w
  = let r := run_process E argv (fs E w) (ext E w) in
    match status r with
    | Exited code =>
      (Ok (bool_decide (code = 0%Z)),
       World E (files_after r) (ext_after r),
       [EExec argv;
        EPrint (if bool_decide (code = 0%Z) then done_line
                else failed ++ called_process_error_str E code argv)])
    | NotStarted e => (Ok false, w, [EExec argv; EPrint (failed ++ msg e)])
    end.
Proof.
  munfold. simpl. destruct (status _) as [code|e]; simpl; [|done].
  by destruct (bool_decide (code = 0%Z)).
Qed.

Lemma run_waybackurls_eq w :
  run_waybackurls E self w
  = let cmd := [py "waybackurls"; domain self] in
    let w0 := World E (<[wayback_file self := Text []]> (fs E w)) (ext E w) in
    let r := run_process E cmd (fs E w0) (ext E w0) in
    match status r with
    | Exited code =>
      (Ok (bool_decide (code = 0%Z)),
       World E (<[wayback_file self := stdout r]> (files_after r))
         (ext_after r),
       [EPrint (nl ++ py "[3/9] Running waybackurls");
        EWrite (wayback_file self) []; EExec cmd;
        EPrint (if bool_decide (code = 0%Z)
                then py "    ✓ Wayback URLs collected"
                else py "    ✗ waybackurls failed: "
                     ++ called_process_error_str E code cmd)])
    | NotStarted e =>
      (Ok false, w0,
       [EPrint (nl ++ py "[3/9] Running waybackurls");
        EWrite (wayback_file self) []; EExec cmd;
        EPrint (py "    ✗ waybackurls failed: " ++ msg e)])
    end.
Proof.
  unfold run_waybackurls. munfold. simpl.
  destruct (status _) as [code|e]; simpl; [|done].
  by destruct (bool_decide (code = 0%Z)).
Qed.
End ToolSteps.

(** X1: the six steps that only wrap a tool (subfinder, httpx, gau, katana,
    nuclei, subjack).  Once the file a step tests for is there, the step
    runs its command line exactly once; it returns [True] exactly when the
    tool exits with status 0, and the workspace is then what the tool left;
    a non-zero status and any error raised when starting the tool are
    turned into a printed line and [False], and a tool that did not start
    leaves the workspace untouched. *)
Theorem tool_step_outcome (E : Env) (self : WebSecurityRecon) (w : world E)
    (i : nat) (t : tool_step E) :
  tool_steps E self !! i = Some t →
  (∀ path, ts_requires t = Some path → is_Some (fs E w !! path)) →
  let r := run_process E (ts_argv t) (fs E w) (ext E w) in
  ts_call t w =
  match status r with
  | Exited code =>
    (Ok (bool_decide (code = 0%Z)),
     World E (files_after r) (ext_after r),
     [EPrint (ts_marker t); EExec (ts_argv t);
      EPrint (if bool_decide (code = 0%Z) then ts_done t
              else ts_failed t
                   ++ called_process_error_str E code (ts_argv t))])
  | NotStarted e =>
    (Ok false, w,
     [EPrint (ts_marker t); EExec (ts_argv t);
      EPrint (ts_failed t ++ msg e)])
  end.
Proof.
  intros Hi Hreq r.
  assert (∀ path notfound (k : M E bool),
    is_Some (fs E w !! path) →
    (found ← exists_ E path;
     if negb found then print E notfound ;; mret false else k) w = k w)
    as Hgate.
  { intros path notfound k [c Hc]. munfold. rewrite Hc. simpl.
    by destruct (k w) as [[? ?] ?]. }
  destruct i as [|[|[|[|[|[|i]]]]]]; simpl in Hi; try discriminate Hi;
    injection Hi as <-; simpl in *; subst r.
  - unfold run_subfinder. rewrite bind_print, try_tool_eq. simpl.
    by destruct (status _).
  - unfold run_httpx. rewrite bind_print, Hgate by eauto.
    rewrite try_tool_eq. simpl. by destruct (status _).
  - unfold run_gau. rewrite bind_print, try_tool_eq. simpl.
    by destruct (status _).
  - unfold run_katana_crawl. rewrite bind_print, Hgate by eauto.
    rewrite try_tool_eq. simpl. by destruct (status _).
  - unfold run_nuclei_scan. rewrite bind_print, Hgate by eauto.
    rewrite try_tool_eq. simpl. by destruct (status _).
  - unfold run_subdomain_takeover. rewrite bind_print, Hgate by eauto.
    rewrite try_tool_eq. simpl. by destruct (status _).
Qed.

Lemma tool_step_outcome_witness :
  let E := sample_env (prints_and_exits [] 2) no_json in
  let w : world E :=
    World E (only (subdomain_file sample_recon) (py "a.example.com" ++ nl)) () in
  run_httpx E sample_recon w
  = (Ok false, w,
     [ EPrint (nl ++ py "[2/9] Running httpx");
       EExec [py "httpx"; py "-l"; py "web_recon/subdomains.txt";
              py "-o"; py "web_recon/alive.txt";
              py "-title"; py "-tech-detect"; py "-status-code";
              py "-content-length"; py "-silent"; py "-threads"; py "10"];
       EPrint (py "    ✗ httpx failed: Command returned non-zero exit status 2") ]).
Proof.
  intros E w.
  etrans.
  - apply (tool_step_outcome E sample_recon w 1 _ eq_refl).
    intros path [= <-]. compute_done.
  - compute_done.
Defined.

(** X2: the wayback step and its redirection.  Whenever the tool starts,
    [waybackurls.txt] afterwards holds exactly what the tool printed on
    its standard output, whatever the file held before and whatever the
    exit status; the step returns [True] exactly when that status is 0. *)
Theorem run_waybackurls_keeps_stdout (E : Env) (self : WebSecurityRecon)
    (w : world E) (code : Z) :
  let w0 := World E (<[wayback_file self := Text []]> (fs E w)) (ext E w) in
  let r := run_process E [py "waybackurls"; domain self] (fs E w0) (ext E w0) in
  status r = Exited code →
  ∃ w' ev,
    run_waybackurls E self w = (Ok (bool_decide (code = 0%Z)), w', ev)
    ∧ fs E w' !! wayback_file self = Some (stdout r)
    ∧ commands ev = [[py "waybackurls"; domain self]].
Proof.
  intros w0 r Hstatus. rewrite run_waybackurls_eq.
  unfold r, w0 in *. cbn [fs ext] in *. cbv zeta. rewrite Hstatus.
  eexists _, _. split_and!; [done| |done].
  apply lookup_insert_eq.
Qed.

Lemma run_waybackurls_keeps_stdout_witness :
  let E := sample_env
             (prints_and_exits (py "https://example.com/old/app.js" ++ nl) 0)
             no_json in
  let w : world E :=
    World E (only (wayback_file sample_recon) (py "stale" ++ nl)) () in
  ∃ w' ev,
    run_waybackurls E sample_recon w = (Ok (bool_decide (0 = 0)%Z), w', ev)
    ∧ fs E w' !! wayback_file sample_recon
      = Some (Text (py "https://example.com/old/app.js" ++ nl))
    ∧ commands ev = [[py "waybackurls"; domain sample_recon]].
Proof.
  intros E w.
  apply (run_waybackurls_keeps_stdout E sample_recon w 0%Z).
  compute_done.
Defined.

(** X3: the wayback step truncates before it runs.  When the tool cannot
    be started the step returns [False], and [waybackurls.txt] is left in
    the workspace, empty, whatever it held before: the URLs of an earlier
    run are gone and the extraction step finds no line in it.  No other
    file is touched. *)
Theorem run_waybackurls_truncates (E : Env) (self : WebSecurityRecon)
    (w : world E) (e : exn) :
  let w0 := World E (<[wayback_file self := Text []]> (fs E w)) (ext E w) in
  status (run_process E [py "waybackurls"; domain self] (fs E w0) (ext E w0))
  = NotStarted e →
  ∃ w' ev,
    run_waybackurls E self w = (Ok false, w', ev)
    ∧ fs E w' !! wayback_file self = Some (Text [])
    ∧ file_lines (fs E w') (wayback_file self) = []
    ∧ (∀ path, path ≠ wayback_file self → fs E w' !! path = fs E w !! path)
    ∧ EPrint (py "    ✗ waybackurls failed: " ++ msg e) ∈ ev.
Proof.
  intros w0 Hstatus. rewrite run_waybackurls_eq.
  unfold w0 in *. cbn [fs ext] in *. cbv zeta. rewrite Hstatus.
  eexists _, _. split_and!; [done| | | |].
  - apply lookup_insert_eq.
  - unfold file_lines. cbn [fs]. by rewrite lookup_insert_eq.
  - intros path Hne. cbn [fs]. by rewrite lookup_insert_ne.
  - do 3 apply list_elem_of_further. apply list_elem_of_here.
Qed.

Lemma run_waybackurls_truncates_witness :
  let e := Exn FileNotFoundError
             (py "[Errno 2] No such file or directory: 'waybackurls'") in
  let E := sample_env (without_tool (py "waybackurls") e) no_json in
  let w : world E :=
    World E (only (wayback_file sample_recon)
               (py "https://example.com/old/app.js" ++ nl)) () in
  ∃ w' ev,
    run_waybackurls E sample_recon w = (Ok false, w', ev)
    ∧ fs E w' !! wayback_file sample_recon = Some (Text [])
    ∧ file_lines (fs E w') (wayback_file sample_recon) = []
    ∧ (∀ path, path ≠ wayback_file sample_recon →
         fs E w' !! path = fs E w !! path)
    ∧ EPrint (py "    ✗ waybackurls failed: " ++ msg e) ∈ ev.
Proof.
  intros e E w.
  apply (run_waybackurls_truncates E sample_recon w e).
  compute_done.
Defined.

Section DependencyReport.
Variable E : Env.

Implicit Types (w : world E) (ev : list event).

Lemma printed_app ev1 ev2 : printed (ev1 ++ ev2) = printed ev1 ++ printed ev2.
Proof. apply omap_app. Qed.

Lemma commands_app ev1 ev2 :
  commands (ev1 ++ ev2) = commands ev1 ++ commands ev2.
Proof. apply omap_app. Qed.

Lemma printed_print text ev : printed (EPrint text :: ev) = text :: printed ev.
Proof. done. Qed.

Lemma printed_exec argv ev : printed (EExec argv :: ev) = printed ev.
Proof. done. Qed.

Lemma commands_print text ev : commands (EPrint text :: ev) = commands ev.
Proof. done. Qed.

Lemma commands_exec argv ev : commands (EExec argv :: ev) = argv :: commands ev.
Proof. done. Qed.

Lemma printed_lines (ls : list str) : printed (EPrint <$> ls) = ls.
Proof.
  induction ls as [|l ls IH]; [done|].
  by rewrite fmap_cons, printed_print, IH.
Qed.

Lemma commands_lines (ls : list str) : commands (EPrint <$> ls) = [].
Proof.
  induction ls as [|l ls IH]; [done|]. by rewrite fmap_cons, commands_print.
Qed.

Lemma print_missing_eq missing w :
  print_missing E missing w = (Ok tt, w, EPrint <$> (hint_line <$> missing)).
Proof.
  induction missing as [|[tool cmd] missing IH]; [done|].
  cbn [print_missing]. by rewrite bind_print, IH.
Qed.

(** The first loop of the check, tool by tool. *)
Lemma check_each_report ts : ∀ missing w missing' w' ev,
  check_each E ts missing w = (Ok missing', w', ev) →
  ∃ oks,
    length oks = length ts
    ∧ missing' = missing ++ missing_of ts oks
    ∧ printed ev = zip_with (λ t ok, tool_line t.1 ok) ts oks
    ∧ commands ev = (λ t, [t.1; py "-h"]) <$> ts.
Proof.
  induction ts as [|[tool hint] ts IH]; intros missing w missing' w' ev Hrun.
  - injection Hrun as <- <- <-. exists []. by rewrite app_nil_r.
  - cbn [check_each] in Hrun. unfold mbind at 1, M_bind, bind in Hrun.
    rewrite check_tool_installed_eq in Hrun. cbv zeta in Hrun.
    assert (∀ ok w1,
      (let '(r, w2, ev2) :=
         (if negb ok
          then print E (py "    ✗ " ++ tool ++ py " is missing") ;;
               check_each E ts (missing ++ [(tool, hint)])
          else print E (py "    ✓ " ++ tool ++ py " is installed") ;;
               check_each E ts missing) w1 in
       (r, w2, [EExec [tool; py "-h"]] ++ ev2)) = (Ok missing', w', ev) →
      ∃ oks, length oks = length ((tool, hint) :: ts)
        ∧ missing' = missing ++ missing_of ((tool, hint) :: ts) oks
        ∧ printed ev
          = zip_with (λ t ok, tool_line t.1 ok) ((tool, hint) :: ts) oks
        ∧ commands ev = (λ t, [t.1; py "-h"]) <$> ((tool, hint) :: ts))
      as Hcase.
    { intros ok w1 Hk. destruct ok; cbn [negb] in Hk; rewrite bind_print in Hk.
      - destruct (check_each E ts missing w1) as [[[m1|e1] w2] ev2] eqn:Hrest;
          [|done].
        injection Hk as <- <- <-.
        destruct (IH _ _ _ _ _ Hrest) as (oks & Hlen & -> & Hpr & Hcmd).
        exists (true :: oks). split_and!.
        + simpl. by rewrite Hlen.
        + unfold missing_of. cbn [zip zip_with]. rewrite filter_cons.
          by rewrite decide_False by done.
        + cbn [app]. by rewrite printed_exec, printed_print, Hpr.
        + cbn [app]. by rewrite commands_exec, commands_print, Hcmd.
      - destruct (check_each E ts (missing ++ [(tool, hint)]) w1)
          as [[[m1|e1] w2] ev2] eqn:Hrest; [|done].
        injection Hk as <- <- <-.
        destruct (IH _ _ _ _ _ Hrest) as (oks & Hlen & -> & Hpr & Hcmd).
        exists (false :: oks). split_and!.
        + simpl. by rewrite Hlen.
        + unfold missing_of. cbn [zip zip_with]. rewrite filter_cons.
          rewrite decide_True by done. by rewrite <- app_assoc.
        + cbn [app]. by rewrite printed_exec, printed_print, Hpr.
        + cbn [app]. by rewrite commands_exec, commands_print, Hcmd. }
    destruct (status _) as [code|e].
    + by apply Hcase in Hrun.
    + destruct (bool_decide (cls e ∈ _)); [|done]. by apply Hcase in Hrun.
Qed.

Lemma check_dependencies_report w b w1 ev :
  check_dependencies E w = (Ok b, w1, ev) →
  ∃ oks,
    length oks = length tools
    ∧ b = bool_decide (missing_of tools oks = [])
    ∧ printed ev = dependency_report tools oks
    ∧ commands ev = (λ t, [t.1; py "-h"]) <$> tools.
Proof.
  unfold check_dependencies. rewrite bind_print.
  unfold mbind at 1, M_bind, bind.
  destruct (check_each E tools [] w) as [[[missing|e] w2] ev2] eqn:Hrun; [|done].
  destruct (check_each_report _ _ _ _ _ _ Hrun)
    as (oks & Hlen & Hm & Hpr & Hcmd).
  cbn [app] in Hm. intros Hres. exists oks. split; [done|].
  unfold dependency_report. rewrite <- Hm.
  destruct missing as [|t missing].
  - revert Hres. unfold mret, M_ret, ret. intros [= <- <- <-].
    rewrite printed_print, commands_print, printed_app, commands_app.
    rewrite Hpr, Hcmd. by rewrite !app_nil_r.
  - revert Hres.
    rewrite bind_print. unfold mbind at 1, M_bind, bind.
    rewrite print_missing_eq. unfold mret, M_ret, ret. intros [= <- <- <-].
    rewrite printed_print, commands_print, printed_app, commands_app.
    rewrite !app_nil_r, !printed_print, !commands_print.
    change (list_fmap str event EPrint ?l) with (EPrint <$> l).
    rewrite printed_lines, commands_lines, Hpr, Hcmd.
    by rewrite !app_nil_r.
Qed.
End DependencyReport.

(** X4: the dependency check probes every tool.  Whenever the check
    returns, the commands it has run are the help invocation of each of the
    eight tools, once each and in the order of the table: a tool found
    missing does not stop the probing of the ones after it. *)
Theorem check_dependencies_probes_all (E : Env) (w : world E) (b : bool)
    (w1 : world E) (ev : list event) :
  check_dependencies E w = (Ok b, w1, ev) →
  commands ev
  = [ [py "subfinder"; py "-h"]; [py "httpx"; py "-h"];
      [py "waybackurls"; py "-h"]; [py "nuclei"; py "-h"];
      [py "katana"; py "-h"]; [py "gau"; py "-h"];
      [py "ffuf"; py "-h"]; [py "subjack"; py "-h"] ].
Proof.
  intros Hrun.
  destruct (check_dependencies_report E w b w1 ev Hrun) as (oks & _ & _ & _ & ->).
  reflexivity.
Qed.

Lemma check_dependencies_probes_all_witness :
  let E := sample_env
             (without_tool (py "httpx")
                (Exn FileNotFoundError
                   (py "[Errno 2] No such file or directory: 'httpx'")))
             no_json in
  let w : world E := World E ∅ () in
  commands (check_dependencies E w).2
  = [ [py "subfinder"; py "-h"]; [py "httpx"; py "-h"];
      [py "waybackurls"; py "-h"]; [py "nuclei"; py "-h"];
      [py "katana"; py "-h"]; [py "gau"; py "-h"];
      [py "ffuf"; py "-h"]; [py "subjack"; py "-h"] ].
Proof.
  intros E w.
  apply (check_dependencies_probes_all E w false w).
  compute_done.
Defined.

(** X5: the report of the dependency check.  Whenever the check returns,
    there is one answer per tool such that: the lines printed are the
    heading, one "installed" or "is missing" line per tool in the order of
    the table and, when a tool is missing, the "Missing tools" heading
    followed by the install hint of each missing tool, in the same order;
    and the check returns [True] exactly when no tool is missing. *)
Theorem check_dependencies_reports (E : Env) (w : world E) (b : bool)
    (w1 : world E) (ev : list event) :
  check_dependencies E w = (Ok b, w1, ev) →
  ∃ oks : list bool,
    length oks = 8%nat
    ∧ printed ev = dependency_report tools oks
    ∧ b = bool_decide (missing_of tools oks = [])
    ∧ (b = true ↔ oks = replicate 8 true).
Proof.
  intros Hrun.
  destruct (check_dependencies_report E w b w1 ev Hrun)
    as (oks & Hlen & Hb & Hpr & _).
  exists oks. split_and!; [done..|].
  rewrite Hb. clear -Hlen. cbn [length tools] in Hlen.
  do 9 (destruct oks as [|[] oks]; try discriminate Hlen);
    by vm_compute.
Qed.

Lemma check_dependencies_reports_witness :
  let E := sample_env
             (without_tool (py "httpx")
                (Exn FileNotFoundError
                   (py "[Errno 2] No such file or directory: 'httpx'")))
             no_json in
  let w : world E := World E ∅ () in
  ∃ oks : list bool,
    length oks = 8%nat
    ∧ printed (check_dependencies E w).2 = dependency_report tools oks
    ∧ false = bool_decide (missing_of tools oks = [])
    ∧ (false = true ↔ oks = replicate 8 true).
Proof.
  intros E w.
  apply (check_dependencies_reports E w false w).
  compute_done.
Defined.

Section MoreExtraction.
Variable E : Env.
Variable self : WebSecurityRecon.

Implicit Types (w : world E) (f : files).

Lemma js_files_not_katana : js_files self ≠ katana_file self.
Proof.
  unfold js_files, katana_file. intros H%joinpath_inj.
  vm_compute in H. discriminate.
Qed.

Lemma js_files_not_wayback : js_files self ≠ wayback_file self.
Proof.
  unfold js_files, wayback_file. intros H%joinpath_inj.
  vm_compute in H. discriminate.
Qed.

(** Writing the list of URLs does not change what the step reads. *)
Lemma sources_after_write f text :
  js_url_set self (<[js_files self := Text text]> f) = js_url_set self f
  ∧ scan_events (<[js_files self := Text text]> f) (katana_file self)
    = scan_events f (katana_file self)
  ∧ scan_events (<[js_files self := Text text]> f) (wayback_file self)
    = scan_events f (wayback_file self)
  ∧ decode_error (<[js_files self := Text text]> f) (katana_file self)
    = decode_error f (katana_file self)
  ∧ decode_error (<[js_files self := Text text]> f) (wayback_file self)
    = decode_error f (wayback_file self).
Proof.
  unfold js_url_set, file_lines, scan_events, decode_error.
  rewrite !(lookup_insert_ne _ _ _ _ js_files_not_katana).
  by rewrite !(lookup_insert_ne _ _ _ _ js_files_not_wayback).
Qed.
End MoreExtraction.

(** X6: the extraction step is idempotent.  Run again on the workspace it
    has just left, it returns the same boolean, produces the same events
    and leaves the workspace as it found it: its own output file is not
    among the files it reads. *)
Theorem extract_js_files_idempotent (E : Env) (self : WebSecurityRecon)
    (w w1 : world E) (r : result bool) (ev : list event) :
  extract_js_files E self w = (r, w1, ev) →
  extract_js_files E self w1 = (r, w1, ev).
Proof.
  rewrite !extract_js_files_eq. cbv zeta.
  destruct (decode_error (fs E w) (katana_file self)) as [e1|] eqn:H1.
  { intros [= <- <- <-]. by rewrite H1. }
  destruct (decode_error (fs E w) (wayback_file self)) as [e2|] eqn:H2.
  { intros [= <- <- <-]. by rewrite H1, H2. }
  destruct (decide (js_url_set self (fs E w) = ∅)) as [Hempty|Hne].
  - intros [= <- <- <-]. rewrite H1, H2. by rewrite decide_True.
  - intros [= <- <- <-]. cbn [fs ext].
    destruct (sources_after_write self (fs E w)
      (concat ((λ url, url ++ nl)
                 <$> sorted (elements (js_url_set self (fs E w))))))
      as (-> & -> & -> & -> & ->).
    rewrite H1, H2, decide_False by done. by rewrite insert_insert_eq.
Qed.

Lemma extract_js_files_idempotent_witness :
  let E := sample_env all_succeed no_json in
  let w : world E := World E crawled () in
  let w1 := (extract_js_files E sample_recon w).1.2 in
  extract_js_files E sample_recon w1
  = ((extract_js_files E sample_recon w).1.1, w1,
     (extract_js_files E sample_recon w).2).
Proof.
  intros E w w1.
  apply (extract_js_files_idempotent E sample_recon w).
  compute_done.
Defined.

Section MoreBruteforce.
Variable E : Env.
Variable self : WebSecurityRecon.

Implicit Types (w : world E) (ev : list event).

(** The step once a target was built, by cases on how the brute-forcer
    ended. *)
Lemma bruteforce_with_target w content token parsed :
  let cmd := ffuf_cmd self (parsed.1 ++ py "://" ++ parsed.2 ++ py "/FUZZ") in
  let r := run_process E cmd (<[wordlist self := Text wordlist_text]> (fs E w))
             (ext E w) in
  fs E w !! alive_file self = Some (Text content) →
  index0 (split (strip (readline content))) = Ok token →
  urlparse E token = Ok parsed →
  ∀ code, status r = Exited code →
  run_directory_bruteforce E self w =
  if bool_decide (code = 0%Z) then
    match files_after r !! ffuf_file self with
    | Some (Text text) =>
      match count_results E text with
      | Ok found =>
        (Ok true, World E (files_after r) (ext_after r),
         bruteforce_prelude self
         ++ [EExec cmd; EOpenRead (ffuf_file self);
             EPrint (py "    ✓ Found " ++ str_of_nat found
                     ++ py " valid paths")])
      | Raise e =>
        (Ok false, World E (files_after r) (ext_after r),
         bruteforce_prelude self
         ++ [EExec cmd; EOpenRead (ffuf_file self);
             EPrint (py "    ✗ ffuf failed: " ++ msg e)])
      end
    | Some (Garbled _ message) =>
      (Ok false, World E (files_after r) (ext_after r),
       bruteforce_prelude self
       ++ [EExec cmd; EOpenRead (ffuf_file self);
           EPrint (py "    ✗ ffuf failed: " ++ message)])
    | None =>
      (Ok false, World E (files_after r) (ext_after r),
       bruteforce_prelude self
       ++ [EExec cmd; EPrint (py "    ✗ ffuf output not found")])
    end
  else
    (Ok false, World E (files_after r) (ext_after r),
     bruteforce_prelude self
     ++ [EExec cmd;
         EPrint (py "    ✗ ffuf failed: "
                 ++ called_process_error_str E code cmd)]).
Proof.
  intros cmd r Halive Htoken Hparsed code Hstatus.
  destruct (bool_decide (code = 0%Z)) eqn:Hcode.
  - apply bool_decide_eq_true in Hcode as ->.
    destruct (files_after r !! ffuf_file self) as [[text|fl m]|] eqn:Hfile.
    + exact (bruteforce_reaches_results E self w content token parsed text
               Halive Htoken Hparsed Hstatus Hfile).
    + rewrite (run_directory_bruteforce_eq _ _ _ _ Halive). cbv zeta.
      rewrite bool_decide_false.
      2:{ intros Hblank. by rewrite Hblank in Htoken. }
      unfold try_except. rewrite (fuzz_eq _ _ _ _ _ _ Htoken Hparsed).
      unfold mbind at 1, M_bind, bind, subprocess_run. cbn [fs ext].
      fold cmd. fold r. rewrite Hstatus. cbn [bool_decide].
      rewrite bool_decide_true by done.
      unfold report_ffuf_results, ffuf_failed. munfold. cbn [fs].
      rewrite Hfile. simpl. by rewrite Hfile.
    + rewrite (run_directory_bruteforce_eq _ _ _ _ Halive). cbv zeta.
      rewrite bool_decide_false.
      2:{ intros Hblank. by rewrite Hblank in Htoken. }
      unfold try_except. rewrite (fuzz_eq _ _ _ _ _ _ Htoken Hparsed).
      unfold mbind at 1, M_bind, bind, subprocess_run. cbn [fs ext].
      fold cmd. fold r. rewrite Hstatus. cbn [bool_decide].
      rewrite bool_decide_true by done.
      unfold report_ffuf_results. munfold. cbn [fs]. by rewrite Hfile.
  - rewrite (run_directory_bruteforce_eq _ _ _ _ Halive). cbv zeta.
    rewrite bool_decide_false.
    2:{ intros Hblank. by rewrite Hblank in Htoken. }
    unfold try_except. rewrite (fuzz_eq _ _ _ _ _ _ Htoken Hparsed).
    unfold mbind at 1, M_bind, bind, subprocess_run. cbn [fs ext].
    fold cmd. fold r. rewrite Hstatus, Hcode.
    unfold ffuf_failed. by munfold.
Qed.
End MoreBruteforce.

(** X7: counting the results.  When the brute-forcer has exited with status
    0 and its result file parses as an object whose ["results"] entry is a
    list, the step prints the length of that list and returns [True]. *)
Theorem bruteforce_counts_results (E : Env) (self : WebSecurityRecon)
    (w : world E) (content token : str) (parsed : str * str) (text : str)
    (d : gmap (list N) json) (entries : list json) :
  let cmd := ffuf_cmd self (parsed.1 ++ py "://" ++ parsed.2 ++ py "/FUZZ") in
  let r := run_process E cmd (<[wordlist self := Text wordlist_text]> (fs E w))
             (ext E w) in
  fs E w !! alive_file self = Some (Text content) →
  index0 (split (strip (readline content))) = Ok token →
  urlparse E token = Ok parsed →
  status r = Exited 0 →
  files_after r !! ffuf_file self = Some (Text text) →
  json_load E text = inl (JDict d) →
  d !! py "results" = Some (JList entries) →
  run_directory_bruteforce E self w
  = (Ok true, World E (files_after r) (ext_after r),
     bruteforce_prelude self
     ++ [EExec cmd; EOpenRead (ffuf_file self);
         EPrint (py "    ✓ Found " ++ str_of_nat (length entries)
                 ++ py " valid paths")]).
Proof.
  intros cmd r Halive Htoken Hparsed Hstatus Hfile Hjson Hkey.
  rewrite (bruteforce_with_target E self w content token parsed
             Halive Htoken Hparsed 0%Z Hstatus).
  fold cmd. fold r. rewrite bool_decide_true by done. rewrite Hfile.
  unfold count_results, json_load_text. rewrite Hjson. cbn [get].
  by rewrite Hkey.
Qed.

(** X8: a ["results"] entry without a length.  When the result file parses
    as an object whose ["results"] entry is [null], a boolean or a number,
    [len] raises [TypeError]; the step catches it, prints its message and
    returns [False]. *)
Theorem bruteforce_rejects_unsized_results (E : Env) (self : WebSecurityRecon)
    (w : world E) (content token : str) (parsed : str * str) (text : str)
    (d : gmap (list N) json) (v : json) :
  let cmd := ffuf_cmd self (parsed.1 ++ py "://" ++ parsed.2 ++ py "/FUZZ") in
  let r := run_process E cmd (<[wordlist self := Text wordlist_text]> (fs E w))
             (ext E w) in
  fs E w !! alive_file self = Some (Text content) →
  index0 (split (strip (readline content))) = Ok token →
  urlparse E token = Ok parsed →
  status r = Exited 0 →
  files_after r !! ffuf_file self = Some (Text text) →
  json_load E text = inl (JDict d) →
  d !! py "results" = Some v →
  unsized v = true →
  run_directory_bruteforce E self w
  = (Ok false, World E (files_after r) (ext_after r),
     bruteforce_prelude self
     ++ [EExec cmd; EOpenRead (ffuf_file self);
         EPrint (py "    ✗ ffuf failed: " ++ py "object of type '"
                 ++ type_name v ++ py "' has no len()")]).
Proof.
  intros cmd r Halive Htoken Hparsed Hstatus Hfile Hjson Hkey Hv.
  rewrite (bruteforce_with_target E self w content token parsed
             Halive Htoken Hparsed 0%Z Hstatus).
  fold cmd. fold r. rewrite bool_decide_true by done. rewrite Hfile.
  unfold count_results, json_load_text. rewrite Hjson. cbn [get].
  rewrite Hkey. by destruct v.
Qed.

(** X9: no result file.  When the brute-forcer has exited with status 0 but
    there is no result file in the workspace, the step prints "ffuf output
    not found" and returns [False]. *)
Theorem bruteforce_without_result_file (E : Env) (self : WebSecurityRecon)
    (w : world E) (content token : str) (parsed : str * str) :
  let cmd := ffuf_cmd self (parsed.1 ++ py "://" ++ parsed.2 ++ py "/FUZZ") in
  let r := run_process E cmd (<[wordlist self := Text wordlist_text]> (fs E w))
             (ext E w) in
  fs E w !! alive_file self = Some (Text content) →
  index0 (split (strip (readline content))) = Ok token →
  urlparse E token = Ok parsed →
  status r = Exited 0 →
  files_after r !! ffuf_file self = None →
  run_directory_bruteforce E self w
  = (Ok false, World E (files_after r) (ext_after r),
     bruteforce_prelude self
     ++ [EExec cmd; EPrint (py "    ✗ ffuf output not found")]).
Proof.
  intros cmd r Halive Htoken Hparsed Hstatus Hfile.
  rewrite (bruteforce_with_target E self w content token parsed
             Halive Htoken Hparsed 0%Z Hstatus).
  fold cmd. fold r. rewrite bool_decide_true by done. by rewrite Hfile.
Qed.

(** X10: a failed brute-forcer.  When the brute-forcer exits with a
    non-zero status the step prints the error and returns [False]; it does
    not open the result file, whether or not one is in the workspace. *)
Theorem bruteforce_ignores_results_after_failure (E : Env)
    (self : WebSecurityRecon) (w : world E) (content token : str)
    (parsed : str * str) (code : Z) :
  let cmd := ffuf_cmd self (parsed.1 ++ py "://" ++ parsed.2 ++ py "/FUZZ") in
  let r := run_process E cmd (<[wordlist self := Text wordlist_text]> (fs E w))
             (ext E w) in
  fs E w !! alive_file self = Some (Text content) →
  index0 (split (strip (readline content))) = Ok token →
  urlparse E token = Ok parsed →
  status r = Exited code →
  code ≠ 0%Z →
  run_directory_bruteforce E self w
  = (Ok false, World E (files_after r) (ext_after r),
     bruteforce_prelude self
     ++ [EExec cmd;
         EPrint (py "    ✗ ffuf failed: "
                 ++ called_process_error_str E code cmd)]).
Proof.
  intros cmd r Halive Htoken Hparsed Hstatus Hcode.
  rewrite (bruteforce_with_target E self w content token parsed
             Halive Htoken Hparsed code Hstatus).
  by rewrite bool_decide_false.
Qed.

Lemma bruteforce_counts_results_witness :
  let E := sample_env (ffuf_writes (py "(two results)"))
             (json_with_results (JList [JDict ∅; JDict ∅])) in
  let w : world E :=
    World E (alive_only (py "https://example.com [200] Title" ++ nl)) () in
  let cmd := ffuf_cmd sample_recon
               ((py "https", py "example.com").1 ++ py "://"
                ++ (py "https", py "example.com").2 ++ py "/FUZZ") in
  let r := run_process E cmd
             (<[wordlist sample_recon := Text wordlist_text]> (fs E w)) (ext E w) in
  run_directory_bruteforce E sample_recon w
  = (Ok true, World E (files_after r) (ext_after r),
     bruteforce_prelude sample_recon
     ++ [EExec cmd; EOpenRead (ffuf_file sample_recon);
         EPrint (py "    ✓ Found " ++ str_of_nat (length [JDict ∅; JDict ∅])
                 ++ py " valid paths")]).
Proof.
  intros E w cmd r.
  apply (bruteforce_counts_results E sample_recon w
           (py "https://example.com [200] Title" ++ nl)
           (py "https://example.com") (py "https", py "example.com")
           (py "(two results)") {[ py "results" := JList [JDict ∅; JDict ∅] ]});
    compute_done.
Defined.

Lemma bruteforce_rejects_unsized_results_witness :
  let E := sample_env (ffuf_writes (py "(results: null)"))
             (json_with_results JNone) in
  let w : world E :=
    World E (alive_only (py "https://example.com [200] Title" ++ nl)) () in
  let cmd := ffuf_cmd sample_recon
               ((py "https", py "example.com").1 ++ py "://"
                ++ (py "https", py "example.com").2 ++ py "/FUZZ") in
  let r := run_process E cmd
             (<[wordlist sample_recon := Text wordlist_text]> (fs E w)) (ext E w) in
  run_directory_bruteforce E sample_recon w
  = (Ok false, World E (files_after r) (ext_after r),
     bruteforce_prelude sample_recon
     ++ [EExec cmd; EOpenRead (ffuf_file sample_recon);
         EPrint (py "    ✗ ffuf failed: " ++ py "object of type '"
                 ++ type_name JNone ++ py "' has no len()")]).
Proof.
  intros E w cmd r.
  apply (bruteforce_rejects_unsized_results E sample_recon w
           (py "https://example.com [200] Title" ++ nl)
           (py "https://example.com") (py "https", py "example.com")
           (py "(results: null)") {[ py "results" := JNone ]} JNone);
    compute_done.
Defined.

Lemma bruteforce_without_result_file_witness :
  let E := sample_env all_succeed no_json in
  let w : world E :=
    World E (alive_only (py "https://example.com [200] Title" ++ nl)) () in
  let cmd := ffuf_cmd sample_recon
               ((py "https", py "example.com").1 ++ py "://"
                ++ (py "https", py "example.com").2 ++ py "/FUZZ") in
  let r := run_process E cmd
             (<[wordlist sample_recon := Text wordlist_text]> (fs E w)) (ext E w) in
  run_directory_bruteforce E sample_recon w
  = (Ok false, World E (files_after r) (ext_after r),
     bruteforce_prelude sample_recon
     ++ [EExec cmd; EPrint (py "    ✗ ffuf output not found")]).
Proof.
  intros E w cmd r.
  apply (bruteforce_without_result_file E sample_recon w
           (py "https://example.com [200] Title" ++ nl)
           (py "https://example.com") (py "https", py "example.com"));
    compute_done.
Defined.

Lemma bruteforce_ignores_results_after_failure_witness :
  let E := sample_env (prints_and_exits [] 1) no_json in
  let w : world E :=
    World E (<[ffuf_file sample_recon := Text (py "(an earlier run)")]>
               (alive_only (py "https://example.com [200] Title" ++ nl))) () in
  let cmd := ffuf_cmd sample_recon
               ((py "https", py "example.com").1 ++ py "://"
                ++ (py "https", py "example.com").2 ++ py "/FUZZ") in
  let r := run_process E cmd
             (<[wordlist sample_recon := Text wordlist_text]> (fs E w)) (ext E w) in
  run_directory_bruteforce E sample_recon w
  = (Ok false, World E (files_after r) (ext_after r),
     bruteforce_prelude sample_recon
     ++ [EExec cmd;
         EPrint (py "    ✗ ffuf failed: "
                 ++ called_process_error_str E 1 cmd)]).
Proof.
  intros E w cmd r.
  apply (bruteforce_ignores_results_after_failure E sample_recon w
           (py "https://example.com [200] Title" ++ nl)
           (py "https://example.com") (py "https", py "example.com") 1%Z);
    compute_done.
Defined.

Section MoreUrls.
Variable E : Env.
Implicit Types (s scheme host rest : str) (c : N).

Lemma find_char_none x s : Forall (λ c, c ≠ x) s → find_char x s = None.
Proof.
  induction 1 as [|c s Hc _ IH]; [done|]. cbn [find_char].
  destruct (N.eqb_spec c x); [done|]. by rewrite IH.
Qed.

Lemma bare_host_char c :
  is_ascii_alpha c || is_digit c || (c =? 46) || (c =? 45) = true →
  isspace c = false ∧ c ≠ 58 ∧ c ≠ 47 ∧ 32 < c.
Proof.
  unfold is_ascii_alpha, is_digit, isspace.
  rewrite !orb_true_iff, !andb_true_iff, !N.leb_le, !N.eqb_eq.
  intros Hc. split_and!; [|lia..].
  rewrite !orb_false_iff, !andb_false_iff, !N.leb_gt, !N.eqb_neq. lia.
Qed.

(** [urlparse] on a bare host name: no scheme and no netloc. *)
Lemma urlparse_bare_host host :
  is_bare_host host = true → urlparse E host = Ok ([], []).
Proof.
  unfold is_bare_host. rewrite andb_true_iff, forallb_Forall.
  intros [Hne Hall]. destruct host as [|c host]; [done|].
  assert (Forall (λ c, isspace c = false ∧ c ≠ 58 ∧ c ≠ 47 ∧ 32 < c)
            (c :: host)) as Hfacts.
  { eapply Forall_impl; [exact Hall|]. intros x. apply bare_host_char. }
  unfold urlparse.
  assert (lstrip_c0 (c :: host) = c :: host) as ->.
  { cbn [lstrip_c0]. apply Forall_cons in Hfacts as [(_ & _ & _ & Hc) _].
    destruct (N.leb_spec c 32); [lia|done]. }
  rewrite remove_tab_cr_lf_id
    by (eapply Forall_impl; [exact Hfacts|]; by intros x [? _]).
  unfold split_scheme. rewrite find_char_none
    by (eapply Forall_impl; [exact Hfacts|]; by intros x (_ & ? & _)).
  rewrite slash_slash. cbn [startswith].
  apply Forall_cons in Hfacts as [(_ & _ & Hc & _) _].
  destruct (N.eqb_spec 47 c) as [Heq|_]; [congruence|]. done.
Qed.

Lemma is_scheme_any_case_facts scheme :
  is_scheme_any_case scheme = true →
  ∃ c sch, scheme = c :: sch
    ∧ is_ascii_alpha c = true
    ∧ Forall (λ c, scheme_char c = true) scheme.
Proof.
  unfold is_scheme_any_case. rewrite andb_true_iff, forallb_Forall.
  destruct scheme as [|c sch]; [by intros []|]. intros [Hc Hall].
  by exists c, sch.
Qed.

Lemma url_no_space_any_case scheme host rest :
  is_scheme_any_case scheme = true → is_authority host = true →
  is_path_query rest = true →
  Forall (λ c, isspace c = false) (scheme ++ py "://" ++ host ++ rest).
Proof.
  intros (c & sch & _ & _ & Hsch)%is_scheme_any_case_facts
         (Hhost & _)%is_authority_facts Hrest.
  unfold is_path_query in Hrest.
  apply andb_true_iff in Hrest as [_ Hrest%forallb_Forall].
  rewrite colon_slash_slash. rewrite !Forall_app. split_and!.
  - eapply Forall_impl; [exact Hsch|]. by intros x [? _]%scheme_char_facts.
  - by repeat constructor.
  - done.
  - eapply Forall_impl; [exact Hrest|]. by intros x ?%negb_true_iff.
Qed.

(** [urlparse] on a URL whose scheme is in any case: the scheme comes back
    in lower case, the authority as it is. *)
Lemma urlparse_url_any_case scheme host rest :
  is_scheme_any_case scheme = true → is_authority host = true →
  is_path_query rest = true →
  urlparse E (scheme ++ py "://" ++ host ++ rest)
  = Ok (lower_char <$> scheme, host).
Proof.
  intros Hscheme Hhost Hrest.
  pose proof (url_no_space_any_case _ _ _ Hscheme Hhost Hrest) as Hnosp.
  destruct (is_scheme_any_case_facts _ Hscheme) as (c & sch & -> & Hc & Hsch).
  destruct (is_authority_facts _ Hhost)
    as (_ & Hdelim & Hascii & Hlb & Hrb).
  unfold is_path_query in Hrest. apply andb_true_iff in Hrest as [Hrest _].
  unfold urlparse.
  change ((c :: sch) ++ py "://" ++ host ++ rest)
    with (c :: (sch ++ py "://" ++ host ++ rest)) at 1.
  rewrite (lstrip_c0_alpha _ _ Hc).
  change (c :: (sch ++ py "://" ++ host ++ rest))
    with ((c :: sch) ++ py "://" ++ host ++ rest).
  rewrite (remove_tab_cr_lf_id _ Hnosp).
  assert (split_scheme ((c :: sch) ++ py "://" ++ host ++ rest)
          = (lower_char <$> c :: sch, py "//" ++ host ++ rest)) as ->.
  { unfold split_scheme. rewrite colon_slash_slash, slash_slash.
    cbn [app]. change (c :: sch ++ 58 :: 47 :: 47 :: host ++ rest)
      with ((c :: sch) ++ 58 :: (47 :: 47 :: host ++ rest)).
    rewrite find_char_app
      by (eapply Forall_impl; [exact Hsch|]; by intros x [_ ?]%scheme_char_facts).
    cbn [length app]. rewrite Hc.
    change (c :: sch ++ 58 :: 47 :: 47 :: host ++ rest)
      with ((c :: sch) ++ 58 :: (47 :: 47 :: host ++ rest)).
    rewrite (take_app_length' (c :: sch)) by done.
    apply forallb_Forall in Hsch. rewrite Hsch. cbn [andb].
    f_equal.
    rewrite (cons_middle 58 (c :: sch)), app_assoc.
    by rewrite drop_app_length' by (rewrite length_app; simpl; lia). }
  rewrite slash_slash. cbn [app startswith N.eqb Pos.eqb andb drop].
  rewrite drop_0.
  rewrite (until_delim_app _ _ Hdelim Hrest).
  rewrite (bool_decide_eq_false_2 _ Hlb), (bool_decide_eq_false_2 _ Hrb).
  cbn [andb negb orb]. unfold checknetloc. rewrite Hascii, orb_true_r. done.
Qed.
End MoreUrls.

Lemma no_scheme_target : [] ++ py "://" ++ [] ++ py "/FUZZ" = py ":///FUZZ".
Proof. vm_compute. reflexivity. Qed.

(** X11: a first line without a scheme is not rejected.  When the first
    word of the alive-host list is a bare host name (letters, digits, dots
    and hyphens), [urlparse] finds neither scheme nor netloc, and the
    brute-forcer is started on the target [:///FUZZ]. *)
Theorem bruteforce_on_bare_host (E : Env) (self : WebSecurityRecon)
    (w : world E) (content host meta : str) :
  fs E w !! alive_file self = Some (Text content) →
  readline content = host ++ meta →
  is_bare_host host = true →
  is_metadata meta = true →
  ∃ b w' ev,
    run_directory_bruteforce E self w
    = (Ok b, w',
       bruteforce_prelude self
       ++ EExec (ffuf_cmd self (py ":///FUZZ")) :: ev).
Proof.
  intros Halive Hline Hhost Hmeta.
  assert (Forall (λ c, isspace c = false) host ∧ host ≠ []) as [Hnosp Hne].
  { unfold is_bare_host in Hhost.
    apply andb_true_iff in Hhost as [Hne Hall%forallb_Forall]. split.
    - eapply Forall_impl; [exact Hall|]. by intros x [? _]%bare_host_char.
    - by destruct host. }
  destruct (first_token host meta Hne Hnosp Hmeta) as [_ Htoken].
  rewrite <- Hline in Htoken.
  pose proof (urlparse_bare_host E host Hhost) as Hparsed.
  rewrite <- no_scheme_target.
  exact (bruteforce_runs_target E self w content _ _ Halive Htoken Hparsed).
Qed.

Lemma bruteforce_on_bare_host_witness :
  let E := sample_env all_succeed no_json in
  let w : world E :=
    World E (alive_only (py "example.com [200] Title" ++ nl)) () in
  ∃ b w' ev,
    run_directory_bruteforce E sample_recon w
    = (Ok b, w',
       bruteforce_prelude sample_recon
       ++ EExec (ffuf_cmd sample_recon (py ":///FUZZ")) :: ev).
Proof.
  intros E w.
  apply (bruteforce_on_bare_host E sample_recon w
           (py "example.com [200] Title" ++ nl)
           (py "example.com") (py " [200] Title" ++ nl));
    compute_done.
Defined.

(** X12: the case of the target.  For a first line [scheme://authority]
    with a scheme in any case, followed by path, query or fragment and by
    metadata, the brute-forcer is started on the scheme in lower case,
    then [://], the authority exactly as written (upper-case letters
    included) and [/FUZZ]. *)
Theorem fuzz_target_lowers_scheme (E : Env) (self : WebSecurityRecon)
    (w : world E) (content scheme host rest meta : str) :
  fs E w !! alive_file self = Some (Text content) →
  readline content = scheme ++ py "://" ++ host ++ rest ++ meta →
  is_scheme_any_case scheme = true →
  is_authority host = true →
  is_path_query rest = true →
  is_metadata meta = true →
  ∃ b w' ev,
    run_directory_bruteforce E self w
    = (Ok b, w',
       bruteforce_prelude self
       ++ EExec (ffuf_cmd self
                   ((lower_char <$> scheme) ++ py "://" ++ host ++ py "/FUZZ"))
          :: ev).
Proof.
  intros Halive Hline Hscheme Hhost Hrest Hmeta.
  assert (readline content = (scheme ++ py "://" ++ host ++ rest) ++ meta)
    as Hline' by by rewrite Hline, <- !app_assoc.
  destruct (first_token (scheme ++ py "://" ++ host ++ rest) meta)
    as [_ Htoken]; [|by apply url_no_space_any_case|done|].
  { destruct scheme; [done|]. discriminate. }
  rewrite <- Hline' in Htoken.
  pose proof (urlparse_url_any_case E _ _ _ Hscheme Hhost Hrest) as Hparsed.
  exact (bruteforce_runs_target E self w content _ _ Halive Htoken Hparsed).
Qed.

Lemma fuzz_target_lowers_scheme_witness :
  let E := sample_env all_succeed no_json in
  let w : world E :=
    World E (alive_only (py "HTTPS://Shop.Example.com:8443/a/b?x=1 [301]"
                         ++ nl)) () in
  ∃ b w' ev,
    run_directory_bruteforce E sample_recon w
    = (Ok b, w',
       bruteforce_prelude sample_recon
       ++ EExec (ffuf_cmd sample_recon (py "https://Shop.Example.com:8443/FUZZ"))
          :: ev).
Proof.
  intros E w.
  assert (py "https://Shop.Example.com:8443/FUZZ"
          = (lower_char <$> py "HTTPS") ++ py "://"
            ++ py "Shop.Example.com:8443" ++ py "/FUZZ") as ->
    by (vm_compute; reflexivity).
  apply (fuzz_target_lowers_scheme E sample_recon w
           (py "HTTPS://Shop.Example.com:8443/a/b?x=1 [301]" ++ nl)
           (py "HTTPS") (py "Shop.Example.com:8443") (py "/a/b?x=1")
           (py " [301]" ++ nl));
    compute_done.
Defined.

Lemma artifacts_eq self :
  artifacts self = joinpath (output_dir self) <$> artifact_names.
Proof. reflexivity. Qed.

(** X13: the files of the workspace do not alias.  For every output
    directory the nine artifact paths set up by [__init__] and the path of
    the word list are pairwise distinct, so no step writes over the file
    of another. *)
Theorem artifacts_distinct (self : WebSecurityRecon) :
  NoDup (artifacts self).
Proof.
  rewrite artifacts_eq. apply NoDup_fmap_2.
  - intros a b. apply joinpath_inj.
  - compute_done.
Qed.

Section Composition.
Variable E : Env.
Variable self : WebSecurityRecon.

Implicit Types (w : world E) (ev : list event).

Lemma run_subfinder_not_started w e :
  let cmd := [py "subfinder"; py "-d"; domain self; py "-o";
              subdomain_file self; py "-all"; py "-silent"] in
  status (run_process E cmd (fs E w) (ext E w)) = NotStarted e →
  run_subfinder E self w
  = (Ok false, w,
     [EPrint (nl ++ py "[1/9] Running subfinder on " ++ domain self);
      EExec cmd; EPrint (py "    ✗ subfinder failed: " ++ msg e)]).
Proof.
  intros cmd Hstatus. unfold run_subfinder.
  rewrite bind_print, try_tool_eq. cbv zeta. fold cmd. by rewrite Hstatus.
Qed.

(** The third step always starts by truncating its output file. *)
Lemma run_waybackurls_starts w :
  ∃ b w' ev,
    run_waybackurls E self w
    = (Ok b, w',
       EPrint (nl ++ py "[3/9] Running waybackurls")
       :: EWrite (wayback_file self) []
       :: EExec [py "waybackurls"; domain self] :: ev).
Proof.
  rewrite run_waybackurls_eq. cbv zeta. destruct (status _); eauto.
Qed.
End Composition.

(** X14: a failed enumeration makes the runner skip the probe.  In a run
    of the loop on a workspace without [subdomains.txt], when subfinder
    cannot be started the first step fails and leaves the workspace as it
    was, so the liveness probe finds its input missing: it runs no command
    and is reported as failed too.  The loop then goes on with the seven
    other steps from the unchanged workspace: the third step is entered,
    truncates [waybackurls.txt] and runs its tool. *)
Theorem failed_enumeration_skips_probe (E : Env) (self : WebSecurityRecon)
    (w : world E) (e : exn) :
  let cmd := [py "subfinder"; py "-d"; domain self; py "-o";
              subdomain_file self; py "-all"; py "-silent"] in
  let skipped :=
    [ EPrint (nl ++ py "[1/9] Running subfinder on " ++ domain self);
      EExec cmd;
      EPrint (py "    ✗ subfinder failed: " ++ msg e);
      failure_notice (py "run_subfinder");
      EPrint (nl ++ py "[2/9] Running httpx");
      EPrint (py "    ✗ subdomains.txt not found");
      failure_notice (py "run_httpx") ] in
  fs E w !! subdomain_file self = None →
  status (run_process E cmd (fs E w) (ext E w)) = NotStarted e →
  for_steps E (steps E self) w
  = (let '(r, w', ev) := for_steps E (drop 2 (steps E self)) w in
     (r, w', skipped ++ ev))
  ∧ ∃ r w' ev,
      run_pipeline E self w
      = (r, w',
         skipped
         ++ EPrint (nl ++ py "[3/9] Running waybackurls")
            :: EWrite (wayback_file self) []
            :: EExec [py "waybackurls"; domain self] :: ev).
Proof.
  intros cmd skipped Hfile Hstatus.
  assert (for_steps E (steps E self) w
          = (let '(r, w', ev) := for_steps E (drop 2 (steps E self)) w in
             (r, w', skipped ++ ev))) as Hloop.
  { unfold steps. cbn [drop].
    rewrite (for_steps_cons E (Step E (py "run_subfinder") (run_subfinder E self))
               _ w false w _ (run_subfinder_not_started E self w e Hstatus)).
    rewrite (for_steps_cons E (Step E (py "run_httpx") (run_httpx E self))
               _ w false w _ (run_httpx_gated E self w Hfile)).
    by destruct (for_steps E _ w) as [[r w'] ev]. }
  split; [done|].
  rewrite run_pipeline_eq, Hloop. unfold steps. cbn [drop].
  destruct (run_waybackurls_starts E self w) as (b & w1 & ev1 & Hc).
  rewrite (for_steps_cons E
             (Step E (py "run_waybackurls") (run_waybackurls E self))
             _ w b w1 _ Hc).
  destruct (for_steps E _ w1) as [[[u|e'] w2] ev2]; cbn [app];
    rewrite <- ?app_assoc; cbn [app]; eauto.
Qed.

Lemma failed_enumeration_skips_probe_witness :
  let e := Exn FileNotFoundError
             (py "[Errno 2] No such file or directory: 'subfinder'") in
  let E := sample_env (without_tool (py "subfinder") e) no_json in
  let w : world E := World E ∅ () in
  let cmd := [py "subfinder"; py "-d"; domain sample_recon; py "-o";
              subdomain_file sample_recon; py "-all"; py "-silent"] in
  let skipped :=
    [ EPrint (nl ++ py "[1/9] Running subfinder on " ++ domain sample_recon);
      EExec cmd;
      EPrint (py "    ✗ subfinder failed: " ++ msg e);
      failure_notice (py "run_subfinder");
      EPrint (nl ++ py "[2/9] Running httpx");
      EPrint (py "    ✗ subdomains.txt not found");
      failure_notice (py "run_httpx") ] in
  for_steps E (steps E sample_recon) w
  = (let '(r, w', ev) := for_steps E (drop 2 (steps E sample_recon)) w in
     (r, w', skipped ++ ev))
  ∧ ∃ r w' ev,
      run_pipeline E sample_recon w
      = (r, w',
         skipped
         ++ EPrint (nl ++ py "[3/9] Running waybackurls")
            :: EWrite (wayback_file sample_recon) []
            :: EExec [py "waybackurls"; domain sample_recon] :: ev).
Proof.
  intros e E w cmd skipped.
  apply (failed_enumeration_skips_probe E sample_recon w e); compute_done.
Defined.

Section Lines.
Implicit Types (s u cur body line : str) (c : N).

Lemma nl_eq : nl = [10].
Proof. vm_compute. reflexivity. Qed.

Lemma isspace_lf : isspace 10 = true.
Proof. vm_compute. reflexivity. Qed.

Lemma lstrip_head s :
  lstrip s = [] ∨ ∃ c t, lstrip s = c :: t ∧ isspace c = false.
Proof.
  induction s as [|c s IH]; [by left|].
  cbn [lstrip]. destruct (isspace c) eqn:Hc; [done|]. right. eauto.
Qed.

Lemma lstrip_fixed c s : isspace c = false → lstrip (c :: s) = c :: s.
Proof. intros Hc. cbn [lstrip]. by rewrite Hc. Qed.

Lemma lstrip_idem s : lstrip (lstrip s) = lstrip s.
Proof.
  destruct (lstrip_head s) as [->|(c & t & -> & Hc)]; [done|].
  by apply lstrip_fixed.
Qed.

Lemma rstrip_idem s : rstrip (rstrip s) = rstrip s.
Proof. unfold rstrip. by rewrite reverse_involutive, lstrip_idem. Qed.

Lemma rstrip_keeps_head c s :
  isspace c = false → ∃ t, rstrip (c :: s) = c :: t.
Proof.
  intros Hc. destruct (rstrip_spec (c :: s)) as (ws & Hs & Hws).
  destruct (rstrip (c :: s)) as [|c' t].
  - cbn [app] in Hs. subst ws. apply Forall_cons in Hws as [Hc' _]. congruence.
  - injection Hs as <- _. eauto.
Qed.

Lemma strip_idem s : strip (strip s) = strip s.
Proof.
  unfold strip at 2 3.
  destruct (lstrip_head s) as [->|(c & t & -> & Hc)]; [done|].
  destruct (rstrip_keeps_head c t Hc) as [t' Ht]. unfold strip.
  rewrite Ht, (lstrip_fixed _ _ Hc), <- Ht. apply rstrip_idem.
Qed.

Lemma lstrip_app s1 s2 :
  lstrip (s1 ++ s2) = match lstrip s1 with [] => lstrip s2 | l => l ++ s2 end.
Proof.
  induction s1 as [|c s1 IH]; [done|].
  cbn [app lstrip]. by destruct (isspace c).
Qed.

(** The line feed that ends a line does not survive [strip]. *)
Lemma strip_app_lf s : strip (s ++ [10]) = strip s.
Proof.
  unfold strip. rewrite lstrip_app.
  destruct (lstrip s) as [|c l] eqn:Hl.
  - cbn [lstrip]. by rewrite isspace_lf.
  - unfold rstrip. rewrite reverse_app. cbn [reverse rev_append app lstrip].
    change (rev_append [10] []) with [10]. cbn [app lstrip].
    by rewrite isspace_lf.
Qed.

Lemma elem_of_strip c s : c ∈ strip s → c ∈ s.
Proof.
  unfold strip. intros Hc.
  destruct (lstrip_spec s) as (ws1 & H1 & _).
  destruct (rstrip_spec (lstrip s)) as (ws2 & H2 & _).
  rewrite H1, H2. set_solver.
Qed.

Lemma universal_newlines_no_cr s :
  (13 ∉ universal_newlines s) ∧ ∀ c, 13 ∉ universal_newlines (c :: s).
Proof.
  induction s as [|a s [IH1 IH2]].
  - split; [set_solver|]. intros c. cbn [universal_newlines].
    destruct (N.eqb_spec c 13); set_solver.
  - split; [apply IH2|]. intros c. cbn [universal_newlines].
    destruct (N.eqb_spec c 13) as [->|Hc].
    + destruct (a =? 10).
      * apply not_elem_of_cons. split; [done|apply IH1].
      * apply not_elem_of_cons. split; [done|apply IH2].
    + apply not_elem_of_cons. split; [done|apply IH2].
Qed.

Lemma universal_newlines_id s : 13 ∉ s → universal_newlines s = s.
Proof.
  induction s as [|c s IH]; [done|]. intros [Hc Hs]%not_elem_of_cons.
  cbn [universal_newlines]. destruct (N.eqb_spec c 13); [done|].
  by rewrite IH.
Qed.

(** A line read from a text: a body without line feed, then perhaps the
    line feed; its characters come from the text. *)
Lemma lines_go_body s : ∀ cur line,
  10 ∉ cur → line ∈ lines_go cur s →
  ∃ body, (10 ∉ body) ∧ (line = body ++ [10] ∨ line = body)
          ∧ ∀ c, c ∈ body → c ∈ cur ∨ c ∈ s.
Proof.
  induction s as [|a s IH]; intros cur line Hcur Hline.
  - cbn [lines_go] in Hline. destruct cur as [|c cur]; [set_solver|].
    apply list_elem_of_singleton in Hline as ->.
    exists (reverse (c :: cur)). split_and!.
    + by rewrite elem_of_reverse.
    + by right.
    + intros x Hx. rewrite elem_of_reverse in Hx. by left.
  - cbn [lines_go] in Hline. unfold LF in Hline.
    destruct (N.eqb_spec a 10) as [->|Ha].
    + apply elem_of_cons in Hline as [->|Hline].
      * exists (reverse cur). split_and!.
        -- by rewrite elem_of_reverse.
        -- left. by rewrite reverse_cons.
        -- intros x Hx. rewrite elem_of_reverse in Hx. by left.
      * destruct (IH [] line) as (body & Hb & Hl & Hc); [set_solver|done|].
        exists body. split_and!; [done..|].
        intros x Hx. destruct (Hc x Hx); set_solver.
    + destruct (IH (a :: cur) line) as (body & Hb & Hl & Hc); [set_solver|done|].
      exists body. split_and!; [done..|].
      intros x Hx. destruct (Hc x Hx); set_solver.
Qed.

Lemma lines_go_line u : ∀ cur rest,
  10 ∉ u →
  lines_go cur (u ++ 10 :: rest)
  = (reverse cur ++ u ++ [10]) :: lines_go [] rest.
Proof.
  induction u as [|c u IH]; intros cur rest Hu.
  - cbn [app lines_go]. unfold LF. cbn [N.eqb Pos.eqb].
    by rewrite reverse_cons.
  - apply not_elem_of_cons in Hu as [Hc Hu].
    cbn [app lines_go]. unfold LF.
    destruct (N.eqb_spec c 10); [done|].
    rewrite IH by done. by rewrite reverse_cons, <- !app_assoc.
Qed.

Lemma lines_go_join (out : list str) :
  Forall (λ u, 10 ∉ u) out →
  lines_go [] (concat ((λ u, u ++ [10]) <$> out)) = (λ u, u ++ [10]) <$> out.
Proof.
  induction 1 as [|u out Hu _ IH]; [done|].
  rewrite fmap_cons. cbn [concat]. rewrite <- app_assoc. cbn [app].
  by rewrite lines_go_line, IH.
Qed.

Lemma not_elem_of_concat_lines (out : list str) c :
  c ≠ 10 → Forall (λ u, c ∉ u) out →
  c ∉ concat ((λ u, u ++ [10]) <$> out).
Proof.
  intros Hc. induction 1 as [|u out Hu _ IH]; [set_solver|].
  rewrite fmap_cons. cbn [concat]. set_solver.
Qed.

(** Lines written one per line are read back as they were written. *)
Lemma readlines_join (out : list str) :
  Forall (λ u, 10 ∉ u) out → Forall (λ u, 13 ∉ u) out →
  readlines (concat ((λ u, u ++ nl) <$> out)) = (λ u, u ++ nl) <$> out.
Proof.
  intros H10 H13. rewrite nl_eq. unfold readlines.
  rewrite universal_newlines_id by by apply not_elem_of_concat_lines.
  by apply lines_go_join.
Qed.

(** What [strip] gives on a line read from a text: no line feed, no
    carriage return, and nothing left to strip. *)
Lemma strip_read_line content line :
  line ∈ readlines content →
  (10 ∉ strip line) ∧ (13 ∉ strip line)
  ∧ strip (strip line ++ nl) = strip line.
Proof.
  unfold readlines. intros Hline.
  destruct (lines_go_body (universal_newlines content) [] line)
    as (body & Hb & Hl & Hc); [set_solver|done|].
  assert (strip line = strip body) as ->.
  { destruct Hl as [->| ->]; [apply strip_app_lf|done]. }
  split_and!.
  - by intros ?%elem_of_strip.
  - intros H13%elem_of_strip. destruct (Hc _ H13) as [?|Hin]; [set_solver|].
    by apply (proj1 (universal_newlines_no_cr content)).
  - by rewrite nl_eq, strip_app_lf, strip_idem.
Qed.
End Lines.

Section ReadBack.
Variable self : WebSecurityRecon.

Lemma fmap_fixed {A} (f : A → A) (l : list A) :
  Forall (λ x, f x = x) l → f <$> l = l.
Proof.
  induction 1 as [|x l Hx _ IH]; [done|]. by rewrite fmap_cons, Hx, IH.
Qed.

(** Every URL of the set is a clean line: no line break inside, nothing to
    strip, and a marker in it. *)
Lemma js_url_facts (f : files) (u : str) :
  u ∈ js_url_set self f →
  (10 ∉ u) ∧ (13 ∉ u) ∧ strip (u ++ nl) = u ∧ is_js u = true.
Proof.
  unfold js_url_set.
  rewrite elem_of_list_to_set, list_elem_of_fmap.
  intros (line & -> & [Hjs Hin]%list_elem_of_filter).
  assert (∃ content, line ∈ readlines content) as [content Hline].
  { apply elem_of_app in Hin as [Hin|Hin]; unfold file_lines in Hin.
    - destruct (f !! katana_file self) as [[c|? ?]|]; [eauto|set_solver..].
    - destruct (f !! wayback_file self) as [[c|? ?]|]; [eauto|set_solver..]. }
  destruct (strip_read_line content line Hline) as (H10 & H13 & Hs).
  split_and!; [done..|]. by rewrite is_js_strip.
Qed.
End ReadBack.

(** X15: the list of JavaScript URLs reads back.  After a successful
    extraction, [js_files.txt] read line by line and stripped, as the step
    itself reads its inputs, gives back the URLs of the set in increasing
    order, one per line; and every line of the file again contains [.js]
    or [/js/]. *)
Theorem js_files_reads_back (E : Env) (self : WebSecurityRecon)
    (w w1 : world E) (ev : list event) :
  extract_js_files E self w = (Ok true, w1, ev) →
  ∃ text,
    fs E w1 !! js_files self = Some (Text text)
    ∧ strip <$> readlines text
      = sorted (elements (js_url_set self (fs E w)))
    ∧ Forall (λ line, is_js line = true) (readlines text).
Proof.
  rewrite extract_js_files_eq. cbv zeta.
  destruct (decode_error _ (katana_file self)); [done|].
  destruct (decode_error _ (wayback_file self)); [done|].
  destruct (decide (js_url_set self (fs E w) = ∅)) as [?|Hne]; [done|].
  intros [= <- <-]. eexists. split; [apply lookup_insert_eq|].
  set (out := sorted (elements (js_url_set self (fs E w)))).
  assert (Forall (λ u, (10 ∉ u) ∧ (13 ∉ u) ∧ strip (u ++ nl) = u
                       ∧ is_js u = true) out) as Hout.
  { apply Forall_forall. intros u Hu. apply (js_url_facts self (fs E w)).
    unfold out in Hu. by rewrite elem_of_sorted, elem_of_elements in Hu. }
  rewrite readlines_join.
  - split.
    + rewrite <- list_fmap_compose. apply fmap_fixed.
      eapply Forall_impl; [exact Hout|]. by intros u (_ & _ & ? & _).
    + apply Forall_fmap. eapply Forall_impl; [exact Hout|].
      intros u (_ & _ & Hs & Hjs). cbn. by rewrite <- is_js_strip, Hs.
  - eapply Forall_impl; [exact Hout|]. by intros u [? _].
  - eapply Forall_impl; [exact Hout|]. by intros u (_ & ? & _).
Qed.

Lemma js_files_reads_back_witness :
  let E := sample_env all_succeed no_json in
  let w : world E := World E crawled () in
  ∃ text,
    fs E (extract_js_files E sample_recon w).1.2 !! js_files sample_recon
    = Some (Text text)
    ∧ strip <$> readlines text
      = sorted (elements (js_url_set sample_recon (fs E w)))
    ∧ Forall (λ line, is_js line = true) (readlines text).
Proof.
  intros E w.
  apply (js_files_reads_back E sample_recon w _
           (extract_js_files E sample_recon w).2).
  compute_done.
Defined.

(** ** What a run touches *)

Section Footprint.
Context {E : Env}.
Variable P : event → Prop.

Lemma emits_ret {A} (a : A) : emits P (mret a : M E A).
Proof. intros w. constructor. Qed.

Lemma emits_lift {A} (r : result A) : emits P (lift E r).
Proof. intros w. constructor. Qed.

Lemma emits_bind {A B} (m : M E A) (f : A → M E B) :
  emits P m → (∀ a, emits P (f a)) → emits P (m ≫= f).
Proof.
  intros Hm Hf w. specialize (Hm w). unfold mbind, M_bind, bind.
  destruct (m w) as [[[a|e] w1] ev1]; [|done].
  specialize (Hf a w1). destruct (f a w1) as [[r w2] ev2].
  by apply Forall_app.
Qed.

Lemma emits_try_except {A} (body : M E A) (handler : exn → M E A) :
  emits P body → (∀ e, emits P (handler e)) →
  emits P (try_except E body handler).
Proof.
  intros Hm Hf w. specialize (Hm w). unfold try_except.
  destruct (body w) as [[[a|e] w1] ev1]; [done|].
  specialize (Hf e w1). destruct (handler e w1) as [[r w2] ev2].
  by apply Forall_app.
Qed.

Lemma emits_try_except_of {A} classes (body : M E A)
    (handler : exn → M E A) :
  emits P body → (∀ e, emits P (handler e)) →
  emits P (try_except_of E classes body handler).
Proof.
  intros Hm Hf w. specialize (Hm w). unfold try_except_of.
  destruct (body w) as [[[a|e] w1] ev1]; [done|].
  destruct (bool_decide _); [|done].
  specialize (Hf e w1). destruct (handler e w1) as [[r w2] ev2].
  by apply Forall_app.
Qed.

Lemma emits_if {A} (b : bool) (m1 m2 : M E A) :
  emits P m1 → emits P m2 → emits P (if b then m1 else m2).
Proof. by destruct b. Qed.

Lemma emits_exists_ path : emits P (exists_ E path).
Proof. intros w. constructor. Qed.

Lemma emits_print text : P (EPrint text) → emits P (print E text).
Proof. intros H w. by repeat constructor. Qed.

Lemma emits_open_r path : P (EOpenRead path) → emits P (open_r E path).
Proof.
  intros H w. unfold open_r.
  destruct (fs E w !! path) as [[?|? ?]|]; by repeat constructor.
Qed.

Lemma emits_open_readline path :
  P (EOpenRead path) → emits P (open_readline E path).
Proof.
  intros H w. unfold open_readline.
  destruct (fs E w !! path) as [[?|[?|] ?]|]; by repeat constructor.
Qed.

Lemma emits_open_w path content :
  P (EWrite path content) → emits P (open_w E path content).
Proof. intros H w. by repeat constructor. Qed.

Lemma emits_subprocess_run argv stdout_to :
  P (EExec argv) → emits P (subprocess_run E argv stdout_to).
Proof.
  intros H w. unfold subprocess_run. cbv zeta.
  destruct (status _); [destruct (bool_decide _)|]; by repeat constructor.
Qed.
End Footprint.

Lemma emits_impl {E : Env} (P Q : event → Prop) {A} (m : M E A) :
  (∀ e, P e → Q e) → emits P m → emits Q m.
Proof. intros HPQ Hm w. eapply Forall_impl; [apply Hm|done]. Qed.

Ltac emits_step :=
  first
    [ apply emits_ret
    | apply emits_lift
    | apply emits_exists_
    | apply emits_print; exact I
    | apply emits_if
    | apply emits_try_except; [|intros ?]
    | apply emits_bind; [|intros ?] ].


Section StepFootprint.
Context {E : Env}.
Variable self : WebSecurityRecon.

Ltac in_list :=
  repeat first [apply list_elem_of_here | apply list_elem_of_further].

Ltac runs_tool :=
  apply emits_subprocess_run; do 2 eexists;
  split; [|reflexivity]; unfold tools; in_list.

Ltac opens_file :=
  first [apply emits_open_r | apply emits_open_readline | apply emits_open_w];
  unfold footprint, read_files, written_files; in_list.

Lemma run_subfinder_footprint : emits (footprint self) (run_subfinder E self).
Proof.
  unfold run_subfinder. cbv zeta. repeat emits_step. runs_tool.
Qed.

Lemma run_httpx_footprint : emits (footprint self) (run_httpx E self).
Proof.
  unfold run_httpx. cbv zeta. repeat emits_step. runs_tool.
Qed.

Lemma run_waybackurls_footprint :
  emits (footprint self) (run_waybackurls E self).
Proof.
  unfold run_waybackurls. cbv zeta. repeat emits_step; [opens_file|runs_tool].
Qed.

Lemma run_gau_footprint : emits (footprint self) (run_gau E self).
Proof.
  unfold run_gau. cbv zeta. repeat emits_step. runs_tool.
Qed.

Lemma run_katana_crawl_footprint :
  emits (footprint self) (run_katana_crawl E self).
Proof.
  unfold run_katana_crawl. cbv zeta. repeat emits_step. runs_tool.
Qed.

Lemma scan_for_js_footprint path js_urls :
  path ∈ read_files self →
  emits (footprint self) (scan_for_js E path js_urls).
Proof.
  intros Hin. unfold scan_for_js. repeat emits_step. by apply emits_open_r.
Qed.

Lemma extract_js_files_footprint :
  emits (footprint self) (extract_js_files E self).
Proof.
  unfold extract_js_files. emits_step; [emits_step|].
  emits_step; [apply scan_for_js_footprint; unfold read_files; in_list|].
  emits_step; [apply scan_for_js_footprint; unfold read_files; in_list|].
  repeat emits_step. opens_file.
Qed.

Lemma run_nuclei_scan_footprint :
  emits (footprint self) (run_nuclei_scan E self).
Proof.
  unfold run_nuclei_scan. cbv zeta. repeat emits_step. runs_tool.
Qed.

Lemma run_subdomain_takeover_footprint :
  emits (footprint self) (run_subdomain_takeover E self).
Proof.
  unfold run_subdomain_takeover. cbv zeta. repeat emits_step. runs_tool.
Qed.

Lemma run_directory_bruteforce_footprint :
  emits (footprint self) (run_directory_bruteforce E self).
Proof.
  unfold run_directory_bruteforce, bruteforce_body, ffuf_failed, fuzz,
    report_ffuf_results.
  cbv zeta. repeat emits_step; [opens_file|opens_file|runs_tool|opens_file].
Qed.

Lemma for_steps_footprint sts :
  Forall (λ s, emits (footprint self) (call E s)) sts →
  emits (footprint self) (for_steps E sts).
Proof.
  induction 1 as [|s sts Hs _ IH]; cbn [for_steps]; [apply emits_ret|].
  repeat emits_step; done.
Qed.

Lemma run_pipeline_footprint :
  emits (footprint self) (run_pipeline E self).
Proof.
  unfold run_pipeline. emits_step; [|by repeat emits_step].
  apply for_steps_footprint. unfold steps.
  repeat apply Forall_cons_2; [..|apply Forall_nil_2]; cbn [call].
  - apply run_subfinder_footprint.
  - apply run_httpx_footprint.
  - apply run_waybackurls_footprint.
  - apply run_gau_footprint.
  - apply run_katana_crawl_footprint.
  - apply extract_js_files_footprint.
  - apply run_nuclei_scan_footprint.
  - apply run_subdomain_takeover_footprint.
  - apply run_directory_bruteforce_footprint.
Qed.

Lemma check_tool_installed_probes tool hint :
  (tool, hint) ∈ tools → emits probes (check_tool_installed E tool).
Proof.
  intros Hin. unfold check_tool_installed.
  apply emits_try_except_of; [|intros ?; apply emits_ret].
  apply emits_bind; [|intros ?; apply emits_ret].
  apply emits_subprocess_run. by exists tool, hint.
Qed.

Lemma check_each_probes ts : ∀ missing,
  ts ⊆ tools → emits probes (check_each E ts missing).
Proof.
  induction ts as [|[tool hint] ts IH]; intros missing Hsub;
    cbn [check_each]; [apply emits_ret|].
  assert (ts ⊆ tools) by (intros x Hx; apply Hsub; by right).
  emits_step.
  { apply (check_tool_installed_probes tool hint), Hsub. by left. }
  repeat emits_step; by apply IH.
Qed.

Lemma print_missing_probes missing : emits probes (print_missing E missing).
Proof.
  induction missing as [|[tool cmd] rest IH]; cbn [print_missing];
    repeat emits_step; done.
Qed.

Lemma check_dependencies_probes : emits probes (check_dependencies E).
Proof.
  unfold check_dependencies. emits_step; [emits_step|].
  emits_step; [apply check_each_probes; by intros x Hx|].
  match goal with |- emits _ (match ?m with _ => _ end) => destruct m end;
    repeat emits_step.
  apply print_missing_probes.
Qed.

Lemma probes_footprint e : probes e → footprint self e.
Proof.
  destruct e as [| | |argv]; cbn; try done.
  intros (tool & hint & Hin & ->). by exists tool, hint.
Qed.

Lemma start_footprint : emits (footprint self) (start E self).
Proof.
  unfold start, print_banner. emits_step; [emits_step|].
  emits_step; [|emits_step].
  - eapply emits_impl; [apply probes_footprint|apply check_dependencies_probes].
  - apply emits_ret.
  - apply run_pipeline_footprint.
Qed.
End StepFootprint.

Lemma elem_of_commands (ev : list event) (argv : list str) :
  argv ∈ commands ev ↔ EExec argv ∈ ev.
Proof.
  unfold commands. rewrite list_elem_of_omap. split.
  - intros (e & He & Heq). destruct e; by simplify_eq.
  - intros He. by exists (EExec argv).
Qed.

Lemma start_events (E : Env) (self : WebSecurityRecon) (w : world E) :
  ∃ ev1 ev2,
    (start E self w).2 = EPrint banner :: ev1 ++ ev2
    ∧ Forall probes ev1
    ∧ Forall (footprint self) ev2
    ∧ (ev2 ≠ [] → commands ev1 = (λ t, probe t.1) <$> tools).
Proof.
  rewrite start_eq.
  pose proof (@check_dependencies_probes E w) as Hprobes.
  destruct (check_dependencies E w) as [[[ok|e] w1] ev1] eqn:Hcheck;
    cbn [snd] in Hprobes.
  - destruct ok.
    + pose proof (run_pipeline_footprint self w1) as Hrun.
      destruct (run_pipeline E self w1) as [[r w2] ev2]. cbn [snd] in Hrun.
      exists ev1, ev2. split_and!; [done..|]. intros _.
      by destruct (check_dependencies_report E w true w1 ev1 Hcheck)
        as (oks & _ & _ & _ & ->).
    + exists ev1, []. by rewrite app_nil_r.
  - exists ev1, []. by rewrite app_nil_r.
Qed.

(** X16: the files a run opens.  In any run of [start], in any environment
    and from any workspace, however it ends: the script opens for reading
    only the crawl output, the wayback file, the alive-host list and the
    brute-forcer's result file, and writes itself only the wayback file,
    the list of JavaScript URLs and the word list.  The subdomain list, the
    gau, nuclei and takeover files are left to the tools. *)
Theorem start_file_footprint (E : Env) (self : WebSecurityRecon)
    (w : world E) (e : event) :
  e ∈ (start E self w).2 →
  match e with
  | EOpenRead path =>
    path ∈ [katana_file self; wayback_file self; alive_file self;
            ffuf_file self]
  | EWrite path _ => path ∈ [wayback_file self; js_files self; wordlist self]
  | _ => True
  end.
Proof.
  intros He.
  pose proof (start_footprint self w) as Hall.
  rewrite Forall_forall in Hall. specialize (Hall e He).
  by destruct e.
Qed.

Lemma start_file_footprint_witness :
  let E := sample_env all_succeed no_json in
  let w : world E :=
    World E (alive_only (py "https://example.com [200]" ++ nl)) () in
  wordlist sample_recon
  ∈ [wayback_file sample_recon; js_files sample_recon;
     wordlist sample_recon].
Proof.
  intros E w.
  apply (start_file_footprint E sample_recon w
           (EWrite (wordlist sample_recon) wordlist_text)).
  compute_done.
Defined.

(** X17: no program is run before it has been probed.  Every command a run
    of [start] executes starts with the name of a tool of the dependency
    table; it is either the help invocation of that tool, or that help
    invocation has been executed earlier in the run. *)
Theorem probed_before_run (E : Env) (self : WebSecurityRecon)
    (w : world E) (pre post : list event) (argv : list str) :
  (start E self w).2 = pre ++ EExec argv :: post →
  ∃ tool hint,
    (tool, hint) ∈ tools
    ∧ head argv = Some tool
    ∧ (argv = probe tool ∨ EExec (probe tool) ∈ pre).
Proof.
  destruct (start_events E self w) as (ev1 & ev2 & -> & Hev1 & Hev2 & Hcmd).
  rewrite Forall_forall in Hev1. rewrite Forall_forall in Hev2.
  assert (EExec argv ∈ ev2 →
          ∃ tool hint, (tool, hint) ∈ tools ∧ head argv = Some tool
                       ∧ EExec (probe tool) ∈ ev1) as Hpipeline.
  { intros Hin. destruct (Hev2 _ Hin) as (tool & hint & Ht & Hhead).
    exists tool, hint. split_and!; [done..|].
    apply elem_of_commands. rewrite Hcmd by (by destruct ev2; [inversion Hin|]).
    apply list_elem_of_fmap. by exists (tool, hint). }
  change (EPrint banner :: ev1 ++ ev2) with ((EPrint banner :: ev1) ++ ev2).
  intros [l [[Hl Hr]|[Hl Hr]]]%List.app_eq_app.
  - destruct l as [|e l].
    + cbn [app] in Hr. rewrite app_nil_r in Hl.
      destruct Hpipeline as (tool & hint & ? & ? & ?);
        [rewrite <- Hr; by left|].
      exists tool, hint. split_and!; [done..|right]. rewrite <- Hl. by right.
    + injection Hr as <- _.
      assert (EExec argv ∈ ev1) as Hin.
      { assert (EExec argv ∈ EPrint banner :: ev1) as [?|?]%elem_of_cons;
          [|done..].
        rewrite Hl. apply elem_of_app. right. by left. }
      destruct (Hev1 _ Hin) as (tool & hint & ? & ->).
      exists tool, hint. split_and!; [done..|by left].
  - destruct Hpipeline as (tool & hint & ? & ? & ?).
    { rewrite Hr. apply elem_of_app. right. by left. }
    exists tool, hint. split_and!; [done..|right].
    rewrite Hl. apply elem_of_app. left. by right.
Qed.

Lemma probed_before_run_witness :
  let E := sample_env all_succeed no_json in
  let w : world E := World E ∅ () in
  let ev := (start E sample_recon w).2 in
  ∃ tool hint,
    (tool, hint) ∈ tools
    ∧ head [py "subfinder"; py "-d"; py "example.com"; py "-o";
            py "web_recon/subdomains.txt"; py "-all"; py "-silent"]
      = Some tool
    ∧ ([py "subfinder"; py "-d"; py "example.com"; py "-o";
        py "web_recon/subdomains.txt"; py "-all"; py "-silent"]
       = probe tool
       ∨ EExec (probe tool) ∈ take 19 ev).
Proof.
  intros E w ev.
  apply (probed_before_run E sample_recon w (take 19 ev) (drop 20 ev)).
  compute_done.
Defined.
